(** * Task manager: the Student / MainTask / SubTask aggregate

    A shallow embedding of [task_manager.py]: the three entity classes, their
    serialisation to dictionaries, the SHA-256 credential scheme and the
    JSON-backed [StudentDatabase].  Python objects become records, methods that
    mutate [self] become state-passing functions that return the outcome of the
    call together with the object as the call left it, and exceptions become a
    [result] type.

    Conventions of the embedding:
    - a Python [str] is a [string] of 8-bit characters; [str.lower] is the ASCII
      lower-casing and the regular-expression class [\d] is [0-9];
    - a Python [int] is a [Z];
    - a [datetime] produced by [strptime(..., '%d/%m/%Y')] has a zero time of
      day, so it is a calendar date and ordering is lexicographic on
      (year, month, day);
    - floating-point JSON numbers have no counterpart in [value]. *)

From Stdlib Require Import ZArith NArith String Ascii List Bool Lia.
From stdpp Require Import base option list gmap strings.

Import ListNotations.
Local Open Scope string_scope.

(** ** Exceptions and outcomes *)

Inductive exn : Set :=
| ValueError
| IndexError
| KeyError
| TypeError
| AttributeError
| FileNotFoundError
| JSONDecodeError.

Inductive result (A : Type) : Type :=
| Ok (a : A)
| Raise (e : exn).
Arguments Ok {A} a.
Arguments Raise {A} e.

Definition is_ok {A} (r : result A) : bool :=
  match r with Ok _ => true | Raise _ => false end.

Definition rbind {A B} (r : result A) (k : A -> result B) : result B :=
  match r with
  | Ok a => k a
  | Raise e => Raise e
  end.

Notation "x <-r c ;; k" := (rbind c (fun x => k))
  (at level 100, c at next level, right associativity).

Fixpoint mapR {A B} (f : A -> result B) (l : list A) : result (list B) :=
  match l with
  | [] => Ok []
  | a :: l' => b <-r f a ;; bs <-r mapR f l' ;; Ok (b :: bs)
  end.

(** A method that mutates [self]: the outcome of the call and [self] as the
    call left it.  A [raise] keeps every assignment made before it. *)
Definition method (S A : Type) : Type := S -> result A * S.

Definition m_ret {S A} (a : A) : method S A := fun s => (Ok a, s).
Definition m_raise {S A} (e : exn) : method S A := fun s => (Raise e, s).
Definition m_bind {S A B} (m : method S A) (k : A -> method S B) : method S B :=
  fun s => match m s with
           | (Ok a, s') => k a s'
           | (Raise e, s') => (Raise e, s')
           end.
Definition m_lift {S A} (r : result A) : method S A := fun s => (r, s).
Definition m_modify {S} (f : S -> S) : method S unit := fun s => (Ok tt, f s).

Notation "x <-m c ;; k" := (m_bind c (fun x => k))
  (at level 100, c at next level, right associativity).
Notation "c ;;m k" := (m_bind c (fun _ => k))
  (at level 100, k at level 200, right associativity).

(** ** Strings *)

Module Str.

Definition of_list (l : list ascii) : string := string_of_list_ascii l.
Definition to_list (s : string) : list ascii := list_ascii_of_string s.

(** Truth value of a [str]: non-empty. *)
Definition truthy (s : string) : bool :=
  match s with EmptyString => false | String _ _ => true end.

(** Truth value of an [Optional[str]] argument: [None] and [''] are false. *)
Definition provided (o : option string) : bool :=
  match o with None => false | Some s => truthy s end.

Definition lower_char (c : ascii) : ascii :=
  let n := nat_of_ascii c in
  if (65 <=? n)%nat && (n <=? 90)%nat then ascii_of_nat (n + 32) else c.

Fixpoint lower (s : string) : string :=
  match s with
  | EmptyString => EmptyString
  | String c s' => String (lower_char c) (lower s')
  end.

(** [needle in hay]. *)
Fixpoint contains (needle hay : string) : bool :=
  String.prefix needle hay ||
  match hay with
  | EmptyString => false
  | String _ hay' => contains needle hay'
  end.

(** [s.split(sep)] for a one-character separator. *)
Fixpoint split (sep : ascii) (s : string) : list string :=
  match s with
  | EmptyString => [EmptyString]
  | String c s' =>
      if Ascii.eqb c sep then EmptyString :: split sep s'
      else match split sep s' with
           | [] => [String c EmptyString]
           | p :: ps => String c p :: ps
           end
  end.

(** [s[:n]]. *)
Definition take (n : nat) (s : string) : string := String.substring 0 n s.

Fixpoint mem (c : ascii) (s : string) : bool :=
  match s with
  | EmptyString => false
  | String c' s' => Ascii.eqb c c' || mem c s'
  end.

End Str.

(** ** SHA-256 ([hashlib.sha256(...).hexdigest()]) *)

Module SHA256.
Local Open Scope N_scope.

Definition mask32 : N := 0xffffffff.
Definition w32 (x : N) : N := N.land x mask32.
Definition add32 (x y : N) : N := w32 (x + y).
Definition rotr (n x : N) : N := w32 (N.lor (N.shiftr x n) (N.shiftl x (32 - n))).
Definition shr (n x : N) : N := N.shiftr x n.
Definition not32 (x : N) : N := N.lxor x mask32.

Definition Ch (x y z : N) : N := N.lxor (N.land x y) (N.land (not32 x) z).
Definition Maj (x y z : N) : N :=
  N.lxor (N.lxor (N.land x y) (N.land x z)) (N.land y z).
Definition Sigma0 (x : N) : N := N.lxor (N.lxor (rotr 2 x) (rotr 13 x)) (rotr 22 x).
Definition Sigma1 (x : N) : N := N.lxor (N.lxor (rotr 6 x) (rotr 11 x)) (rotr 25 x).
Definition sigma0 (x : N) : N := N.lxor (N.lxor (rotr 7 x) (rotr 18 x)) (shr 3 x).
Definition sigma1 (x : N) : N := N.lxor (N.lxor (rotr 17 x) (rotr 19 x)) (shr 10 x).

(** The constants as the standard defines them: the first 32 bits of the
    fractional parts of the cube roots of the first 64 primes, and of the
    square roots of the first 8 primes. *)
Definition is_prime (n : nat) : bool :=
  (2 <=? n)%nat && forallb (fun d => negb (n mod d =? 0)%nat) (seq 2 (n - 2)).

Definition primes (count : nat) : list N :=
  map N.of_nat (firstn count (List.filter is_prime (seq 2 320))).

(** The largest [x] below [2 ^ bits] with [x ^ 3 <= n], found bit by bit. *)
Fixpoint cube_root (bits : nat) (n acc : N) : N :=
  match bits with
  | O => acc
  | S bits' =>
      let candidate := acc + 2 ^ N.of_nat bits' in
      if candidate ^ 3 <=? n then cube_root bits' n candidate
      else cube_root bits' n acc
  end.

Definition K : list N :=
  Eval vm_compute in
    map (fun p => w32 (cube_root 40 (p * 2 ^ 96) 0)) (primes 64).

Definition H0 : list N :=
  Eval vm_compute in
    map (fun p => w32 (N.sqrt (p * 2 ^ 64))) (primes 8).

(** Padding: the byte 0x80, zero bytes up to 56 modulo 64, then the length
    of the message in bits as eight big-endian bytes. *)
Definition be_bytes (width : nat) (x : N) : list N :=
  map (fun i => N.land (N.shiftr x (8 * N.of_nat i)) 0xff) (rev (seq 0 width)).

Definition pad (msg : list N) : list N :=
  let len := List.length msg in
  let zeros := ((64 - ((len + 9) mod 64)) mod 64)%nat in
  msg ++ [0x80] ++ repeat 0 zeros ++ be_bytes 8 (8 * N.of_nat len).

Fixpoint be_words (fuel : nat) (bs : list N) : list N :=
  match fuel, bs with
  | S fuel', b0 :: b1 :: b2 :: b3 :: bs' =>
      (N.shiftl b0 24 + N.shiftl b1 16 + N.shiftl b2 8 + b3) :: be_words fuel' bs'
  | _, _ => []
  end.

(** The message schedule, kept newest-first: [w] holds W[t-1], W[t-2], ... *)
Fixpoint schedule (n : nat) (w : list N) : list N :=
  match n with
  | O => w
  | S n' =>
      let wt := add32 (add32 (sigma1 (nth 1 w 0)) (nth 6 w 0))
                      (add32 (sigma0 (nth 14 w 0)) (nth 15 w 0)) in
      schedule n' (wt :: w)
  end.

Definition round (st : list N) (kw : N * N) : list N :=
  match st with
  | [a; b; c; d; e; f; g; h] =>
      let t1 := add32 (add32 (add32 h (Sigma1 e)) (add32 (Ch e f g) (fst kw))) (snd kw) in
      let t2 := add32 (Sigma0 a) (Maj a b c) in
      [add32 t1 t2; a; b; c; add32 d t1; e; f; g]
  | _ => st
  end.

Definition compress (h : list N) (block : list N) : list N :=
  let w := rev (schedule 48 (rev block)) in
  let st := fold_left round (combine K w) h in
  map (fun p => add32 (fst p) (snd p)) (combine h st).

Fixpoint blocks (fuel : nat) (ws : list N) : list (list N) :=
  match fuel, ws with
  | S fuel', _ :: _ => firstn 16 ws :: blocks fuel' (skipn 16 ws)
  | _, _ => []
  end.

Definition digest_words (msg : list N) : list N :=
  let bs := pad msg in
  let ws := be_words (List.length bs) bs in
  fold_left compress (blocks (List.length ws) ws) H0.

Definition hex_digit (n : N) : ascii :=
  nth (N.to_nat n) (Str.to_list "0123456789abcdef") "0"%char.

Definition hex_byte (b : N) : list ascii :=
  [hex_digit (N.shiftr b 4 mod 16); hex_digit (b mod 16)].

Definition hex_word (w : N) : list ascii :=
  concat (map hex_byte (be_bytes 4 w)).

(** [s.encode()]: the characters of the string as bytes. *)
Definition encode (s : string) : list N :=
  map (fun c => N.of_nat (nat_of_ascii c)) (Str.to_list s).

(** [hashlib.sha256(s.encode()).hexdigest()]. *)
Definition hexdigest (s : string) : string :=
  Str.of_list (concat (map hex_word (digest_words (encode s)))).

End SHA256.

Arguments SHA256.hexdigest : simpl never.

(** ** Calendar dates ([datetime.datetime] values with a zero time of day) *)

Module datetime.

Record t : Set := mk { year : nat; month : nat; day : nat }.

(** Ordering of [datetime] objects: lexicographic on the fields. *)
Definition compare (a b : t) : comparison :=
  match Nat.compare (year a) (year b) with
  | Eq => match Nat.compare (month a) (month b) with
          | Eq => Nat.compare (day a) (day b)
          | c => c
          end
  | c => c
  end.

(** [a > b]. *)
Definition gt (a b : t) : bool :=
  match compare a b with Gt => true | _ => false end.

(** [a <= b]. *)
Definition le (a b : t) : Prop := compare a b <> Gt.

Definition is_leap (y : nat) : bool :=
  ((y mod 4 =? 0) && (negb (y mod 100 =? 0) || (y mod 400 =? 0)))%nat.

Definition days_in_month (y m : nat) : nat :=
  match m with
  | 2 => if is_leap y then 29 else 28
  | 4 | 6 | 9 | 11 => 30
  | _ => 31
  end.

(** The [datetime] constructor's range check (MINYEAR is 1; a four-digit
    year cannot exceed MAXYEAR). *)
Definition valid (d : t) : bool :=
  ((1 <=? year d) && (1 <=? month d) && (month d <=? 12)
   && (1 <=? day d) && (day d <=? days_in_month (year d) (month d)))%nat.

Definition is_digit (c : ascii) : bool :=
  let n := nat_of_ascii c in ((48 <=? n) && (n <=? 57))%nat.
Definition digit_val (c : ascii) : nat := nat_of_ascii c - 48.
Definition between (lo hi c : ascii) : bool :=
  let n := nat_of_ascii c in ((nat_of_ascii lo <=? n) && (n <=? nat_of_ascii hi))%nat.

Definition orelse {A} (a b : option A) : option A :=
  match a with Some _ => a | None => b end.

(** The directive [%d] is the regular expression
    [3[0-1]|[1-2]\d|0[1-9]|[1-9]| [1-9]]: the alternatives are tried in this
    order, each with the rest of the pattern as its continuation. *)
Definition re_d {A} (k : nat -> list ascii -> option A) (s : list ascii) : option A :=
  orelse (match s with
          | c1 :: c2 :: r =>
              if Ascii.eqb c1 "3" && between "0" "1" c2 then k (30 + digit_val c2) r else None
          | _ => None end)
 (orelse (match s with
          | c1 :: c2 :: r =>
              if between "1" "2" c1 && is_digit c2
              then k (10 * digit_val c1 + digit_val c2) r else None
          | _ => None end)
 (orelse (match s with
          | c1 :: c2 :: r =>
              if Ascii.eqb c1 "0" && between "1" "9" c2 then k (digit_val c2) r else None
          | _ => None end)
 (orelse (match s with
          | c1 :: r => if between "1" "9" c1 then k (digit_val c1) r else None
          | _ => None end)
         (match s with
          | c1 :: c2 :: r =>
              if Ascii.eqb c1 " " && between "1" "9" c2 then k (digit_val c2) r else None
          | _ => None end)))).

(** [%m] is [1[0-2]|0[1-9]|[1-9]]. *)
Definition re_m {A} (k : nat -> list ascii -> option A) (s : list ascii) : option A :=
  orelse (match s with
          | c1 :: c2 :: r =>
              if Ascii.eqb c1 "1" && between "0" "2" c2 then k (10 + digit_val c2) r else None
          | _ => None end)
 (orelse (match s with
          | c1 :: c2 :: r =>
              if Ascii.eqb c1 "0" && between "1" "9" c2 then k (digit_val c2) r else None
          | _ => None end)
         (match s with
          | c1 :: r => if between "1" "9" c1 then k (digit_val c1) r else None
          | _ => None end)).

(** [%Y] is [\d\d\d\d]. *)
Definition re_Y {A} (k : nat -> list ascii -> option A) (s : list ascii) : option A :=
  match s with
  | c1 :: c2 :: c3 :: c4 :: r =>
      if is_digit c1 && is_digit c2 && is_digit c3 && is_digit c4
      then k (1000 * digit_val c1 + 100 * digit_val c2 + 10 * digit_val c3 + digit_val c4) r
      else None
  | _ => None
  end.

Definition re_lit {A} (c : ascii) (k : list ascii -> option A) (s : list ascii) : option A :=
  match s with
  | c' :: r => if Ascii.eqb c c' then k r else None
  | [] => None
  end.

(** [re.match] of the pattern for ['%d/%m/%Y']: the fields found and the
    text left over after the match. *)
Definition re_match (s : list ascii) : option (t * list ascii) :=
  re_d (fun d => re_lit "/" (re_m (fun m => re_lit "/" (re_Y (fun y r =>
    Some (mk y m d, r)))))) s.

(** [datetime.datetime.strptime(s, '%d/%m/%Y')]: no match, text left over
    after the match, and a date that does not exist all raise
    [ValueError]. *)
Definition strptime (s : string) : result t :=
  match re_match (Str.to_list s) with
  | None => Raise ValueError
  | Some (d, _ :: _) => Raise ValueError
  | Some (d, []) => if valid d then Ok d else Raise ValueError
  end.

Definition digit_char (n : nat) : ascii := ascii_of_nat (48 + n mod 10).

(** [d.strftime('%d/%m/%Y')]: two-digit day and month and the year on four
    digits (every year from 1000 on prints this way on all platforms; for
    earlier years this is the zero-padded form of the Windows runtime the
    program is written for). *)
Definition strftime (d : t) : string :=
  Str.of_list
    [ digit_char (day d / 10); digit_char (day d); "/"%char;
      digit_char (month d / 10); digit_char (month d); "/"%char;
      digit_char (year d / 1000); digit_char (year d / 100);
      digit_char (year d / 10); digit_char (year d) ].

End datetime.

(** ** Dictionaries, lists and scalars as [json] and [to_dict] see them *)

#[warnings="-register-all"] Inductive value : Type :=
| VNone
| VBool (b : bool)
| VInt (z : Z)
| VStr (s : string)
| VList (l : list value)
| VDict (d : list (string * value)).

Module Py.

Fixpoint assoc {A} (k : string) (d : list (string * A)) : option A :=
  match d with
  | [] => None
  | (k', v) :: d' => if String.eqb k k' then Some v else assoc k d'
  end.

Definition hex2 (n : nat) : list ascii :=
  let h := Str.to_list "0123456789abcdef" in
  [nth (n / 16) h "0"%char; nth (n mod 16) h "0"%char].

Definition repr_char (q : ascii) (c : ascii) : list ascii :=
  let n := nat_of_ascii c in
  if Ascii.eqb c q || Ascii.eqb c "\"%char then ["\"%char; c]
  else if (n =? 10)%nat then Str.to_list "\n"
  else if (n =? 13)%nat then Str.to_list "\r"
  else if (n =? 9)%nat then Str.to_list "\t"
  else if (n <? 32)%nat || (n =? 127)%nat then Str.to_list "\x" ++ hex2 n
  else [c].

(** [repr] of a string: single quotes, unless the string holds a single
    quote and no double quote; backslash, the quote in use and control
    characters are escaped. *)
Definition repr_str (s : string) : string :=
  let q := if Str.mem "'"%char s && negb (Str.mem "034"%char s)
           then "034"%char else "'"%char in
  Str.of_list ([q] ++ concat (map (repr_char q) (Str.to_list s)) ++ [q]).

Fixpoint join (sep : string) (l : list string) : string :=
  match l with
  | [] => EmptyString
  | [x] => x
  | x :: l' => x ++ sep ++ join sep l'
  end.

Fixpoint pos_digits (fuel : nat) (n : N) (acc : list ascii) : list ascii :=
  match fuel with
  | O => acc
  | S fuel' =>
      let acc' := ascii_of_N (48 + n mod 10) :: acc in
      if (n <? 10)%N then acc' else pos_digits fuel' (n / 10)%N acc'
  end.

Definition repr_int (z : Z) : string :=
  let n := Z.abs_N z in
  let ds := Str.of_list (pos_digits (S (N.to_nat (N.log2 n))) n []) in
  if (z <? 0)%Z then "-" ++ ds else ds.

Fixpoint repr (v : value) : string :=
  match v with
  | VNone => "None"
  | VBool true => "True"
  | VBool false => "False"
  | VInt z => repr_int z
  | VStr s => repr_str s
  | VList l => "[" ++ join ", " (map repr l) ++ "]"
  | VDict d =>
      "{" ++ join ", " (map (fun kv => repr_str (fst kv) ++ ": " ++ repr (snd kv)) d) ++ "}"
  end.

(** [str(v)]. *)
Definition str (v : value) : string :=
  match v with
  | VStr s => s
  | _ => repr v
  end.

(** [bool(v)]. *)
Definition bool (v : value) : Datatypes.bool :=
  match v with
  | VNone => false
  | VBool b => b
  | VInt z => negb (z =? 0)%Z
  | VStr s => Str.truthy s
  | VList l => match l with [] => false | _ => true end
  | VDict d => match d with [] => false | _ => true end
  end.

(** [data[key]] for a string key. *)
Definition getitem (data : value) (key : string) : result value :=
  match data with
  | VDict d => match assoc key d with Some v => Ok v | None => Raise KeyError end
  | _ => Raise TypeError
  end.

(** [data.get(key, default)]. *)
Definition get (data : value) (key : string) (default : value) : result value :=
  match data with
  | VDict d => Ok (match assoc key d with Some v => v | None => default end)
  | _ => Raise AttributeError
  end.

(** [data.items()]. *)
Definition items (data : value) : result (list (string * value)) :=
  match data with
  | VDict d => Ok d
  | _ => Raise AttributeError
  end.

(** The elements a [for] loop over [v] visits. *)
Definition iter (v : value) : result (list value) :=
  match v with
  | VList l => Ok l
  | VDict d => Ok (map (fun kv => VStr (fst kv)) d)
  | VStr s => Ok (map (fun c => VStr (String c EmptyString)) (Str.to_list s))
  | _ => Raise TypeError
  end.

End Py.

(** [datetime.datetime.strptime(due_date, '%d/%m/%Y') if due_date else None],
    the expression both constructors use. *)
Definition parse_due_date (due_date : option string) : result (option datetime.t) :=
  match due_date with
  | Some s =>
      if Str.truthy s then d <-r datetime.strptime s ;; Ok (Some d) else Ok None
  | None => Ok None
  end.

(** [if arg: body(arg)] for an [Optional[str]] argument. *)
Definition when_provided {S} (arg : option string) (body : string -> method S unit)
  : method S unit :=
  match arg with
  | Some s => if Str.truthy s then body s else m_ret tt
  | None => m_ret tt
  end.

(** [1 <= index <= len(l)]. *)
Definition in_range {A} (index : Z) (l : list A) : bool :=
  ((1 <=? index) && (index <=? Z.of_nat (length l)))%Z.

(** [l[i].m(...)] for a method [m] of the element: the element is updated in
    place. *)
Definition on_item {A R} (i : nat) (m : method A R) : method (list A) R :=
  fun l =>
    match l !! i with
    | Some x => let '(r, x') := m x in (r, <[i := x']> l)
    | None => (Raise IndexError, l)
    end.

(** ** class SubTask *)

Module SubTask.

Record t : Set := mk {
  details : string;
  due_date : option datetime.t;
  priority : string;
  class_code : string;
  completed : bool
}.

Definition set_details (v : string) (self : t) : t :=
  mk v (due_date self) (priority self) (class_code self) (completed self).
Definition set_due_date (v : option datetime.t) (self : t) : t :=
  mk (details self) v (priority self) (class_code self) (completed self).
Definition set_priority (v : string) (self : t) : t :=
  mk (details self) (due_date self) v (class_code self) (completed self).
Definition set_completed (v : bool) (self : t) : t :=
  mk (details self) (due_date self) (priority self) (class_code self) v.

Definition __init__ (details : string) (due_date : option string)
    (priority class_code : string) (completed : bool) : result t :=
  d <-r parse_due_date due_date ;;
  Ok (mk details d priority class_code completed).

Definition mark_as_completed : method t unit := m_modify (set_completed true).

Definition to_dict (self : t) : value :=
  VDict [ ("details", VStr (details self));
          ("due_date", match due_date self with
                       | Some d => VStr (datetime.strftime d)
                       | None => VNone
                       end);
          ("priority", VStr (priority self));
          ("class_code", VStr (class_code self));
          ("completed", VBool (completed self)) ].

Definition from_dict (data : value) : result t :=
  details <-r Py.getitem data "details" ;;
  due_date <-r Py.getitem data "due_date" ;;
  priority <-r Py.getitem data "priority" ;;
  class_code <-r Py.getitem data "class_code" ;;
  completed <-r Py.getitem data "completed" ;;
  __init__ (Py.str details) (Some (Py.str due_date)) (Py.str priority)
           (Py.str class_code) (Py.bool completed).

End SubTask.

(** ** class MainTask *)

Module MainTask.

Record t : Set := mk {
  name : string;
  due_date : option datetime.t;
  priority : string;
  status : string;
  class_code : option string;
  sub_tasks : list SubTask.t
}.

Definition set_name (v : string) (self : t) : t :=
  mk v (due_date self) (priority self) (status self) (class_code self) (sub_tasks self).
Definition set_due_date (v : option datetime.t) (self : t) : t :=
  mk (name self) v (priority self) (status self) (class_code self) (sub_tasks self).
Definition set_priority (v : string) (self : t) : t :=
  mk (name self) (due_date self) v (status self) (class_code self) (sub_tasks self).
Definition set_status (v : string) (self : t) : t :=
  mk (name self) (due_date self) (priority self) v (class_code self) (sub_tasks self).
Definition set_class_code (v : option string) (self : t) : t :=
  mk (name self) (due_date self) (priority self) (status self) v (sub_tasks self).
Definition set_sub_tasks (v : list SubTask.t) (self : t) : t :=
  mk (name self) (due_date self) (priority self) (status self) (class_code self) v.

Definition __init__ (name : string) (due_date : option string) (priority status : string)
    (class_code : option string) : result t :=
  d <-r parse_due_date due_date ;;
  Ok (mk name d priority status class_code []).

(** [main and sub and sub > main]: both dates are set and the sub-task's is
    strictly later. *)
Definition later_than_main (main sub : option datetime.t) : bool :=
  match main, sub with
  | Some D, Some Ds => datetime.gt Ds D
  | _, _ => false
  end.

Definition add_sub_task (sub_task : SubTask.t) : method t unit :=
  fun self =>
    if later_than_main (due_date self) (SubTask.due_date sub_task)
    then (Raise ValueError, self)
    else (Ok tt, set_sub_tasks (sub_tasks self ++ [sub_task]) self).

Definition delete_sub_task (sub_task_index : Z) : method t unit :=
  fun self =>
    if in_range sub_task_index (sub_tasks self)
    then (Ok tt, set_sub_tasks (delete (Z.to_nat (sub_task_index - 1)) (sub_tasks self)) self)
    else (Raise IndexError, self).

(** A method of one sub-task run on [self.sub_tasks[i]]. *)
Definition on_sub_task {R} (i : nat) (m : method SubTask.t R) : method t R :=
  fun self =>
    let '(r, l) := on_item i m (sub_tasks self) in (r, set_sub_tasks l self).

Definition mark_sub_task_as_completed (sub_task_index : Z) : method t unit :=
  fun self =>
    if in_range sub_task_index (sub_tasks self)
    then on_sub_task (Z.to_nat (sub_task_index - 1)) SubTask.mark_as_completed self
    else (Raise IndexError, self).

(** The three [if] statements of [edit_sub_task], in the order of the
    source: [details] is assigned before the new due date is parsed and
    compared. *)
Definition edit_sub_task_body (main_due : option datetime.t)
    (details due_date priority : option string) : method SubTask.t unit :=
  when_provided details (fun d => m_modify (SubTask.set_details d)) ;;m
  when_provided due_date (fun s =>
    new_due_date <-m m_lift (datetime.strptime s) ;;
    if later_than_main main_due (Some new_due_date)
    then m_raise ValueError
    else m_modify (SubTask.set_due_date (Some new_due_date))) ;;m
  when_provided priority (fun p => m_modify (SubTask.set_priority p)).

Definition edit_sub_task (sub_task_index : Z) (details due_date priority : option string)
  : method t unit :=
  fun self =>
    if in_range sub_task_index (sub_tasks self)
    then on_sub_task (Z.to_nat (sub_task_index - 1))
           (edit_sub_task_body (MainTask.due_date self) details due_date priority) self
    else (Raise IndexError, self).

Definition mark_as_completed : method t unit := m_modify (set_status "Completed").

Definition to_dict (self : t) : value :=
  VDict [ ("name", VStr (name self));
          ("due_date", match due_date self with
                       | Some d => VStr (datetime.strftime d)
                       | None => VNone
                       end);
          ("priority", VStr (priority self));
          ("status", VStr (status self));
          ("class_code", match class_code self with
                         | Some c => VStr c
                         | None => VNone
                         end);
          ("sub_tasks", VList (map SubTask.to_dict (sub_tasks self))) ].

Definition from_dict (data : value) : result t :=
  name <-r Py.getitem data "name" ;;
  due_date <-r Py.getitem data "due_date" ;;
  priority <-r Py.getitem data "priority" ;;
  status <-r Py.getitem data "status" ;;
  class_code <-r Py.get data "class_code" VNone ;;
  main_task <-r __init__ (Py.str name) (Some (Py.str due_date)) (Py.str priority)
                         (Py.str status) (Some (Py.str class_code)) ;;
  sub_tasks_data <-r Py.getitem data "sub_tasks" ;;
  items <-r Py.iter sub_tasks_data ;;
  subs <-r mapR SubTask.from_dict items ;;
  Ok (set_sub_tasks subs main_task).

End MainTask.

(** ** Calls: binding of positional and keyword arguments to parameters *)

Module Call.

Definition bound (A : Type) : Type := list (string * A).

(** Positional arguments fill the parameters from the left; more arguments
    than parameters is a [TypeError]. *)
Fixpoint bind_positional {A} (params : list string) (args : list A) : result (bound A) :=
  match args, params with
  | [], _ => Ok []
  | a :: args', p :: params' =>
      rest <-r bind_positional params' args' ;; Ok ((p, a) :: rest)
  | _ :: _, [] => Raise TypeError
  end.

(** A keyword argument must name a parameter, and one that no positional
    argument (or earlier keyword) has filled: otherwise [TypeError]
    ("unexpected keyword argument", "got multiple values for argument"). *)
Fixpoint bind_keywords {A} (params : list string) (keywords : list (string * A))
    (b : bound A) : result (bound A) :=
  match keywords with
  | [] => Ok b
  | (k, v) :: keywords' =>
      if negb (existsb (String.eqb k) params) then Raise TypeError
      else match Py.assoc k b with
           | Some _ => Raise TypeError
           | None => bind_keywords params keywords' (b ++ [(k, v)])%list
           end
  end.

(** Parameters left unfilled take their default; one without a default is a
    [TypeError] ("missing required positional argument"). *)
Fixpoint fill_defaults {A} (params : list string) (defaults b : bound A) : result (bound A) :=
  match params with
  | [] => Ok []
  | p :: params' =>
      v <-r match Py.assoc p b with
            | Some v => Ok v
            | None => match Py.assoc p defaults with
                      | Some v => Ok v
                      | None => Raise TypeError
                      end
            end ;;
      rest <-r fill_defaults params' defaults b ;;
      Ok ((p, v) :: rest)
  end.

Definition bind {A} (params : list string) (defaults : bound A)
    (args : list A) (keywords : list (string * A)) : result (bound A) :=
  b <-r bind_positional params args ;;
  b <-r bind_keywords params keywords b ;;
  fill_defaults params defaults b.

End Call.

(** ** class Student *)

Module Student.

Record t : Set := mk {
  student_id : string;
  password : string;
  task_lists : list MainTask.t
}.

Definition set_task_lists (v : list MainTask.t) (self : t) : t :=
  mk (student_id self) (password self) v.

Definition hash_password (password : string) : string :=
  let salt := Str.take 16 (SHA256.hexdigest password) in
  SHA256.hexdigest (salt ++ password) ++ ":" ++ salt.

Definition __init__ (student_id password : string) (task_lists : option (list MainTask.t))
    (is_hashed : bool) : t :=
  mk student_id
     (if negb is_hashed then hash_password password else password)
     (match task_lists with
      | Some (m :: l) => m :: l
      | _ => []
      end).

(** [stored_password, salt = self.password.split(':')]: unpacking anything
    but two parts is a [ValueError]. *)
Definition verify_password (self : t) (password : string) : result bool :=
  match Str.split ":" (Student.password self) with
  | [stored_password; salt] =>
      Ok (String.eqb stored_password (SHA256.hexdigest (salt ++ password)))
  | _ => Raise ValueError
  end.

Definition add_task_list (task_list : MainTask.t) : method t unit :=
  m_modify (fun self => set_task_lists (task_lists self ++ [task_list]) self).

Definition delete_task_list (list_index : Z) : method t unit :=
  fun self =>
    if in_range list_index (task_lists self)
    then (Ok tt, set_task_lists (delete (Z.to_nat (list_index - 1)) (task_lists self)) self)
    else (Raise IndexError, self).

(** A method of one main task run on [self.task_lists[i]]. *)
Definition on_task_list {R} (i : nat) (m : method MainTask.t R) : method t R :=
  fun self =>
    let '(r, l) := on_item i m (task_lists self) in (r, set_task_lists l self).

Definition edit_task_list_body (name due_date priority status class_code : option string)
  : method MainTask.t unit :=
  when_provided name (fun n => m_modify (MainTask.set_name n)) ;;m
  when_provided due_date (fun s =>
    d <-m m_lift (datetime.strptime s) ;;
    m_modify (MainTask.set_due_date (Some d))) ;;m
  when_provided priority (fun p => m_modify (MainTask.set_priority p)) ;;m
  when_provided status (fun st => m_modify (MainTask.set_status st)) ;;m
  when_provided class_code (fun c => m_modify (MainTask.set_class_code (Some c))).

Definition edit_task_list (list_index : Z)
    (name due_date priority status class_code : option string) : method t unit :=
  fun self =>
    if in_range list_index (task_lists self)
    then on_task_list (Z.to_nat (list_index - 1))
           (edit_task_list_body name due_date priority status class_code) self
    else (Raise IndexError, self).

Definition view_task_lists (self : t) : list MainTask.t := task_lists self.

Definition view_all_sub_tasks (self : t) : list SubTask.t :=
  concat (map MainTask.sub_tasks (task_lists self)).

Definition to_dict (self : t) : value :=
  VDict [ ("password", VStr (password self));
          ("task_lists", VList (map MainTask.to_dict (task_lists self))) ].

(** What a call of [Student(...)] can be handed as an argument. *)
Inductive arg : Type :=
| ANone
| ABool (b : bool)
| AStr (s : string)
| AClass_str
| AValue (v : value)
| ATaskLists (l : list MainTask.t).

Definition params : list string := ["student_id"; "password"; "task_lists"; "is_hashed"].
Definition defaults : Call.bound arg := [("task_lists", ANone); ("is_hashed", ABool false)].

(** A call of [Student] with positional and keyword arguments: the
    arguments are bound to the parameters
    of [__init__], which then runs.  Arguments that are not of the annotated
    types have no counterpart in [t]; they are reported as [TypeError]. *)
Definition new (args : list arg) (keywords : list (string * arg)) : result t :=
  b <-r Call.bind params defaults args keywords ;;
  match Py.assoc "student_id" b, Py.assoc "password" b,
        Py.assoc "task_lists" b, Py.assoc "is_hashed" b with
  | Some (AStr sid), Some (AStr pw), Some ANone, Some (ABool h) =>
      Ok (__init__ sid pw None h)
  | Some (AStr sid), Some (AStr pw), Some (ATaskLists l), Some (ABool h) =>
      Ok (__init__ sid pw (Some l) h)
  | _, _, _, _ => Raise TypeError
  end.

(** The call in the last line is
    [Student(student_id, str, data["password"], task_lists, is_hashed=True)]:
    four positional arguments, the second being the class [str], and one
    keyword. *)
Definition from_dict (student_id : string) (data : value) : result t :=
  task_lists_data <-r Py.get data "task_lists" (VList []) ;;
  items <-r Py.iter task_lists_data ;;
  task_lists <-r mapR MainTask.from_dict items ;;
  pw <-r Py.getitem data "password" ;;
  new [AStr student_id; AClass_str; AValue pw; ATaskLists task_lists]
      [("is_hashed", ABool true)].

End Student.

(** ** class StudentDatabase *)

Module StudentDatabase.

(** What [print] wrote: a line of text, or the line
    ["An unexpected error occurred: ..."] for the exception caught. *)
Inductive printed : Set :=
| Line (s : string)
| UnexpectedError (e : exn).

Record t : Type := mk {
  filename : string;
  students : gmap string Student.t
}.

Section WithJson.

(** [json.load] on the text of a file: the parsed document, or the exception
    it raises on text that is not a JSON document. *)
Variable json_load : string -> result value.

(** The files on disk: path to contents.  [open(path, "r")] on a path that is
    not there raises [FileNotFoundError]. *)
Definition open_read (fs : gmap string string) (path : string) : result string :=
  match fs !! path with
  | Some text => Ok text
  | None => Raise FileNotFoundError
  end.

(** The dictionary comprehension of [load_students]. *)
Fixpoint comprehension (items : list (string * value)) (acc : gmap string Student.t)
  : result (gmap string Student.t) :=
  match items with
  | [] => Ok acc
  | (student_id, student_data) :: items' =>
      student <-r Student.from_dict student_id student_data ;;
      comprehension items' (<[student_id := student]> acc)
  end.

(** The body of the [try] block. *)
Definition load_students_try (fs : gmap string string) (filename : string)
  : result (gmap string Student.t) :=
  text <-r open_read fs filename ;;
  data <-r json_load text ;;
  items <-r Py.items data ;;
  comprehension items ∅.

(** [load_students]: the three [except] clauses in their order. *)
Definition load_students (fs : gmap string string) (filename : string)
  : result (gmap string Student.t) * list printed :=
  match load_students_try fs filename with
  | Ok students => (Ok students, [])
  | Raise FileNotFoundError =>
      (Ok ∅, [Line ("File '" ++ filename ++ "' not found. Creating a new student database.")])
  | Raise JSONDecodeError =>
      (Ok ∅, [Line "Error decoding JSON. The file might be corrupted."])
  | Raise e => (Ok ∅, [UnexpectedError e])
  end.

Definition __init__ (fs : gmap string string) (filename : string) : result t * list printed :=
  let '(r, out) := load_students fs filename in
  (students <-r r ;; Ok (mk filename students), out).

Definition get_student (self : t) (student_id password : string) : result (option Student.t) :=
  match students self !! student_id with
  | Some student =>
      ok <-r Student.verify_password student password ;;
      Ok (if ok then Some student else None)
  | None => Ok None
  end.

End WithJson.

End StudentDatabase.

(** ** The operations a client performs on a student's tasks *)

Module Ops.

(** [l[index]] with Python's subscript rules: a negative index counts from
    the end, an index outside the list is an [IndexError]. *)
Definition subscript {A} (l : list A) (index : Z) : result nat :=
  let n := Z.of_nat (length l) in
  if ((0 <=? index) && (index <? n))%Z then Ok (Z.to_nat index)
  else if ((- n <=? index) && (index <? 0))%Z then Ok (Z.to_nat (n + index))
  else Raise IndexError.

(** [student.task_lists[list_index - 1].m(...)]. *)
Definition at_task_list {R} (list_index : Z) (m : method MainTask.t R) : method Student.t R :=
  fun student =>
    match subscript (Student.task_lists student) (list_index - 1) with
    | Ok i => Student.on_task_list i m student
    | Raise e => (Raise e, student)
    end.

Inductive op : Set :=
| add_task_list (name : string) (due_date : option string) (priority status : string)
    (class_code : option string)
| delete_task_list (list_index : Z)
| edit_task_list (list_index : Z) (name due_date priority status class_code : option string)
| mark_as_completed (list_index : Z)
| add_sub_task (list_index : Z) (details : string) (due_date : option string)
    (priority class_code : string) (completed : bool)
| delete_sub_task (list_index sub_task_index : Z)
| mark_sub_task_as_completed (list_index sub_task_index : Z)
| edit_sub_task (list_index sub_task_index : Z) (details due_date priority : option string).

(** Each operation is the constructor call (where there is one) followed by
    the method call. *)
Definition run (o : op) : method Student.t unit :=
  match o with
  | add_task_list name due_date priority status class_code =>
      task_list <-m m_lift (MainTask.__init__ name due_date priority status class_code) ;;
      Student.add_task_list task_list
  | delete_task_list list_index => Student.delete_task_list list_index
  | edit_task_list list_index name due_date priority status class_code =>
      Student.edit_task_list list_index name due_date priority status class_code
  | mark_as_completed list_index => at_task_list list_index MainTask.mark_as_completed
  | add_sub_task list_index details due_date priority class_code completed =>
      sub_task <-m m_lift (SubTask.__init__ details due_date priority class_code completed) ;;
      at_task_list list_index (MainTask.add_sub_task sub_task)
  | delete_sub_task list_index sub_task_index =>
      at_task_list list_index (MainTask.delete_sub_task sub_task_index)
  | mark_sub_task_as_completed list_index sub_task_index =>
      at_task_list list_index (MainTask.mark_sub_task_as_completed sub_task_index)
  | edit_sub_task list_index sub_task_index details due_date priority =>
      at_task_list list_index (MainTask.edit_sub_task sub_task_index details due_date priority)
  end.

(** A sequence of operations; an operation that raises leaves the student as
    it was when the exception left the method, and the client goes on. *)
Definition run_all (ops : list op) (student : Student.t) : Student.t :=
  fold_left (fun st o => snd (run o st)) ops student.

End Ops.

(** ** The date-containment invariant *)

(** No sub-task of [m] is due strictly later than [m], when both dates are
    set. *)
Definition contained (m : MainTask.t) : Prop :=
  forall s D Ds,
    s ∈ MainTask.sub_tasks m ->
    MainTask.due_date m = Some D ->
    SubTask.due_date s = Some Ds ->
    datetime.le Ds D.

Definition containment (student : Student.t) : Prop :=
  Forall contained (Student.task_lists student).

(** An [edit_task_list] call keeps the invariant when the due date it
    supplies, if any, is not earlier than a due date of a sub-task of the
    main task it edits.  [edit_task_list] does not check this. *)
Definition edit_respects_sub_tasks (o : Ops.op) (student : Student.t) : Prop :=
  match o with
  | Ops.edit_task_list list_index _ (Some due) _ _ _ =>
      forall m D s Ds,
        in_range list_index (Student.task_lists student) = true ->
        Student.task_lists student !! Z.to_nat (list_index - 1) = Some m ->
        datetime.strptime due = Ok D ->
        s ∈ MainTask.sub_tasks m ->
        SubTask.due_date s = Some Ds ->
        datetime.le Ds D
  | _ => True
  end.

(** States reached from a student without task lists, by operations that
    hand a new object to [add_task_list] and to [add_sub_task], as [Ops.run]
    does: no [SubTask] object is held by two main tasks.  What a [SubTask]
    object held twice does is [Shared], below. *)
Inductive reachable (student_id password : string) : Student.t -> Prop :=
| reach_init : reachable student_id password (Student.__init__ student_id password None false)
| reach_step st o :
    reachable student_id password st ->
    edit_respects_sub_tasks o st ->
    reachable student_id password (snd (Ops.run o st)).

(** ** Objects and aliasing: [search_sub_tasks] over an object store

    Which list object a call returns cannot be seen in the by-value embedding
    above.  Here a list attribute holds a reference to a list object, and a
    list object holds references to [SubTask] objects. *)

Module Heap.

Definition loc : Set := positive.

Record heap : Type := mk_heap {
  sub_task_objects : gmap loc SubTask.t;
  list_objects : gmap loc (list loc)
}.

(** A [MainTask] object: [sub_tasks] refers to a list object. *)
Record main_task : Set := mk_main_task {
  name : string;
  due_date : option datetime.t;
  priority : string;
  status : string;
  class_code : option string;
  sub_tasks : loc
}.

(** A new list object. *)
Definition alloc_list (l : list loc) (h : heap) : loc * heap :=
  let r := fresh (dom (list_objects h)) in
  (r, mk_heap (sub_task_objects h) (<[r := l]> (list_objects h))).

(** Any mutation of the list object at [r] ([append], [del], [clear],
    item assignment, ...) leaves it with some new contents. *)
Definition mutate_list (r : loc) (contents : list loc) (h : heap) : heap :=
  mk_heap (sub_task_objects h) (<[r := contents]> (list_objects h)).

(** [[sub_task for sub_task in refs if keyword in sub_task.details.lower()]];
    [None] when a reference dangles. *)
Fixpoint comprehension (h : heap) (keyword : string) (refs : list loc) : option (list loc) :=
  match refs with
  | [] => Some []
  | r :: refs' =>
      match sub_task_objects h !! r, comprehension h keyword refs' with
      | Some sub_task, Some found =>
          Some (if Str.contains keyword (Str.lower (SubTask.details sub_task))
                then r :: found else found)
      | _, _ => None
      end
  end.

(** The reference returned and the store after the call. *)
Definition search_sub_tasks (self : main_task) (keyword : option string) (h : heap)
  : option (loc * heap) :=
  if Str.provided keyword then
    let keyword := Str.lower (default EmptyString keyword) in
    match list_objects h !! sub_tasks self with
    | Some refs =>
        match comprehension h keyword refs with
        | Some found => Some (alloc_list found h)
        | None => None
        end
    | None => None
    end
  else Some (sub_tasks self, h).

(** The [SubTask] objects a list of references leads to. *)
Fixpoint deref_all (h : heap) (refs : list loc) : option (list SubTask.t) :=
  match refs with
  | [] => Some []
  | r :: refs' =>
      match sub_task_objects h !! r, deref_all h refs' with
      | Some sub_task, Some rest => Some (sub_task :: rest)
      | _, _ => None
      end
  end.

(** The sub-tasks a list object holds, by value. *)
Definition read_list (h : heap) (r : loc) : option (list SubTask.t) :=
  match list_objects h !! r with
  | Some refs => deref_all h refs
  | None => None
  end.

(** The store holds the list of [self] and every sub-task in it. *)
Definition well_formed (h : heap) (self : main_task) : Prop :=
  exists refs,
    list_objects h !! sub_tasks self = Some refs /\
    forall x, x ∈ refs -> is_Some (sub_task_objects h !! x).

End Heap.

(** ** A [SubTask] object held by two main tasks

    [add_sub_task] appends the object its caller hands in, and
    [edit_sub_task] changes that object in place, after comparing the new
    due date with the due date of the main task it is called on. *)

Module Shared.

(** [self.add_sub_task(sub_task)]; [None] when a reference dangles. *)
Definition add_sub_task (self : Heap.main_task) (sub_task : Heap.loc) (h : Heap.heap)
  : option (result unit * Heap.heap) :=
  match Heap.sub_task_objects h !! sub_task, Heap.list_objects h !! Heap.sub_tasks self with
  | Some s, Some refs =>
      if MainTask.later_than_main (Heap.due_date self) (SubTask.due_date s)
      then Some (Raise ValueError, h)
      else Some (Ok tt, Heap.mutate_list (Heap.sub_tasks self) (refs ++ [sub_task])%list h)
  | _, _ => None
  end.

(** [self.edit_sub_task(sub_task_index, details, due_date, priority)]: what
    the three [if] statements have assigned stays in the object, also when
    the call raises. *)
Definition edit_sub_task (self : Heap.main_task) (sub_task_index : Z)
    (details due_date priority : option string) (h : Heap.heap)
  : option (result unit * Heap.heap) :=
  match Heap.list_objects h !! Heap.sub_tasks self with
  | Some refs =>
      if in_range sub_task_index refs
      then
        match refs !! Z.to_nat (sub_task_index - 1) with
        | Some r =>
            match Heap.sub_task_objects h !! r with
            | Some s =>
                let '(res, s') :=
                  MainTask.edit_sub_task_body (Heap.due_date self) details due_date
                    priority s in
                Some (res, Heap.mk_heap (<[r := s']> (Heap.sub_task_objects h))
                             (Heap.list_objects h))
            | None => None
            end
        | None => None
        end
      else Some (Raise IndexError, h)
  | None => None
  end.

(** The main task by value: its fields, and the sub-tasks its list refers
    to. *)
Definition value (self : Heap.main_task) (h : Heap.heap) : option MainTask.t :=
  match Heap.read_list h (Heap.sub_tasks self) with
  | Some l =>
      Some (MainTask.mk (Heap.name self) (Heap.due_date self) (Heap.priority self)
              (Heap.status self) (Heap.class_code self) l)
  | None => None
  end.

End Shared.

(** [details] contains [keyword] as a substring, letter case aside. *)
Definition ci_substring (keyword details : string) : Prop :=
  exists before after,
    Str.lower details = before ++ Str.lower keyword ++ after.

Definition matches (keyword : string) (s : SubTask.t) : bool :=
  Str.contains (Str.lower keyword) (Str.lower (SubTask.details s)).

(** ** Predicates the properties are stated with *)

(** The sub-task's due date is not strictly after the main task's, or one of
    the two is absent. *)
Definition fits (m : MainTask.t) (s : SubTask.t) : Prop :=
  MainTask.due_date m = None \/
  SubTask.due_date s = None \/
  exists D Ds,
    MainTask.due_date m = Some D /\ SubTask.due_date s = Some Ds /\ datetime.le Ds D.

(** [l'] is [l] without the element at the 1-based position [k]: one element
    fewer, the elements before [k] where they were, those after [k] one
    position down, and (when the elements of [l] are distinct objects) the
    element that was at [k] gone. *)
Definition removes_position {A} (k : nat) (l l' : list A) : Prop :=
  length l' = length l - 1 /\
  l' = (take (k - 1) l ++ drop k l)%list /\
  (forall i, i < k - 1 -> l' !! i = l !! i) /\
  (forall i, k - 1 <= i -> l' !! i = l !! S i) /\
  (NoDup l -> forall x, l !! (k - 1) = Some x -> x ∉ l').

(** A character of a lower-case hexadecimal number. *)
Definition is_hex (c : ascii) : bool := Str.mem c "0123456789abcdef".

Definition all_hex (s : string) : Prop :=
  Forall (fun c => is_hex c = true) (Str.to_list s).

(** The due dates of a student's main tasks and of their sub-tasks. *)
Definition due_dates (student : Student.t)
  : list (option datetime.t * list (option datetime.t)) :=
  map (fun m => (MainTask.due_date m, map SubTask.due_date (MainTask.sub_tasks m)))
      (Student.task_lists student).

(** ** Example objects *)

Definition essay : MainTask.t :=
  MainTask.mk "Essay" (Some (datetime.mk 2025 6 1)) "High" "Not Started" None [].

Definition draft_intro : SubTask.t :=
  SubTask.mk "Draft intro" (Some (datetime.mk 2025 5 15)) "Medium" "N/A" false.

Definition undated_note : SubTask.t :=
  SubTask.mk "Read chapter" None "Low" "ICT123" false.

Definition undated_task : MainTask.t :=
  MainTask.mk "Revision" None "Low" "Not Started" None [undated_note].

Definition essay_with_draft : MainTask.t := MainTask.set_sub_tasks [draft_intro] essay.

Definition three_notes : MainTask.t :=
  MainTask.set_sub_tasks
    [draft_intro; undated_note; SubTask.set_details "Proofread" draft_intro] essay.

Definition s1 : Student.t := Student.__init__ "s1" "pw1" None false.

Definition two_lists : Student.t :=
  Student.set_task_lists [essay; undated_task] s1.

(** An essay due 01/06/2025 with a draft due 15/05/2025; then the essay
    moved to 01/05/2025, or to 01/07/2025. *)
Definition essay_ops : list Ops.op :=
  [ Ops.add_task_list "Essay" (Some "01/06/2025") "High" "Not Started" None;
    Ops.add_sub_task 1 "Draft intro" (Some "15/05/2025") "Medium" "N/A" false ].

Definition move_essay_earlier : Ops.op :=
  Ops.edit_task_list 1 None (Some "01/05/2025") None None None.

Definition move_essay_later : Ops.op :=
  Ops.edit_task_list 1 (Some "Essay, final") (Some "01/07/2025") None None None.

(** A store with the essay's two sub-tasks: the list object 10 holds the
    references 1 and 2. *)
Definition essay_heap : Heap.heap :=
  Heap.mk_heap {[ 1%positive := draft_intro; 2%positive := undated_note ]}
               {[ 10%positive := [1%positive; 2%positive] ]}.

Definition essay_object : Heap.main_task :=
  Heap.mk_main_task "Essay" (Some (datetime.mk 2025 6 1)) "High" "Not Started" None
                    10%positive.

(** A seminar due 20/06/2025 and a report due 12/06/2025, without
    sub-tasks (the list objects 10 and 20), and one [SubTask] object, the
    slides, due 10/06/2025. *)
Definition slides : SubTask.t :=
  SubTask.mk "Slides" (Some (datetime.mk 2025 6 10)) "High" "N/A" false.

Definition seminar : Heap.main_task :=
  Heap.mk_main_task "Seminar" (Some (datetime.mk 2025 6 20)) "High" "Not Started" None
                    10%positive.

Definition report : Heap.main_task :=
  Heap.mk_main_task "Report" (Some (datetime.mk 2025 6 12)) "High" "Not Started" None
                    20%positive.

Definition slides_heap : Heap.heap :=
  Heap.mk_heap {[ 1%positive := slides ]} {[ 10%positive := []; 20%positive := [] ]}.

(** A stand-in for [json.load] that reads the empty object and rejects every
    other text. *)
Definition json_load_empty_object (text : string) : result value :=
  if String.eqb text "{}" then Ok (VDict []) else Raise JSONDecodeError.

(** * Further definitions *)

(** The characters [strftime] writes for a two-digit field and for the year. *)
Definition two_digits (n : nat) : list ascii :=
  [datetime.digit_char (n / 10); datetime.digit_char n].

Definition four_digits (n : nat) : list ascii :=
  [datetime.digit_char (n / 1000); datetime.digit_char (n / 100);
   datetime.digit_char (n / 10); datetime.digit_char n].

(** A date [strptime] can have produced: it exists in the calendar and its
    year has at most four digits. *)
Definition calendar_date (d : datetime.t) : Prop :=
  datetime.valid d = true /\ (Z.of_nat (datetime.year d) <= 9999)%Z.

(** The number of occurrences of a character. *)
Fixpoint count_char (c : ascii) (s : string) : nat :=
  match s with
  | EmptyString => 0
  | String c' s' => (if Ascii.eqb c' c then 1 else 0) + count_char c s'
  end.

(** A sub-task whose due date is set, to a date of the calendar. *)
Definition dated (s : SubTask.t) : Prop :=
  exists d, SubTask.due_date s = Some d /\ calendar_date d.

Definition proofread : SubTask.t :=
  SubTask.mk "Proofread" (Some (datetime.mk 2025 5 30)) "High" "ICT123" true.

Definition essay_two_dated : MainTask.t :=
  MainTask.set_sub_tasks [draft_intro; proofread] essay.

(** The value of an attribute after [if arg: attribute = arg]. *)
Definition overwrite (arg : option string) (old : string) : string :=
  match arg with
  | Some v => if Str.truthy v then v else old
  | None => old
  end.

(** A sub-task after an accepted edit: [new_due] is the parsed due date, when
    the call gave one. *)
Definition edited (details priority : option string) (new_due : option datetime.t)
    (s : SubTask.t) : SubTask.t :=
  SubTask.mk (overwrite details (SubTask.details s))
             (match new_due with Some d => Some d | None => SubTask.due_date s end)
             (overwrite priority (SubTask.priority s))
             (SubTask.class_code s) (SubTask.completed s).

(** The keys [SubTask.from_dict] reads with [data[...]]. *)
Definition sub_task_keys : list string :=
  ["details"; "due_date"; "priority"; "class_code"; "completed"].

(** The keys [MainTask.from_dict] reads with [data[...]] before it calls the
    constructor; ["class_code"] is read with [get] and ["sub_tasks"] after
    the constructor has run. *)
Definition main_task_keys : list string := ["name"; "due_date"; "priority"; "status"].

Definition is_dict (v : value) : bool :=
  match v with VDict _ => true | _ => false end.

(** ** class StudentDatabase: the methods that write *)

Module Store.

Section WithJson.

(** [json.dump(data, file, indent=4)]: the text written for [data]. *)
Variable json_dump : value -> string.

(** The dictionary [save_students] builds.  Its entries come in the order of
    the map, which is not the insertion order of the Python dictionary; the
    properties below do not depend on the order. *)
Definition saved_data (self : StudentDatabase.t) : value :=
  VDict (map (fun kv => (fst kv, Student.to_dict (snd kv)))
             (map_to_list (StudentDatabase.students self))).

(** [save_students]: the files after the call and what was printed.  Every
    value [to_dict] builds can be dumped and a file can always be written
    here, so the [except] clause is not entered. *)
Definition save_students (self : StudentDatabase.t) (fs : gmap string string)
  : gmap string string * list StudentDatabase.printed :=
  (<[StudentDatabase.filename self := json_dump (saved_data self)]> fs, []).

Definition add_student (student : Student.t) (self : StudentDatabase.t)
    (fs : gmap string string)
  : StudentDatabase.t * gmap string string * list StudentDatabase.printed :=
  let self' :=
    StudentDatabase.mk (StudentDatabase.filename self)
      (<[Student.student_id student := student]> (StudentDatabase.students self)) in
  let '(fs', out) := save_students self' fs in
  (self', fs', out).

End WithJson.

End Store.

(** A database in memory with the student "s1", and stand-ins for
    [json.dump] and [json.load] that agree on what that database saves. *)
Definition db_s1 : StudentDatabase.t := StudentDatabase.mk "students.json" {[ "s1" := s1 ]}.

Definition json_dump_stub (v : value) : string := "<saved>".

Definition json_load_stub (text : string) : result value :=
  if String.eqb text "<saved>" then Ok (Store.saved_data db_s1) else Raise JSONDecodeError.

(** ** Text from the terminal

    [strip], [upper] and the regular expression of [get_class_code_input],
    for characters below 128. *)

Module Text.

(** [str.isspace] for one character: tab to carriage return, the four
    separators 28 to 31, and the space. *)
Definition is_space (c : ascii) : bool :=
  let n := nat_of_ascii c in
  ((9 <=? n) && (n <=? 13) || (28 <=? n) && (n <=? 32))%nat.

Fixpoint lstrip (l : list ascii) : list ascii :=
  match l with
  | c :: l' => if is_space c then lstrip l' else l
  | [] => []
  end.

(** [s.strip()]. *)
Definition strip (s : string) : string :=
  Str.of_list (rev (lstrip (rev (lstrip (Str.to_list s))))).

Definition upper_char (c : ascii) : ascii :=
  let n := nat_of_ascii c in
  if (97 <=? n)%nat && (n <=? 122)%nat then ascii_of_nat (n - 32) else c.

(** [s.upper()]. *)
Fixpoint upper (s : string) : string :=
  match s with
  | EmptyString => EmptyString
  | String c s' => String (upper_char c) (upper s')
  end.

Definition is_upper_letter (c : ascii) : bool :=
  let n := nat_of_ascii c in ((65 <=? n) && (n <=? 90))%nat.

(** [re.match(r'^[A-Z]{3}\d{3}$', value)]: three capital letters and three
    digits; [$] matches at the end of the text and before a line feed that
    ends it. *)
Definition class_code_re (value : string) : bool :=
  match Str.to_list value with
  | [a; b; c; d; e; f] =>
      is_upper_letter a && is_upper_letter b && is_upper_letter c
      && datetime.is_digit d && datetime.is_digit e && datetime.is_digit f
  | [a; b; c; d; e; f; nl] =>
      is_upper_letter a && is_upper_letter b && is_upper_letter c
      && datetime.is_digit d && datetime.is_digit e && datetime.is_digit f
      && Ascii.eqb nl "010"
  | _ => false
  end.

End Text.

(** ** The terminal: lines typed, text written, and the clock *)

Module IO.

(** What was written: the prompt of an [input] call, or a [print]ed line. *)
Inductive output : Set :=
| Prompt (text : string)
| Print (text : string).

(** An instant of [datetime.now()]: the date, and whether any time has
    passed since midnight. *)
Record instant : Set := mk_instant {
  date : datetime.t;
  past_midnight : bool
}.

(** [due < now] for a [due] at midnight. *)
Definition before (due : datetime.t) (now : instant) : bool :=
  match datetime.compare due (date now) with
  | Lt => true
  | Eq => past_midnight now
  | Gt => false
  end.

(** The lines still to be read, what has been written, and the clock: the
    [n]-th call of [datetime.now()] returns [clock n]. *)
Record world : Type := mk_world {
  stdin : list string;
  stdout : list output;
  clock : nat -> instant;
  ticks : nat
}.

(** How a call ends: with a value, with [EOFError] from [input] when no line
    is left, or with another exception. *)
Inductive outcome (A : Type) : Type :=
| Done (a : A)
| EOFError
| Raised (e : exn).
Arguments Done {A} a.
Arguments EOFError {A}.
Arguments Raised {A} e.

Definition io (A : Type) : Type := world -> outcome A * world.

Definition ret {A} (a : A) : io A := fun w => (Done a, w).

Definition bind {A B} (m : io A) (k : A -> io B) : io B :=
  fun w => match m w with
           | (Done a, w') => k a w'
           | (EOFError, w') => (EOFError, w')
           | (Raised e, w') => (Raised e, w')
           end.

Definition write (o : output) (w : world) : world :=
  mk_world (stdin w) (stdout w ++ [o])%list (clock w) (ticks w).

(** [print(text)]. *)
Definition print (text : string) : io unit := fun w => (Done tt, write (Print text) w).

(** [input(prompt)]. *)
Definition input (prompt : string) : io string :=
  fun w =>
    match stdin w with
    | line :: rest =>
        (Done line, mk_world rest (stdout w ++ [Prompt prompt])%list (clock w) (ticks w))
    | [] => (EOFError, write (Prompt prompt) w)
    end.

(** [datetime.datetime.now()]. *)
Definition now : io instant :=
  fun w => (Done (clock w (ticks w)), mk_world (stdin w) (stdout w) (clock w) (S (ticks w))).

End IO.

Notation "x <-io c ;; k" := (IO.bind c (fun x => k))
  (at level 100, c at next level, right associativity).
Notation "c ;;io k" := (IO.bind c (fun _ => k))
  (at level 100, k at level 200, right associativity).

(** ** The input helpers *)

Module Cli.

(** How one round of a [while True] loop ends: with [return a], or at the
    end of the body, to go round again. *)
Inductive round (A : Type) : Type :=
| Return (a : A)
| Again.
Arguments Return {A} a.
Arguments Again {A}.

(** [while True: line = input(prompt); body(line)], for a body that reads
    no line itself: each round takes one of the [lines] that are left. *)
Fixpoint ask {A} (prompt : string) (body : string -> IO.io (round A))
    (lines : list string) : IO.io A :=
  fun w =>
    match lines with
    | [] => (IO.EOFError, IO.write (IO.Prompt prompt) w)
    | line :: rest =>
        let w1 := IO.mk_world rest (IO.stdout w ++ [IO.Prompt prompt])%list
                    (IO.clock w) (IO.ticks w) in
        match body line w1 with
        | (IO.Done (Return a), w2) => (IO.Done a, w2)
        | (IO.Done Again, w2) => ask prompt body rest w2
        | (IO.EOFError, w2) => (IO.EOFError, w2)
        | (IO.Raised e, w2) => (IO.Raised e, w2)
        end
    end.

Definition loop {A} (prompt : string) (body : string -> IO.io (round A)) : IO.io A :=
  fun w => ask prompt body (IO.stdin w) w.

Definition priorities : list (string * string) :=
  [("H", "High"); ("M", "Medium"); ("L", "Low")].

Definition statuses : list (string * string) :=
  [("N", "Not Started"); ("P", "In Progress"); ("C", "Completed")].

Definition get_priority_input (prompt : string) : IO.io string :=
  loop (prompt ++ " (H: High, M: Medium, L: Low): ")
    (fun line =>
       let value := Text.upper (Text.strip line) in
       match Py.assoc value priorities with
       | Some p => IO.ret (Return p)
       | None =>
           IO.print "Invalid input. Please enter a valid priority (H/M/L)." ;;io
           IO.ret Again
       end).

Definition get_status_input (prompt : string) : IO.io string :=
  loop (prompt ++ " (N: Not Started, P: In Progress, C: Completed): ")
    (fun line =>
       let value := Text.upper (Text.strip line) in
       match Py.assoc value statuses with
       | Some s => IO.ret (Return s)
       | None =>
           IO.print "Invalid input. Please enter a valid status (N/P/C)." ;;io
           IO.ret Again
       end).

(** The body of the [try] block of [get_date_input], once the text has
    parsed. *)
Definition check_date (value : string) (due_date : datetime.t)
    (main_task_due_date : option datetime.t) : IO.io (round (option string)) :=
  match main_task_due_date with
  | None =>
      now <-io IO.now ;;
      if IO.before due_date now
      then IO.print "Entered date is in the past. Please enter a future date." ;;io
           IO.ret Again
      else IO.ret (Return (Some value))
  | Some main =>
      if datetime.gt due_date main
      then IO.print "Sub-task due date cannot be after the main task due date." ;;io
           IO.ret Again
      else IO.ret (Return (Some value))
  end.

Definition get_date_input (prompt : string) (main_task_due_date : option datetime.t)
  : IO.io (option string) :=
  loop (prompt ++ " (leave empty to skip): ")
    (fun line =>
       let value := Text.strip line in
       if String.eqb value EmptyString then IO.ret (Return None)
       else match datetime.strptime value with
            | Ok due_date => check_date value due_date main_task_due_date
            | Raise _ =>
                IO.print "Invalid date format. Please enter the date in dd/mm/yyyy format."
                ;;io IO.ret Again
            end).

Definition get_class_code_input (prompt : string) : IO.io (option string) :=
  loop prompt
    (fun line =>
       let value := Text.upper (Text.strip line) in
       if String.eqb value EmptyString then IO.ret (Return None)
       else if Text.class_code_re value then IO.ret (Return (Some value))
       else
         IO.print
           "Invalid input. Please enter a valid class code (e.g., ICT120) or leave it blank."
         ;;io IO.ret Again).

Definition confirm_action (prompt : string) : IO.io bool :=
  loop (prompt ++ " (yes/no): ")
    (fun line =>
       let response := Str.lower (Text.strip line) in
       if String.eqb response "yes" || String.eqb response "no"
       then IO.ret (Return (String.eqb response "yes"))
       else IO.print "Invalid input. Please enter 'yes' or 'no'." ;;io IO.ret Again).

Section WithInt.

(** [int(text)]: the integer, or [None] where [int] raises [ValueError]. *)
Variable parse_int : string -> option Z.

Definition get_int_input (prompt : string) : IO.io Z :=
  loop prompt
    (fun line =>
       match parse_int line with
       | Some value => IO.ret (Return value)
       | None => IO.print "Invalid input. Please enter a valid number." ;;io IO.ret Again
       end).

End WithInt.

End Cli.

(** ** Predicates on what the helpers return *)

(** The lines a loop rejects before the first one it accepts: the value for
    that line, the rejected lines and the lines left; [None] when it accepts
    no line. *)
Fixpoint first_accepted {A} (check : string -> option A) (lines : list string)
  : option (A * list string * list string) :=
  match lines with
  | [] => None
  | line :: rest =>
      match check line with
      | Some a => Some (a, [], rest)
      | None =>
          match first_accepted check rest with
          | Some (a, rejected, rest') => Some (a, line :: rejected, rest')
          | None => None
          end
      end
  end.

(** What a loop that checks each line on its own leaves behind: the prompt
    and the complaint once for each rejected line, then the prompt once
    more. *)
Definition asked {A} (prompt complaint : string) (check : string -> option A)
    (w : IO.world) : IO.outcome A * IO.world :=
  let said (rejected : list string) :=
    (IO.stdout w
     ++ flat_map (fun _ => [IO.Prompt prompt; IO.Print complaint]) rejected
     ++ [IO.Prompt prompt])%list in
  match first_accepted check (IO.stdin w) with
  | Some (a, rejected, rest) =>
      (IO.Done a, IO.mk_world rest (said rejected) (IO.clock w) (IO.ticks w))
  | None =>
      (IO.EOFError, IO.mk_world [] (said (IO.stdin w)) (IO.clock w) (IO.ticks w))
  end.

(** Three capital letters followed by three digits. *)
Definition is_class_code (s : string) : Prop :=
  exists a b c d e f,
    s = Str.of_list [a; b; c; d; e; f] /\
    Text.is_upper_letter a = true /\ Text.is_upper_letter b = true /\
    Text.is_upper_letter c = true /\
    datetime.is_digit d = true /\ datetime.is_digit e = true /\ datetime.is_digit f = true.

Definition terminal (lines : list string) : IO.world :=
  IO.mk_world lines [] (fun _ => IO.mk_instant (datetime.mk 2025 1 1) true) 0.

(** What [get_date_input] returns between the worlds [w] and [w']: nothing,
    or a text that is not empty and that [strptime] parses to a date.  For a
    sub-task (the due date of its main task is given) that date is not later
    than the main task's.  For a main task the call has read the clock, and
    the date is not before the instant it read last, which is the one it
    read for this text. *)
Definition acceptable_date (main_task_due_date : option datetime.t) (w w' : IO.world)
    (answer : option string) : Prop :=
  match answer with
  | None => True
  | Some text =>
      Str.truthy text = true /\
      exists due_date,
        datetime.strptime text = Ok due_date /\
        match main_task_due_date with
        | Some main => datetime.gt due_date main = false
        | None =>
            IO.ticks w < IO.ticks w' /\
            IO.before due_date (IO.clock w (IO.ticks w' - 1)) = false
        end
  end.

(** ** Tables *)

Module Display.

(** [s.center(width)]: the padding is split in two, and the odd space goes
    to the left exactly when the width is odd as well. *)
Definition spaces (n : nat) : string := Str.of_list (repeat " "%char n).

Definition center (s : string) (width : nat) : string :=
  let n := String.length s in
  if (width <=? n)%nat then s
  else
    let marg := width - n in
    let left := marg / 2 + (if Nat.odd marg && Nat.odd width then 1 else 0) in
    spaces left ++ s ++ spaces (marg - left).

(** [str(i)] for a position. *)
Definition position (i : nat) : string := Py.repr_int (Z.of_nat i).

Definition rule : string :=
  "   |----------------------------------------------|------------|----------|------------|---------------|".

Definition long_rule : string :=
  "   |---------------------------------------------------------------------------------------------------|".

Definition sub_rule : string :=
  "   |----|-----------------------------------------|------------|----------|------------|---------------|".

Definition due_date_str (due_date : option datetime.t) : string :=
  match due_date with
  | Some d => datetime.strftime d
  | None => "N/A"
  end.

(** [class_code if class_code else 'N/A']. *)
Definition class_code_str (class_code : option string) : string :=
  match class_code with
  | Some c => if Str.truthy c then c else "N/A"
  | None => "N/A"
  end.

(** The cells of a row up to the last one, which the tables format in two
    ways. *)
Definition cells (i : nat) (title : string) (due_date : option datetime.t)
    (priority : string) (class_code : option string) : string :=
  "   | " ++ center (position i) 2 ++ " | " ++ center title 39 ++ " | "
  ++ center (due_date_str due_date) 10 ++ " | " ++ center priority 8 ++ " | "
  ++ center (class_code_str class_code) 10 ++ " |".

Definition sub_task_row (j : nat) (sub_task : SubTask.t) : string :=
  cells j (SubTask.details sub_task) (SubTask.due_date sub_task)
        (SubTask.priority sub_task) (Some (SubTask.class_code sub_task))
  ++ " "
  ++ center (if SubTask.completed sub_task then "Completed" else "Not Completed") 13
  ++ " |".

(** [for j, sub_task in enumerate(l, start=1): print(row)]. *)
Fixpoint sub_task_rows (j : nat) (l : list SubTask.t) : list IO.output :=
  match l with
  | [] => []
  | sub_task :: l' => IO.Print (sub_task_row j sub_task) :: sub_task_rows (S j) l'
  end.

Fixpoint task_list_rows (i : nat) (l : list MainTask.t) : list IO.output :=
  match l with
  | [] => []
  | task_list :: l' =>
      IO.Print (cells i (MainTask.name task_list) (MainTask.due_date task_list)
                  (MainTask.priority task_list) (MainTask.class_code task_list)
                ++ "  " ++ center (MainTask.status task_list) 12 ++ " |")
      :: IO.Print rule :: task_list_rows (S i) l'
  end.

(** What [display_task_lists] prints. *)
Definition display_task_lists (student : Student.t) : list IO.output :=
  ([ IO.Print rule;
     IO.Print "   | #  |               Task Name                 | Due Date   | Priority | Class Code |   Status      |";
     IO.Print rule ]
   ++ task_list_rows 1 (Student.view_task_lists student)
   ++ [IO.Print EmptyString])%list.

Fixpoint all_tasks_rows (i : nat) (l : list MainTask.t) : list IO.output :=
  match l with
  | [] => []
  | task_list :: l' =>
      ([ IO.Print ("Task." ++ position i ++ ".");
         IO.Print rule;
         IO.Print "   | #  |               Task Name                 | Due Date   | Priority | Class Code |    Status     |";
         IO.Print rule;
         IO.Print (cells i (MainTask.name task_list) (MainTask.due_date task_list)
                     (MainTask.priority task_list) (MainTask.class_code task_list)
                   ++ " " ++ center (MainTask.status task_list) 13 ++ " |");
         IO.Print rule ]
       ++ match MainTask.sub_tasks task_list with
          | [] => []
          | sub_tasks =>
              [ IO.Print "   | #  |            Sub Task Details             | Due Date   | Priority | Class Code |    Status     |";
                IO.Print sub_rule ]
              ++ sub_task_rows 1 sub_tasks
              ++ [IO.Print long_rule]
          end
       ++ [IO.Print EmptyString]
       ++ all_tasks_rows (S i) l')%list
  end.

(** What [display_all_tasks] prints. *)
Definition display_all_tasks (student : Student.t) : list IO.output :=
  all_tasks_rows 1 (Student.view_task_lists student).

(** What the table of a list of sub-tasks looks like, with the line printed
    for an empty list. *)
Definition sub_task_table (l : list SubTask.t) (empty : string) : list IO.output :=
  match l with
  | [] => [IO.Print empty]
  | _ =>
      ([ IO.Print long_rule;
         IO.Print "   | #  |            Sub Task Details             | Due Date   | Priority | Class Code |   Status      |";
         IO.Print sub_rule ]
       ++ sub_task_rows 1 l
       ++ [IO.Print long_rule])%list
  end.

Definition display_all_sub_tasks (student : Student.t) : list IO.output :=
  sub_task_table (Student.view_all_sub_tasks student) "   No sub-tasks found.".

Definition display_search_results (results : list SubTask.t) : list IO.output :=
  sub_task_table results "   No sub-tasks found matching the criteria.".

(** [for i, sub_task in enumerate(l, start=1): print(f"{i}. {details}")]. *)
Fixpoint numbered (i : nat) (l : list SubTask.t) : list IO.output :=
  match l with
  | [] => []
  | sub_task :: l' =>
      IO.Print (position i ++ ". " ++ SubTask.details sub_task) :: numbered (S i) l'
  end.

End Display.

(** ** The menu actions

    Each action works on the student it is given and on the terminal, and
    ends like an [input] loop or with the exception a method let out; the
    student is returned as the action left it. *)

Module Actions.

Definition state : Type := Student.t * IO.world.

Definition act (A : Type) : Type := state -> IO.outcome A * state.

Definition ret {A} (a : A) : act A := fun s => (IO.Done a, s).

Definition bind {A B} (m : act A) (k : A -> act B) : act B :=
  fun s => match m s with
           | (IO.Done a, s') => k a s'
           | (IO.EOFError, s') => (IO.EOFError, s')
           | (IO.Raised e, s') => (IO.Raised e, s')
           end.

(** A call that works on the terminal only. *)
Definition io {A} (m : IO.io A) : act A :=
  fun s => let '(r, w) := m (snd s) in (r, (fst s, w)).

(** A method call on the student. *)
Definition call {A} (m : method Student.t A) : act A :=
  fun s =>
    match m (fst s) with
    | (Ok a, student) => (IO.Done a, (student, snd s))
    | (Raise e, student) => (IO.Raised e, (student, snd s))
    end.

(** The value of a constructor call, or its exception. *)
Definition construct {A} (r : result A) : act A :=
  fun s => match r with
           | Ok a => (IO.Done a, s)
           | Raise e => (IO.Raised e, s)
           end.

Definition student : act Student.t := fun s => (IO.Done (fst s), s).

(** A table is printed line by line. *)
Definition show (lines : list IO.output) : act unit :=
  fun s =>
    (IO.Done tt,
     (fst s, IO.mk_world (IO.stdin (snd s)) (IO.stdout (snd s) ++ lines)%list
               (IO.clock (snd s)) (IO.ticks (snd s)))).

Definition print (text : string) : act unit := io (IO.print text).

End Actions.

Notation "x <-a c ;; k" := (Actions.bind c (fun x => k))
  (at level 100, c at next level, right associativity).
Notation "c ;;a k" := (Actions.bind c (fun _ => k))
  (at level 100, k at level 200, right associativity).

Module Menu.

(** [input(question).strip().lower() == 'yes']. *)
Definition said_yes (question : string) : Actions.act bool :=
  answer <-a Actions.io (IO.input question) ;;
  Actions.ret (String.eqb (Str.lower (Text.strip answer)) "yes").

(** [e or None]. *)
Definition or_none (text : string) : option string :=
  if Str.truthy text then Some text else None.

(** [helper(...) if input(question)... == 'yes' else None]. *)
Definition if_yes {A} (question : string) (helper : IO.io A) : Actions.act (option A) :=
  yes <-a said_yes question ;;
  if yes then a <-a Actions.io helper ;; Actions.ret (Some a) else Actions.ret None.

Definition join_option {A} (o : option (option A)) : option A :=
  match o with Some a => a | None => None end.

Section WithInt.

Variable parse_int : string -> option Z.

Definition create_main_task : Actions.act unit :=
  name <-a Actions.io (IO.input "Enter main task name: ") ;;
  due_date <-a Actions.io (Cli.get_date_input "Enter main task due date (dd/mm/yyyy)" None) ;;
  priority <-a Actions.io (Cli.get_priority_input "Enter priority") ;;
  status <-a Actions.io (Cli.get_status_input "Enter status") ;;
  class_code <-a Actions.io
    (Cli.get_class_code_input "Enter Class Code (e.g., ICT120, leave empty to skip): ") ;;
  task_list <-a Actions.construct (MainTask.__init__ name due_date priority status class_code) ;;
  Actions.call (Student.add_task_list task_list).

Definition delete_main_task : Actions.act unit :=
  st <-a Actions.student ;;
  match Student.view_task_lists st with
  | [] => Actions.print "No main tasks available to delete."
  | _ =>
      Actions.show (Display.display_task_lists st) ;;a
      list_index <-a Actions.io
        (Cli.get_int_input parse_int "Enter main task number to delete: ") ;;
      if in_range list_index (Student.task_lists st)
      then
        yes <-a Actions.io (Cli.confirm_action "Are you sure you want to delete this task?") ;;
        if yes then Actions.call (Student.delete_task_list list_index) else Actions.ret tt
      else Actions.print "Invalid main task number."
  end.

Definition mark_main_task_as_completed : Actions.act unit :=
  st <-a Actions.student ;;
  match Student.view_task_lists st with
  | [] => Actions.print "No main tasks available to mark as completed."
  | _ =>
      Actions.show (Display.display_task_lists st) ;;a
      list_index <-a Actions.io
        (Cli.get_int_input parse_int "Enter main task number to mark as completed: ") ;;
      if in_range list_index (Student.task_lists st)
      then
        Actions.call (Ops.at_task_list list_index MainTask.mark_as_completed) ;;a
        Actions.print "Main task marked as completed."
      else Actions.print "Invalid main task number."
  end.

Definition add_sub_task : Actions.act unit :=
  st <-a Actions.student ;;
  match Student.view_task_lists st with
  | [] => Actions.print "No main tasks available to add sub-tasks to."
  | _ =>
      Actions.show (Display.display_task_lists st) ;;a
      list_index <-a Actions.io
        (Cli.get_int_input parse_int "Enter main task number to add sub-task to: ") ;;
      match (if in_range list_index (Student.task_lists st)
             then Student.task_lists st !! Z.to_nat (list_index - 1) else None) with
      | Some task_list =>
          details <-a Actions.io (IO.input "Enter sub-task details: ") ;;
          due_date <-a Actions.io
            (Cli.get_date_input "Enter sub-task due date (dd/mm/yyyy): "
               (MainTask.due_date task_list)) ;;
          priority <-a Actions.io (Cli.get_priority_input "Enter priority") ;;
          status <-a Actions.io (Cli.get_status_input "Enter status") ;;
          let class_code := Display.class_code_str (MainTask.class_code task_list) in
          sub_task <-a Actions.construct
            (SubTask.__init__ details due_date priority class_code (String.eqb status "C")) ;;
          Actions.call (Ops.at_task_list list_index (MainTask.add_sub_task sub_task))
      | None => Actions.print "Invalid main task number."
      end
  end.

(** The part the two sub-task actions that pick a sub-task share: the table,
    the main task number, the numbered sub-tasks, the sub-task number. *)
Definition pick_sub_task (nothing ask_list ask_sub : string)
    (chosen : Z -> Z -> Actions.act unit) : Actions.act unit :=
  st <-a Actions.student ;;
  match Student.view_task_lists st with
  | [] => Actions.print nothing
  | _ =>
      Actions.show (Display.display_all_tasks st) ;;a
      list_index <-a Actions.io (Cli.get_int_input parse_int ask_list) ;;
      match (if in_range list_index (Student.task_lists st)
             then Student.task_lists st !! Z.to_nat (list_index - 1) else None) with
      | Some task_list =>
          match MainTask.sub_tasks task_list with
          | [] => Actions.print "No sub-tasks in this list."
          | sub_tasks =>
              Actions.show (Display.numbered 1 sub_tasks) ;;a
              sub_task_index <-a Actions.io (Cli.get_int_input parse_int ask_sub) ;;
              if in_range sub_task_index sub_tasks
              then chosen list_index sub_task_index
              else Actions.print "Invalid sub-task number."
          end
      | None => Actions.print "Invalid main task number."
      end
  end.

Definition delete_sub_task : Actions.act unit :=
  pick_sub_task "No main tasks available to delete sub-tasks from."
    "Enter main task number to delete sub-task from: "
    "Enter sub-task number to delete: "
    (fun list_index sub_task_index =>
       yes <-a Actions.io
         (Cli.confirm_action "Are you sure you want to delete this sub-task?") ;;
       if yes
       then Actions.call (Ops.at_task_list list_index (MainTask.delete_sub_task sub_task_index))
       else Actions.ret tt).

Definition mark_sub_task_as_completed : Actions.act unit :=
  pick_sub_task "No main tasks available to mark sub-tasks as completed."
    "Enter main task number to mark sub-task as completed: "
    "Enter sub-task number to mark as completed: "
    (fun list_index sub_task_index =>
       Actions.call
         (Ops.at_task_list list_index (MainTask.mark_sub_task_as_completed sub_task_index))).

Definition edit_sub_task : Actions.act unit :=
  st <-a Actions.student ;;
  match Student.view_task_lists st with
  | [] => Actions.print "No task lists available to edit sub-tasks in."
  | _ =>
      Actions.show (Display.display_task_lists st) ;;a
      list_index <-a Actions.io
        (Cli.get_int_input parse_int "Enter task list number to edit sub-task in: ") ;;
      match (if in_range list_index (Student.task_lists st)
             then Student.task_lists st !! Z.to_nat (list_index - 1) else None) with
      | Some task_list =>
          match MainTask.sub_tasks task_list with
          | [] => Actions.print "No sub-tasks in this list."
          | sub_tasks =>
              Actions.show (Display.numbered 1 sub_tasks) ;;a
              sub_task_index <-a Actions.io
                (Cli.get_int_input parse_int "Enter sub-task number to edit: ") ;;
              if in_range sub_task_index sub_tasks
              then
                details <-a Actions.io
                  (IO.input "Enter new sub-task details (leave empty to skip): ") ;;
                due_date <-a if_yes "Change due date? (yes/no): "
                  (Cli.get_date_input "Enter new due date (dd/mm/yyyy, leave empty to skip): "
                     (MainTask.due_date task_list)) ;;
                priority <-a if_yes "Change priority? (yes/no): "
                  (Cli.get_priority_input "Enter new priority (H/M/L, leave empty to skip): ") ;;
                Actions.call
                  (Ops.at_task_list list_index
                     (MainTask.edit_sub_task sub_task_index (or_none details)
                        (join_option due_date) priority))
              else Actions.print "Invalid sub-task number."
          end
      | None => Actions.print "Invalid task list number."
      end
  end.

Definition edit_task_list : Actions.act unit :=
  st <-a Actions.student ;;
  match Student.view_task_lists st with
  | [] => Actions.print "No task lists available to edit."
  | _ =>
      Actions.show (Display.display_task_lists st) ;;a
      list_index <-a Actions.io
        (Cli.get_int_input parse_int "Enter task list number to edit: ") ;;
      if in_range list_index (Student.task_lists st)
      then
        new_name <-a Actions.io
          (IO.input "Enter new task list name (leave empty to skip): ") ;;
        new_due_date <-a if_yes "Change due date? (yes/no): "
          (Cli.get_date_input "Enter new due date (dd/mm/yyyy, leave empty to skip): " None) ;;
        new_priority <-a if_yes "Change priority? (yes/no): "
          (Cli.get_priority_input "Enter new priority (H/M/L, leave empty to skip): ") ;;
        new_status <-a if_yes "Change status? (yes/no): "
          (Cli.get_status_input "Enter new status (N/P/C, leave empty to skip): ") ;;
        new_class_code <-a if_yes "Change class code? (yes/no): "
          (Cli.get_class_code_input
             "Enter new class code (e.g., ICT120, leave empty to skip): ") ;;
        Actions.call
          (Student.edit_task_list list_index (or_none new_name) (join_option new_due_date)
             new_priority new_status (join_option new_class_code))
      else Actions.print "Invalid task list number."
  end.

End WithInt.

End Menu.

(** ** Predicates on the menu actions *)

(** What a helper promises: it raises nothing, and what it returns
    satisfies [H]. *)
Definition io_spec {A} (h : IO.io A) (H : A -> Prop) : Prop :=
  forall w r w',
    h w = (r, w') ->
    (forall e, r <> IO.Raised e) /\ (forall a, r = IO.Done a -> H a).

(** From a student that satisfies [P], the action ends with an outcome and a
    student that satisfy [Q]. *)
Definition hoare {A} (P : Student.t -> Prop) (m : Actions.act A)
    (Q : IO.outcome A -> Student.t -> Prop) : Prop :=
  forall st w r st' w',
    P st -> m (st, w) = (r, (st', w')) -> Q r st'.

Definition no_exception {A} (r : IO.outcome A) : Prop := forall e, r <> IO.Raised e.

Definition is_priority (p : string) : Prop := p ∈ ["High"; "Medium"; "Low"].

Definition is_status (s : string) : Prop := s ∈ ["Not Started"; "In Progress"; "Completed"].

(** The labels the input helpers hand out: a priority of the three, and for
    the class code of a sub-task the code of its main task or "N/A". *)
Definition labelled_sub_task (s : SubTask.t) : Prop :=
  is_priority (SubTask.priority s) /\
  (SubTask.class_code s = "N/A" \/ is_class_code (SubTask.class_code s)).

Definition labelled_main_task (m : MainTask.t) : Prop :=
  is_priority (MainTask.priority m) /\
  is_status (MainTask.status m) /\
  (forall c, MainTask.class_code m = Some c -> is_class_code c) /\
  Forall labelled_sub_task (MainTask.sub_tasks m).

Definition labelled (student : Student.t) : Prop :=
  Forall labelled_main_task (Student.task_lists student).


(** The calls the menu actions make: positions that exist, a due date that
    parses and, for a sub-task, is not later than the main task's, labels the
    helpers have handed out. *)
Definition validated (o : Ops.op) (student : Student.t) : Prop :=
  let task_lists := Student.task_lists student in
  let at_list (list_index : Z) (P : MainTask.t -> Prop) :=
    in_range list_index task_lists = true /\
    exists m, task_lists !! Z.to_nat (list_index - 1) = Some m /\ P m in
  let dated (main : option datetime.t) (due_date : option string) :=
    exists new, parse_due_date due_date = Ok new /\
                MainTask.later_than_main main new = false in
  let given {A} (arg : option A) (P : A -> Prop) := forall a, arg = Some a -> P a in
  match o with
  | Ops.add_task_list name due_date priority status class_code =>
      dated None due_date /\ is_priority priority /\ is_status status /\
      given class_code is_class_code
  | Ops.delete_task_list list_index => at_list list_index (fun _ => True)
  | Ops.edit_task_list list_index name due_date priority status class_code =>
      at_list list_index (fun _ => True) /\ dated None due_date /\
      given priority is_priority /\ given status is_status /\ given class_code is_class_code
  | Ops.mark_as_completed list_index => at_list list_index (fun _ => True)
  | Ops.add_sub_task list_index details due_date priority class_code completed =>
      at_list list_index (fun m =>
        dated (MainTask.due_date m) due_date /\ is_priority priority /\
        class_code = Display.class_code_str (MainTask.class_code m) /\
        completed = false)
  | Ops.delete_sub_task list_index sub_task_index
  | Ops.mark_sub_task_as_completed list_index sub_task_index =>
      at_list list_index (fun m => in_range sub_task_index (MainTask.sub_tasks m) = true)
  | Ops.edit_sub_task list_index sub_task_index details due_date priority =>
      at_list list_index (fun m =>
        in_range sub_task_index (MainTask.sub_tasks m) = true /\
        dated (MainTask.due_date m) due_date /\ given priority is_priority)
  end.

(** What an action does to the student it is given: nothing, or one call of
    the kind [allowed], validated, that returns normally; and no exception
    leaves the action. *)
Definition performs (a : Actions.act unit) (allowed : Ops.op -> Prop) : Prop :=
  forall st w r st' w',
    a (st, w) = (r, (st', w')) ->
    no_exception r /\
    (st' = st \/
     exists o, allowed o /\ validated o st /\ Ops.run o st = (Ok tt, st')).

(** The answer [confirm_action] reads in a line, if it is one. *)
Definition yes_or_no (line : string) : option bool :=
  let response := Str.lower (Text.strip line) in
  if String.eqb response "yes" then Some true
  else if String.eqb response "no" then Some false
  else None.

(** The number and the answer the delete actions wait for: the first line
    [int] accepts, then the first yes or no after it. *)
Definition main_task_to_delete (parse_int : string -> option Z) (student : Student.t)
    (lines : list string) : option Z :=
  match first_accepted parse_int lines with
  | Some (list_index, _, rest) =>
      if in_range list_index (Student.task_lists student)
      then match first_accepted yes_or_no rest with
           | Some (true, _, _) => Some list_index
           | _ => None
           end
      else None
  | None => None
  end.

Definition sub_task_to_delete (parse_int : string -> option Z) (student : Student.t)
    (lines : list string) : option (Z * Z) :=
  match first_accepted parse_int lines with
  | Some (list_index, _, rest) =>
      match (if in_range list_index (Student.task_lists student)
             then Student.task_lists student !! Z.to_nat (list_index - 1) else None) with
      | Some task_list =>
          match first_accepted parse_int rest with
          | Some (sub_task_index, _, rest') =>
              if in_range sub_task_index (MainTask.sub_tasks task_list)
              then match first_accepted yes_or_no rest' with
                   | Some (true, _, _) => Some (list_index, sub_task_index)
                   | _ => None
                   end
              else None
          | None => None
          end
      | None => None
      end
  | None => None
  end.

(** ** Searching from the terminal *)

Module Search.

(** [MainTask.search_sub_tasks] by value, for a caller that reads the
    result and changes no list. *)
Definition search_sub_tasks (self : MainTask.t) (keyword : string) : list SubTask.t :=
  if Str.truthy keyword
  then List.filter (matches keyword) (MainTask.sub_tasks self)
  else MainTask.sub_tasks self.

Section WithInt.

Variable parse_int : string -> option Z.

Definition search_tasks : Actions.act unit :=
  st <-a Actions.student ;;
  match Student.view_task_lists st with
  | [] => Actions.print "No task lists available to search sub-tasks in."
  | _ =>
      Actions.show (Display.display_task_lists st) ;;a
      search_all <-a Actions.io
        (IO.input "Do you want to search across all lists? (yes/no): ") ;;
      keyword <-a Actions.io (IO.input "Enter keyword to search (leave empty to skip): ") ;;
      let keyword := Text.strip keyword in
      if String.eqb (Str.lower (Text.strip search_all)) "yes"
      then
        Actions.show
          (Display.display_search_results
             (flat_map (fun task_list => search_sub_tasks task_list keyword)
                (Student.view_task_lists st)))
      else
        list_index <-a Actions.io
          (Cli.get_int_input parse_int "Enter task list number to search in: ") ;;
        match (if in_range list_index (Student.task_lists st)
               then Student.task_lists st !! Z.to_nat (list_index - 1) else None) with
        | Some task_list =>
            Actions.show
              (Display.display_search_results (search_sub_tasks task_list keyword))
        | None => Actions.print "Invalid task list number."
        end
  end.

End WithInt.

End Search.

(** ** The menus *)

Module Menus.

Definition newline : string := String "010"%char EmptyString.

(** A text of several lines, as one [str]. *)
Definition text (lines : list string) : string := String.concat newline lines.

Definition help_texts : list (string * string) :=
  [ ("main",
     text [ EmptyString;
            "Main Menu Help:";
            "1. Task Management: Manage your tasks and sub-tasks.";
            "2. Save and Exit: Save all changes and exit the application.";
            "3. Exit without Saving: Exit the application without saving changes.";
            "4. Help: Display this help message.";
            "        " ]);
    ("task_management",
     text [ EmptyString;
            "Task Management Menu Help:";
            "1. Create Main Task: Create a new main task.";
            "2. Add Sub-Task to Main Task: Add a sub-task to an existing main task.";
            "3. Mark Tasks as Completed: Mark main tasks or sub-tasks as completed.";
            "4. View and Search: View all tasks and sub-tasks or search for specific sub-tasks.";
            "5. Edit Tasks: Edit an existing main task or sub-task.";
            "6. Delete Tasks: Delete an existing main task or sub-task.";
            "7. Back to Main Menu: Go back to the main menu.";
            "8. Help: Display this help message.";
            "        " ]) ].

(** [print(help_texts.get(menu, ...))]. *)
Definition display_help (menu : string) : Actions.act unit :=
  Actions.print (default "No help available for this menu." (Py.assoc menu help_texts)).

(** [while True: <print the menu>; choice = input(...).strip().lower();
    <dispatch>], where [break] is [Return] and the end of the body is
    [Again].  Every round reads a line, so the rounds are at most one more
    than the lines left: [rounds] counts them down, and [menu] starts it with
    that many. *)
Fixpoint rounds (fuel : nat) (title : string) (options : list string)
    (dispatch : string -> Actions.act (Cli.round unit)) : Actions.act unit :=
  match fuel with
  | 0 => fun s => (IO.EOFError, s)
  | S fuel' =>
      Actions.show (map IO.Print ((newline ++ title)%string :: options)) ;;a
      choice <-a Actions.io (IO.input "Choose an option: ") ;;
      round <-a dispatch (Str.lower (Text.strip choice)) ;;
      match round with
      | Cli.Return _ => Actions.ret tt
      | Cli.Again => rounds fuel' title options dispatch
      end
  end.

Definition menu (title : string) (options : list string)
    (dispatch : string -> Actions.act (Cli.round unit)) : Actions.act unit :=
  fun s => rounds (S (length (IO.stdin (snd s)))) title options dispatch s.

(** One branch of the [if]/[elif] chain that goes round again. *)
Definition again (a : Actions.act unit) : Actions.act (Cli.round unit) :=
  a ;;a Actions.ret Cli.Again.

Definition back : Actions.act (Cli.round unit) := Actions.ret (Cli.Return tt).

Definition invalid_choice : Actions.act (Cli.round unit) :=
  again (Actions.print "Invalid choice. Please try again.").

Section WithInt.

Variable parse_int : string -> option Z.

Definition mark_tasks_menu : Actions.act unit :=
  menu "Mark as Completed:"
    [ "1. Mark Main Task as Completed";
      "2. Mark Sub-Task as Completed";
      "3. Back to Task Management Menu" ]
    (fun mark_choice =>
       if String.eqb mark_choice "1" then again (Menu.mark_main_task_as_completed parse_int)
       else if String.eqb mark_choice "2"
       then again (Menu.mark_sub_task_as_completed parse_int)
       else if String.eqb mark_choice "3" then back
       else invalid_choice).

Definition view_and_search_menu : Actions.act unit :=
  menu "View and Search:"
    [ "1. View All Tasks and Sub-Tasks";
      "2. View Main Tasks";
      "3. View Sub-Tasks";
      "4. Search Sub-Tasks";
      "5. Back to Task Management Menu" ]
    (fun view_choice =>
       if String.eqb view_choice "1"
       then again (st <-a Actions.student ;; Actions.show (Display.display_all_tasks st))
       else if String.eqb view_choice "2"
       then again (st <-a Actions.student ;; Actions.show (Display.display_task_lists st))
       else if String.eqb view_choice "3"
       then again (st <-a Actions.student ;; Actions.show (Display.display_all_sub_tasks st))
       else if String.eqb view_choice "4" then again (Search.search_tasks parse_int)
       else if String.eqb view_choice "5" then back
       else invalid_choice).

Definition edit_menu : Actions.act unit :=
  menu "Edit:"
    [ "1. Edit Main Task";
      "2. Edit Sub-Task";
      "3. Back to Task Management Menu" ]
    (fun edit_choice =>
       if String.eqb edit_choice "1" then again (Menu.edit_task_list parse_int)
       else if String.eqb edit_choice "2" then again (Menu.edit_sub_task parse_int)
       else if String.eqb edit_choice "3" then back
       else invalid_choice).

Definition delete_menu : Actions.act unit :=
  menu "Delete:"
    [ "1. Delete Main Task";
      "2. Delete Sub-Task";
      "3. Back to Task Management Menu" ]
    (fun delete_choice =>
       if String.eqb delete_choice "1" then again (Menu.delete_main_task parse_int)
       else if String.eqb delete_choice "2" then again (Menu.delete_sub_task parse_int)
       else if String.eqb delete_choice "3" then back
       else invalid_choice).

Definition task_management_menu : Actions.act unit :=
  menu "Task Management:"
    [ "1. Create Main Task";
      "2. Add Sub-Task to Main Task";
      "3. Mark Tasks as Completed";
      "4. View and Search";
      "5. Edit Tasks";
      "6. Delete Tasks";
      "7. Back to Main Menu";
      "8. Help" ]
    (fun task_choice =>
       if String.eqb task_choice "1" then again Menu.create_main_task
       else if String.eqb task_choice "2" then again (Menu.add_sub_task parse_int)
       else if String.eqb task_choice "3" then again mark_tasks_menu
       else if String.eqb task_choice "4" then again view_and_search_menu
       else if String.eqb task_choice "5" then again edit_menu
       else if String.eqb task_choice "6" then again delete_menu
       else if String.eqb task_choice "7" then back
       else if String.eqb task_choice "8" then again (display_help "task_management")
       else invalid_choice).

End WithInt.

End Menus.

(** [performs], for an action that starts from [st0]. *)
Definition performed (st0 : Student.t) (allowed : Ops.op -> Prop)
    (r : IO.outcome unit) (st' : Student.t) : Prop :=
  no_exception r /\
  (st' = st0 \/
   exists o, allowed o /\ validated o st0 /\ Ops.run o st0 = (Ok tt, st')).

(** A helper that takes lines from the input and puts none back. *)
Definition io_reads_on {A} (h : IO.io A) : Prop :=
  forall w r w', h w = (r, w') -> length (IO.stdin w') <= length (IO.stdin w).

(** An action that takes lines from the input and puts none back. *)
Definition reads_on {A} (a : Actions.act A) : Prop :=
  forall s r s',
    a s = (r, s') -> length (IO.stdin (snd s')) <= length (IO.stdin (snd s)).

(** The student after a session: the student before it, after any number of
    validated calls of the kinds [allowed] that returned normally. *)
Inductive session (allowed : Ops.op -> Prop) (student : Student.t) : Student.t -> Prop :=
| session_start : session allowed student student
| session_call st o st' :
    session allowed student st ->
    allowed o ->
    validated o st ->
    Ops.run o st = (Ok tt, st') ->
    session allowed student st'.

(** No exception, and a student that satisfies [I]. *)
Definition kept {A} (I : Student.t -> Prop) (r : IO.outcome A) (st : Student.t) : Prop :=
  no_exception r /\ I st.

(** The kinds of calls of the sub-menus. *)
Definition marks (o : Ops.op) : Prop :=
  match o with
  | Ops.mark_as_completed _ | Ops.mark_sub_task_as_completed _ _ => True
  | _ => False
  end.

Definition edits (o : Ops.op) : Prop :=
  match o with
  | Ops.edit_task_list _ _ _ _ _ _ | Ops.edit_sub_task _ _ _ _ _ => True
  | _ => False
  end.

Definition deletes (o : Ops.op) : Prop :=
  match o with
  | Ops.delete_task_list _ | Ops.delete_sub_task _ _ => True
  | _ => False
  end.

(** [int] on the lines of the examples: a text of one decimal digit is its
    value, the other lines there are no numbers. *)
Definition one_digit (text : string) : option Z :=
  match text with
  | String c EmptyString =>
      if datetime.is_digit c then Some (Z.of_nat (nat_of_ascii c - 48)) else None
  | _ => None
  end.
(** * Properties *)

Local Open Scope list_scope.

(** ** Dates *)

Lemma gt_false_iff_le (a b : datetime.t) : datetime.gt a b = false <-> datetime.le a b.
Proof.
  unfold datetime.gt, datetime.le.
  destruct (datetime.compare a b); split; congruence.
Qed.

Lemma gt_true_iff_not_le (a b : datetime.t) : datetime.gt a b = true <-> ~ datetime.le a b.
Proof.
  rewrite <- gt_false_iff_le. destruct (datetime.gt a b); split; congruence.
Qed.

Lemma later_than_main_false (main sub : option datetime.t) :
  MainTask.later_than_main main sub = false <->
  (forall D Ds, main = Some D -> sub = Some Ds -> datetime.le Ds D).
Proof.
  destruct main as [D|], sub as [Ds|]; simpl; split; try congruence; try done.
  - intros H D' Ds' [= <-] [= <-]. by apply gt_false_iff_le.
  - intros H. apply gt_false_iff_le. by apply H.
Qed.

(** ** Serialisation *)

(** C9: the dictionary of a sub-task without a due date holds [None] under
    ["due_date"]: the one entry with that key is [None], so it is neither the
    string ["None"] nor the empty string. *)
Theorem to_dict_absent_due_date_is_none (s : SubTask.t) :
  SubTask.due_date s = None ->
  Py.getitem (SubTask.to_dict s) "due_date" = Ok VNone /\
  (forall d v, SubTask.to_dict s = VDict d -> ("due_date", v) ∈ d -> v = VNone) /\
  Py.getitem (SubTask.to_dict s) "due_date" <> Ok (VStr "None") /\
  Py.getitem (SubTask.to_dict s) "due_date" <> Ok (VStr EmptyString).
Proof.
  intros Hdue. unfold SubTask.to_dict. rewrite Hdue. simpl.
  repeat split; try discriminate.
  intros d v [= <-] Hin.
  repeat (apply elem_of_cons in Hin as [Hin | Hin]; [by inversion Hin |]).
  by apply elem_of_nil in Hin.
Qed.

Lemma to_dict_absent_due_date_is_none_witness :
  Py.getitem (SubTask.to_dict undated_note) "due_date" = Ok VNone.
Proof. exact (proj1 (to_dict_absent_due_date_is_none undated_note eq_refl)). Defined.

(** C10: for a sub-task and for a main task without a due date, [from_dict]
    of the object's own [to_dict] raises [ValueError]: [str(None)] is the
    string ["None"], which the constructor hands to [strptime], and
    [strptime] rejects it. *)
Theorem from_dict_of_absent_due_date_raises (s : SubTask.t) (m : MainTask.t) :
  SubTask.due_date s = None ->
  MainTask.due_date m = None ->
  SubTask.from_dict (SubTask.to_dict s) = Raise ValueError /\
  MainTask.from_dict (MainTask.to_dict m) = Raise ValueError /\
  Py.str VNone = "None" /\
  parse_due_date (Some (Py.str VNone)) = Raise ValueError.
Proof.
  intros Hs Hm. destruct s, m; simpl in *; subst.
  repeat split; reflexivity.
Qed.

Lemma from_dict_of_absent_due_date_raises_witness :
  SubTask.from_dict (SubTask.to_dict undated_note) = Raise ValueError /\
  MainTask.from_dict (MainTask.to_dict undated_task) = Raise ValueError.
Proof.
  pose proof (from_dict_of_absent_due_date_raises undated_note undated_task eq_refl eq_refl)
    as (H1 & H2 & _).
  exact (conj H1 H2).
Defined.

(** ** Adding a sub-task *)

Lemma fits_iff (m : MainTask.t) (s : SubTask.t) :
  fits m s <-> MainTask.later_than_main (MainTask.due_date m) (SubTask.due_date s) = false.
Proof.
  rewrite later_than_main_false. unfold fits. split.
  - intros [H | [H | (D & Ds & HD & HDs & Hle)]] D' Ds' HD' HDs'; congruence.
  - intros H. destruct (MainTask.due_date m) as [D|]; [| by left].
    destruct (SubTask.due_date s) as [Ds|]; [| by right; left].
    right; right. exists D, Ds. auto.
Qed.

(** C4: [add_sub_task] succeeds exactly when the sub-task's due date is not
    strictly after the main task's or one of the dates is absent; it then
    appends the sub-task at the end and changes nothing else.  Otherwise it
    raises [ValueError] and the main task is as before. *)
Theorem add_sub_task_succeeds_iff_fits (m : MainTask.t) (s : SubTask.t) :
  (fst (MainTask.add_sub_task s m) = Ok tt <-> fits m s) /\
  (fits m s ->
   MainTask.add_sub_task s m
   = (Ok tt, MainTask.set_sub_tasks (MainTask.sub_tasks m ++ [s]) m)) /\
  (~ fits m s -> MainTask.add_sub_task s m = (Raise ValueError, m)).
Proof.
  rewrite fits_iff. unfold MainTask.add_sub_task.
  destruct (MainTask.later_than_main _ _); simpl; repeat split; try congruence; try done.
Qed.

Lemma add_sub_task_succeeds_iff_fits_witness :
  MainTask.add_sub_task draft_intro essay = (Ok tt, essay_with_draft).
Proof.
  apply (proj1 (proj2 (add_sub_task_succeeds_iff_fits essay draft_intro))).
  right; right. exists (datetime.mk 2025 6 1), (datetime.mk 2025 5 15).
  repeat split; try reflexivity. discriminate.
Defined.

(** ** Deleting by position *)

Lemma in_range_spec {A} (k : Z) (l : list A) :
  in_range k l = true <-> (1 <= k <= Z.of_nat (length l))%Z.
Proof. unfold in_range. rewrite andb_true_iff, !Z.leb_le. tauto. Qed.

Lemma delete_removes {A} (k : Z) (l : list A) :
  in_range k l = true ->
  removes_position (Z.to_nat k) l (delete (Z.to_nat (k - 1)) l).
Proof.
  intros Hr%in_range_spec.
  replace (Z.to_nat (k - 1)) with (Z.to_nat k - 1) by lia.
  set (n := Z.to_nat k). assert (1 <= n <= length l) as Hn by lia. clearbody n.
  unfold removes_position. split_and!.
  - apply length_delete. apply lookup_lt_is_Some. lia.
  - rewrite delete_take_drop. do 2 f_equal. lia.
  - intros i Hi. by apply list_lookup_delete_lt.
  - intros i Hi. by apply list_lookup_delete_ge.
  - intros Hnd x Hx Hin.
    apply list_elem_of_lookup in Hin as [j Hj].
    destruct (decide (j < n - 1)) as [Hlt | Hge].
    + rewrite list_lookup_delete_lt in Hj by done.
      pose proof (NoDup_lookup _ _ _ _ Hnd Hx Hj). lia.
    + rewrite list_lookup_delete_ge in Hj by lia.
      pose proof (NoDup_lookup _ _ _ _ Hnd Hx Hj). lia.
Qed.

(** C8: [delete_sub_task] and [delete_task_list] with a position [k] between
    1 and the length remove exactly the element at position [k] from the
    sequence and leave the other attributes alone; with any other position,
    0 included, they raise [IndexError] and the object is unchanged. *)
Theorem delete_by_position (m : MainTask.t) (st : Student.t) (k : Z) :
  ((1 <= k <= Z.of_nat (length (MainTask.sub_tasks m)))%Z ->
   exists l',
     MainTask.delete_sub_task k m = (Ok tt, MainTask.set_sub_tasks l' m) /\
     removes_position (Z.to_nat k) (MainTask.sub_tasks m) l') /\
  (~ (1 <= k <= Z.of_nat (length (MainTask.sub_tasks m)))%Z ->
   MainTask.delete_sub_task k m = (Raise IndexError, m)) /\
  ((1 <= k <= Z.of_nat (length (Student.task_lists st)))%Z ->
   exists l',
     Student.delete_task_list k st = (Ok tt, Student.set_task_lists l' st) /\
     removes_position (Z.to_nat k) (Student.task_lists st) l') /\
  (~ (1 <= k <= Z.of_nat (length (Student.task_lists st)))%Z ->
   Student.delete_task_list k st = (Raise IndexError, st)).
Proof.
  unfold MainTask.delete_sub_task, Student.delete_task_list.
  split_and!.
  - intros Hk%in_range_spec. rewrite Hk. eexists. split; [done |].
    by apply delete_removes.
  - intros Hk. destruct (in_range k _) eqn:E; [| done].
    by apply in_range_spec in E.
  - intros Hk%in_range_spec. rewrite Hk. eexists. split; [done |].
    by apply delete_removes.
  - intros Hk. destruct (in_range k _) eqn:E; [| done].
    by apply in_range_spec in E.
Qed.

Lemma delete_by_position_witness :
  (exists l',
     MainTask.delete_sub_task 2 three_notes = (Ok tt, MainTask.set_sub_tasks l' three_notes) /\
     removes_position 2 (MainTask.sub_tasks three_notes) l') /\
  MainTask.delete_sub_task 0 three_notes = (Raise IndexError, three_notes) /\
  (exists l',
     Student.delete_task_list 1 two_lists = (Ok tt, Student.set_task_lists l' two_lists) /\
     removes_position 1 (Student.task_lists two_lists) l') /\
  Student.delete_task_list 3 two_lists = (Raise IndexError, two_lists).
Proof.
  pose proof (delete_by_position three_notes two_lists 2) as (H1 & _ & _ & _).
  pose proof (delete_by_position three_notes two_lists 0) as (_ & H2 & _ & _).
  pose proof (delete_by_position three_notes two_lists 1) as (_ & _ & H3 & _).
  pose proof (delete_by_position three_notes two_lists 3) as (_ & _ & _ & H4).
  split_and!.
  - apply H1. simpl. lia.
  - apply H2. simpl. lia.
  - apply H3. simpl. lia.
  - apply H4. simpl. lia.
Defined.

(** ** Deserialising a student *)

(** Four positional arguments fill all four parameters of [__init__], so the
    keyword [is_hashed] has nothing left to fill. *)
Lemma bind_four_positional_and_keyword (a1 a2 a3 a4 k : Student.arg) :
  Call.bind Student.params Student.defaults [a1; a2; a3; a4] [("is_hashed", k)]
  = Raise TypeError.
Proof. reflexivity. Qed.

Lemma new_with_four_positional_and_keyword (a1 a2 a3 a4 k : Student.arg) :
  Student.new [a1; a2; a3; a4] [("is_hashed", k)] = Raise TypeError.
Proof. unfold Student.new. by rewrite bind_four_positional_and_keyword. Qed.

Lemma from_dict_never_returns (student_id : string) (data : value) :
  is_ok (Student.from_dict student_id data) = false.
Proof.
  unfold Student.from_dict.
  destruct (Py.get data "task_lists" (VList [])) as [tl|]; [cbn [rbind] | done].
  destruct (Py.iter tl) as [items|]; [cbn [rbind] | done].
  destruct (mapR MainTask.from_dict items) as [task_lists|]; [cbn [rbind] | done].
  destruct (Py.getitem data "password") as [pw|]; [cbn [rbind] | done].
  by rewrite new_with_four_positional_and_keyword.
Qed.

(** C1: [from_dict] does not rebuild a student from its [to_dict]: for the
    student "s1" with password "pw1" and no task lists the call raises
    [TypeError], and no student at all comes back from [from_dict]. *)
Theorem from_dict_of_to_dict_raises :
  Student.from_dict "s1" (Student.to_dict s1) = Raise TypeError /\
  forall student_id x, is_ok (Student.from_dict student_id (Student.to_dict x)) = false.
Proof.
  split; [by vm_compute |].
  intros. apply from_dict_never_returns.
Qed.

(** ** Editing a sub-task *)

Lemma when_provided_absent {S} (arg : option string) (body : string -> method S unit) (s : S) :
  Str.provided arg = false -> when_provided arg body s = (Ok tt, s).
Proof. destruct arg as [[|c r]|]; simpl; done. Qed.

Lemma when_provided_present {S} (arg : string) (body : string -> method S unit) (s : S) :
  Str.truthy arg = true -> when_provided (Some arg) body s = body arg s.
Proof. intros H. simpl. by rewrite H. Qed.

(** What a rejected edit leaves behind: the target sub-task with the new
    [details], when the call gave any; its due date and priority are the old
    ones. *)
Lemma edit_sub_task_rejected (m : MainTask.t) (k : Z) (s : SubTask.t) (D Dnew : datetime.t)
    (details priority : option string) (due : string) :
  in_range k (MainTask.sub_tasks m) = true ->
  MainTask.sub_tasks m !! Z.to_nat (k - 1) = Some s ->
  MainTask.due_date m = Some D ->
  Str.truthy due = true ->
  datetime.strptime due = Ok Dnew ->
  datetime.gt Dnew D = true ->
  MainTask.edit_sub_task k details (Some due) priority m
  = (Raise ValueError,
     MainTask.set_sub_tasks
       (<[Z.to_nat (k - 1) :=
            if Str.provided details
            then SubTask.set_details (default EmptyString details) s else s]>
          (MainTask.sub_tasks m)) m).
Proof.
  intros Hr Hs HD Hdue Hparse Hgt.
  unfold MainTask.edit_sub_task, MainTask.on_sub_task, on_item. rewrite Hr, Hs.
  unfold MainTask.edit_sub_task_body, m_bind.
  destruct (Str.provided details) eqn:Hdet.
  - destruct details as [d|]; [| done]. simpl in Hdet.
    rewrite (when_provided_present d) by done. unfold m_modify; cbv beta iota.
    rewrite (when_provided_present due) by done.
    unfold m_lift, m_raise. rewrite Hparse, HD. simpl. by rewrite Hgt.
  - rewrite when_provided_absent by done. cbv beta iota.
    rewrite (when_provided_present due) by done.
    unfold m_lift, m_raise. rewrite Hparse, HD. simpl. by rewrite Hgt.
Qed.

(** C2: an [edit_sub_task] call whose due date is later than the main task's
    raises [ValueError] after it has assigned the new [details]: on the essay
    due 01/06/2025 with the sub-task "Draft intro", the call with details
    "New intro" and due date 10/06/2025 leaves the sub-task renamed. *)
Theorem edit_sub_task_keeps_details_of_rejected_call :
  MainTask.edit_sub_task 1 (Some "New intro") (Some "10/06/2025") (Some "Low") essay_with_draft
  = (Raise ValueError,
     MainTask.set_sub_tasks [SubTask.set_details "New intro" draft_intro] essay) /\
  SubTask.set_details "New intro" draft_intro <> draft_intro.
Proof. split; [by vm_compute | discriminate]. Qed.

(** ** Loading the store *)

(** C7: [load_students] on a path with no file returns the empty dictionary
    and prints the "not found" line; on a file whose text [json.load]
    rejects it returns the empty dictionary and prints one diagnostic, the
    "Error decoding JSON" line when the exception is [JSONDecodeError].  In
    both cases the call returns: no exception reaches the caller. *)
Theorem load_students_degrades_to_empty (json_load : string -> result value)
    (fs : gmap string string) (filename : string) :
  (fs !! filename = None ->
   StudentDatabase.load_students json_load fs filename
   = (Ok ∅, [StudentDatabase.Line
               ("File '" ++ filename ++ "' not found. Creating a new student database.")%string])) /\
  (forall text,
     fs !! filename = Some text ->
     json_load text = Raise JSONDecodeError ->
     StudentDatabase.load_students json_load fs filename
     = (Ok ∅, [StudentDatabase.Line "Error decoding JSON. The file might be corrupted."])) /\
  (forall text e,
     fs !! filename = Some text ->
     json_load text = Raise e ->
     exists diagnostic,
       StudentDatabase.load_students json_load fs filename = (Ok ∅, [diagnostic])).
Proof.
  unfold StudentDatabase.load_students, StudentDatabase.load_students_try,
    StudentDatabase.open_read.
  split_and!.
  - intros ->. done.
  - intros text Hf Hj. rewrite Hf. cbn [rbind]. by rewrite Hj.
  - intros text e Hf Hj. rewrite Hf. cbn [rbind]. rewrite Hj.
    destruct e; simpl; eauto.
Qed.

Lemma load_students_degrades_to_empty_witness :
  StudentDatabase.load_students json_load_empty_object ∅ "students.json"
  = (Ok ∅, [StudentDatabase.Line
              "File 'students.json' not found. Creating a new student database."]) /\
  StudentDatabase.load_students json_load_empty_object
    {["students.json" := "{ not json"]} "students.json"
  = (Ok ∅, [StudentDatabase.Line "Error decoding JSON. The file might be corrupted."]).
Proof.
  split.
  - apply (proj1 (load_students_degrades_to_empty json_load_empty_object ∅ "students.json")).
    apply lookup_empty.
  - apply (proj1 (proj2 (load_students_degrades_to_empty json_load_empty_object
                           {["students.json" := "{ not json"]} "students.json"))
             "{ not json").
    + apply lookup_singleton_eq.
    + reflexivity.
Defined.

(** Whatever is on disk, the dictionary [load_students] returns is empty:
    [Student.from_dict] raises for every entry, and the last [except] clause
    turns that into the empty dictionary. *)
Lemma load_students_is_always_empty (json_load : string -> result value)
    (fs : gmap string string) (filename : string) :
  fst (StudentDatabase.load_students json_load fs filename) = Ok ∅.
Proof.
  unfold StudentDatabase.load_students.
  destruct (StudentDatabase.load_students_try json_load fs filename) as [students | e] eqn:E.
  - simpl. f_equal.
    unfold StudentDatabase.load_students_try in E.
    destruct (StudentDatabase.open_read fs filename); [simpl in E | done].
    destruct (json_load a); [simpl in E | done].
    destruct (Py.items a0) as [items|]; [simpl in E | done].
    destruct items as [| [k v] items]; simpl in E; [congruence |].
    pose proof (from_dict_never_returns k v) as Hk.
    destruct (Student.from_dict k v); simpl in *; congruence.
  - by destruct e.
Qed.

(** ** Credentials *)

Lemma hex_digit_is_hex (n : N) : is_hex (SHA256.hex_digit n) = true.
Proof.
  unfold SHA256.hex_digit. generalize (N.to_nat n). intros k.
  do 16 (destruct k as [| k]; [reflexivity |]). by destruct k.
Qed.

Lemma hex_word_is_hex (w : N) : Forall (fun c => is_hex c = true) (SHA256.hex_word w).
Proof.
  unfold SHA256.hex_word. simpl. repeat constructor; apply hex_digit_is_hex.
Qed.

Lemma hex_word_length (w : N) : length (SHA256.hex_word w) = 8.
Proof. reflexivity. Qed.

Lemma hex_words_are_hex (ws : list N) :
  Forall (fun c => is_hex c = true) (concat (map SHA256.hex_word ws)).
Proof.
  induction ws as [| w ws IH]; [constructor |].
  cbn [map concat]. apply Forall_app. split; [apply hex_word_is_hex | exact IH].
Qed.

Lemma hex_words_length (ws : list N) :
  length (concat (map SHA256.hex_word ws)) = 8 * length ws.
Proof.
  induction ws as [| w ws IH]; [reflexivity |].
  cbn [map concat]. rewrite length_app, hex_word_length, IH. simpl. lia.
Qed.

Lemma round_length (st : list N) (kw : N * N) :
  length st = 8 -> length (SHA256.round st kw) = 8.
Proof.
  intros H. do 9 (destruct st as [| ? st]; try discriminate). reflexivity.
Qed.

Lemma rounds_length (kws : list (N * N)) (st : list N) :
  length st = 8 -> length (fold_left SHA256.round kws st) = 8.
Proof.
  revert st. induction kws as [| kw kws IH]; intros st H; simpl; [done |].
  apply IH. by apply round_length.
Qed.

Lemma compress_length (h block : list N) :
  length h = 8 -> length (SHA256.compress h block) = 8.
Proof.
  intros H. unfold SHA256.compress.
  rewrite length_map, length_combine, rounds_length by done. lia.
Qed.

Lemma digest_words_length (msg : list N) : length (SHA256.digest_words msg) = 8.
Proof.
  unfold SHA256.digest_words.
  generalize (SHA256.blocks
                (length (SHA256.be_words (length (SHA256.pad msg)) (SHA256.pad msg)))
                (SHA256.be_words (length (SHA256.pad msg)) (SHA256.pad msg))).
  intros bs. assert (length SHA256.H0 = 8) as H by reflexivity.
  revert H. generalize SHA256.H0.
  induction bs as [| b bs IH]; intros h H; simpl; [done |].
  apply IH. by apply compress_length.
Qed.

Lemma of_list_length (l : list ascii) : String.length (Str.of_list l) = length l.
Proof. induction l as [| c l IH]; simpl; [done | by rewrite IH]. Qed.

Lemma mem_of_list_hex (l : list ascii) :
  Forall (fun c => is_hex c = true) l -> Str.mem ":" (Str.of_list l) = false.
Proof.
  induction 1 as [| c l Hc _ IH]; simpl; [done |].
  rewrite IH, orb_false_r.
  destruct (Ascii.eqb ":" c) eqn:E; [| done].
  apply Ascii.eqb_eq in E. subst c. discriminate Hc.
Qed.

(** The digest is 64 characters long and holds no colon. *)
Lemma hexdigest_length (s : string) : String.length (SHA256.hexdigest s) = 64.
Proof.
  unfold SHA256.hexdigest.
  by rewrite of_list_length, hex_words_length, digest_words_length.
Qed.

Lemma hexdigest_no_colon (s : string) : Str.mem ":" (SHA256.hexdigest s) = false.
Proof. apply mem_of_list_hex, hex_words_are_hex. Qed.

Lemma take_no_sep (sep : ascii) (n : nat) (s : string) :
  Str.mem sep s = false -> Str.mem sep (Str.take n s) = false.
Proof.
  unfold Str.take. revert s.
  induction n as [| n IH]; intros [| c s]; simpl; try done.
  intros [H1 H2]%orb_false_iff. rewrite H1. simpl. by apply IH.
Qed.

Lemma hexdigest_all_hex (s : string) : all_hex (SHA256.hexdigest s).
Proof.
  unfold all_hex, SHA256.hexdigest, Str.to_list, Str.of_list.
  rewrite list_ascii_of_string_of_list_ascii. apply hex_words_are_hex.
Qed.

Lemma take_all_hex (n : nat) (s : string) : all_hex s -> all_hex (Str.take n s).
Proof.
  unfold all_hex, Str.take. revert s.
  induction n as [| n IH]; intros [| c s]; simpl; try done.
  intros H. apply Forall_cons in H as [Hc Hs]. constructor; [done | by apply IH].
Qed.

Lemma take_length (n : nat) (s : string) :
  n <= String.length s -> String.length (Str.take n s) = n.
Proof.
  unfold Str.take. revert s.
  induction n as [| n IH]; intros [| c s]; simpl; try done; try lia.
  intros H. f_equal. apply IH. lia.
Qed.

Lemma split_no_sep (sep : ascii) (s : string) :
  Str.mem sep s = false -> Str.split sep s = [s].
Proof.
  induction s as [| c s IH]; simpl; [done |].
  intros [H1 H2]%orb_false_iff. rewrite Ascii.eqb_sym, H1, IH by done. done.
Qed.

Lemma split_at_sep (sep : ascii) (a b : string) :
  Str.mem sep a = false ->
  Str.mem sep b = false ->
  Str.split sep (a ++ String sep b)%string = [a; b].
Proof.
  intros Ha Hb. induction a as [| c a IH]; simpl.
  - by rewrite Ascii.eqb_refl, split_no_sep.
  - simpl in Ha. apply orb_false_iff in Ha as [H1 H2].
    rewrite Ascii.eqb_sym, H1, IH by done. done.
Qed.

(** C5: the credential of a password [p] is the digest of salt-then-[p], a
    colon, and the salt, where the salt is the first 16 characters of the
    digest of [p]; salt and digest are hexadecimal, of 16 and 64 characters.
    [verify_password] on a student created with [p] accepts [p]. *)
Theorem verify_password_accepts_own_password (student_id p : string) :
  Student.hash_password p
  = (SHA256.hexdigest (Str.take 16 (SHA256.hexdigest p) ++ p) ++ ":"
     ++ Str.take 16 (SHA256.hexdigest p))%string /\
  String.length (Str.take 16 (SHA256.hexdigest p)) = 16 /\
  all_hex (Str.take 16 (SHA256.hexdigest p)) /\
  String.length (SHA256.hexdigest (Str.take 16 (SHA256.hexdigest p) ++ p)) = 64 /\
  all_hex (SHA256.hexdigest (Str.take 16 (SHA256.hexdigest p) ++ p)) /\
  Student.verify_password (Student.__init__ student_id p None false) p = Ok true /\
  Student.verify_password (Student.mk student_id (Student.hash_password p) []) p = Ok true.
Proof.
  assert (Student.verify_password (Student.mk student_id (Student.hash_password p) []) p
          = Ok true) as Hv.
  { unfold Student.verify_password, Student.hash_password.
    cbn [Student.password].
    change (":" ++ Str.take 16 (SHA256.hexdigest p))%string
      with (String ":" (Str.take 16 (SHA256.hexdigest p))).
    rewrite split_at_sep.
    - by rewrite String.eqb_refl.
    - apply hexdigest_no_colon.
    - apply take_no_sep, hexdigest_no_colon. }
  split_and!; [done | | | | | exact Hv | exact Hv].
  - apply take_length. rewrite hexdigest_length. lia.
  - apply take_all_hex, hexdigest_all_hex.
  - apply hexdigest_length.
  - apply hexdigest_all_hex.
Qed.

(** ** The date-containment invariant *)

Lemma contained_Forall (m : MainTask.t) :
  contained m <->
  Forall (fun s => MainTask.later_than_main (MainTask.due_date m) (SubTask.due_date s) = false)
         (MainTask.sub_tasks m).
Proof.
  rewrite Forall_forall. unfold contained. split.
  - intros H s Hs. apply later_than_main_false. intros D Ds HD HDs. eauto.
  - intros H s D Ds Hs HD HDs. specialize (H s Hs).
    rewrite later_than_main_false in H. eauto.
Qed.

Lemma on_item_Forall {A R} (P : A -> Prop) (i : nat) (m : method A R) (l : list A) :
  Forall P l ->
  (forall x, P x -> P (snd (m x))) ->
  Forall P (snd (on_item i m l)).
Proof.
  intros Hl Hm. unfold on_item.
  destruct (l !! i) as [x |] eqn:E; [| done].
  specialize (Hm x (Forall_lookup_1 _ _ _ _ Hl E)).
  destruct (m x) as [r x']. simpl in *. by apply Forall_insert.
Qed.

Lemma on_sub_task_contained {R} (i : nat) (body : method SubTask.t R) (m : MainTask.t) :
  contained m ->
  (forall s,
     MainTask.later_than_main (MainTask.due_date m) (SubTask.due_date s) = false ->
     MainTask.later_than_main (MainTask.due_date m) (SubTask.due_date (snd (body s))) = false) ->
  contained (snd (MainTask.on_sub_task i body m)).
Proof.
  rewrite !contained_Forall. intros Hm Hbody.
  unfold MainTask.on_sub_task.
  pose proof (on_item_Forall _ i body _ Hm Hbody) as H.
  destruct (on_item i body (MainTask.sub_tasks m)) as [r l]. exact H.
Qed.

Lemma add_sub_task_contained (s : SubTask.t) (m : MainTask.t) :
  contained m -> contained (snd (MainTask.add_sub_task s m)).
Proof.
  rewrite !contained_Forall. intros Hm. unfold MainTask.add_sub_task.
  destruct (MainTask.later_than_main _ _) eqn:E; simpl; [done |].
  apply Forall_app. split; [done | by constructor].
Qed.

Lemma delete_sub_task_contained (k : Z) (m : MainTask.t) :
  contained m -> contained (snd (MainTask.delete_sub_task k m)).
Proof.
  rewrite !contained_Forall. intros Hm. unfold MainTask.delete_sub_task.
  destruct (in_range _ _); simpl; [| done]. by apply Forall_delete.
Qed.

Lemma mark_sub_task_contained (k : Z) (m : MainTask.t) :
  contained m -> contained (snd (MainTask.mark_sub_task_as_completed k m)).
Proof.
  intros Hm. unfold MainTask.mark_sub_task_as_completed.
  destruct (in_range _ _); [| done].
  apply on_sub_task_contained; [done |]. by intros [].
Qed.

(** The body of [edit_sub_task] never leaves the sub-task with a due date
    later than the main task's, whether it returns or raises. *)
Lemma edit_sub_task_body_keeps_date (main : option datetime.t)
    (details due_date priority : option string) (s : SubTask.t) :
  MainTask.later_than_main main (SubTask.due_date s) = false ->
  MainTask.later_than_main main
    (SubTask.due_date (snd (MainTask.edit_sub_task_body main details due_date priority s)))
  = false.
Proof.
  intros Hs. unfold MainTask.edit_sub_task_body, m_bind.
  set (s1 := snd (when_provided details (fun d => m_modify (SubTask.set_details d)) s)).
  assert (fst (when_provided details (fun d => m_modify (SubTask.set_details d)) s) = Ok tt
          /\ SubTask.due_date s1 = SubTask.due_date s) as [Hr Hd].
  { subst s1. destruct details as [[| c d] |]; by destruct s. }
  destruct (when_provided details _ s) as [r s1']. simpl in Hr, s1. subst r s1.
  rewrite <- Hd in Hs. clear Hd. revert Hs. generalize s1'. clear s. intros s Hs.
  destruct due_date as [due |]; simpl.
  2:{ destruct priority as [[| c p] |]; by destruct s. }
  destruct (Str.truthy due); simpl.
  2:{ destruct priority as [[| c p] |]; by destruct s. }
  unfold m_lift. destruct (datetime.strptime due) as [new |]; [| done].
  destruct (MainTask.later_than_main main (Some new)) eqn:E; [done |].
  unfold m_modify. destruct priority as [[| c p] |]; by destruct s.
Qed.

Lemma edit_sub_task_contained (k : Z) (details due_date priority : option string)
    (m : MainTask.t) :
  contained m -> contained (snd (MainTask.edit_sub_task k details due_date priority m)).
Proof.
  intros Hm. unfold MainTask.edit_sub_task.
  destruct (in_range _ _); [| done].
  apply on_sub_task_contained; [done |].
  intros s. apply edit_sub_task_body_keeps_date.
Qed.

Lemma on_task_list_containment {R} (i : nat) (body : method MainTask.t R) (st : Student.t) :
  containment st ->
  (forall m, contained m -> contained (snd (body m))) ->
  containment (snd (Student.on_task_list i body st)).
Proof.
  unfold containment, Student.on_task_list. intros Hst Hbody.
  pose proof (on_item_Forall _ i body _ Hst Hbody) as H.
  destruct (on_item i body (Student.task_lists st)) as [r l]. exact H.
Qed.

Lemma at_task_list_containment {R} (k : Z) (body : method MainTask.t R) (st : Student.t) :
  containment st ->
  (forall m, contained m -> contained (snd (body m))) ->
  containment (snd (Ops.at_task_list k body st)).
Proof.
  intros Hst Hbody. unfold Ops.at_task_list.
  destruct (Ops.subscript _ _); [| done].
  by apply on_task_list_containment.
Qed.

Lemma on_item_Forall_at {A R} (P : A -> Prop) (i : nat) (m : method A R) (l : list A) :
  Forall P l ->
  (forall x, l !! i = Some x -> P x -> P (snd (m x))) ->
  Forall P (snd (on_item i m l)).
Proof.
  intros Hl Hm. unfold on_item.
  destruct (l !! i) as [x |] eqn:E; [| done].
  specialize (Hm x eq_refl (Forall_lookup_1 _ _ _ _ Hl E)).
  destruct (m x) as [r x']. simpl in *. by apply Forall_insert.
Qed.

Lemma m_bind_keeps {S A B} (P : S -> Prop) (m : method S A) (k : A -> method S B) (s : S) :
  P (snd (m s)) ->
  (forall a s', P s' -> P (snd (k a s'))) ->
  P (snd (m_bind m k s)).
Proof.
  intros Hm Hk. unfold m_bind. destruct (m s) as [[a | e] s']; simpl in *; auto.
Qed.

Lemma when_provided_keeps {S} (P : S -> Prop) (arg : option string)
    (body : string -> method S unit) (s : S) :
  P s ->
  (forall v, arg = Some v -> P (snd (body v s))) ->
  P (snd (when_provided arg body s)).
Proof.
  intros Hs Hbody. destruct arg as [v |]; simpl; [| done].
  destruct (Str.truthy v); [by apply Hbody | done].
Qed.

(** [edit_task_list] touches no sub-task, and the due date it leaves is the
    old one or the one parsed from its argument. *)
Lemma edit_task_list_body_effect (name due_date priority status class_code : option string)
    (m : MainTask.t) :
  MainTask.sub_tasks
    (snd (Student.edit_task_list_body name due_date priority status class_code m))
  = MainTask.sub_tasks m /\
  (MainTask.due_date
     (snd (Student.edit_task_list_body name due_date priority status class_code m))
   = MainTask.due_date m \/
   exists due D,
     due_date = Some due /\ datetime.strptime due = Ok D /\
     MainTask.due_date
       (snd (Student.edit_task_list_body name due_date priority status class_code m))
     = Some D).
Proof.
  set (Q := fun m' : MainTask.t =>
    MainTask.sub_tasks m' = MainTask.sub_tasks m /\
    (MainTask.due_date m' = MainTask.due_date m \/
     exists due D, due_date = Some due /\ datetime.strptime due = Ok D /\
                   MainTask.due_date m' = Some D)).
  change (Q (snd (Student.edit_task_list_body name due_date priority status class_code m))).
  assert (Q m) as Hm by (split; auto).
  unfold Student.edit_task_list_body.
  apply m_bind_keeps.
  { apply when_provided_keeps; [done |]. intros v _. exact Hm. }
  intros _ m1 H1. apply m_bind_keeps.
  { apply when_provided_keeps; [done |]. intros due Hdue.
    unfold m_bind, m_lift. destruct (datetime.strptime due) as [D |] eqn:E; simpl; [| done].
    destruct H1 as [Hsub _]. split; [done |]. right. by exists due, D. }
  intros _ m2 H2. apply m_bind_keeps.
  { apply when_provided_keeps; [done |]. intros v _. exact H2. }
  intros _ m3 H3. apply m_bind_keeps.
  { apply when_provided_keeps; [done |]. intros v _. exact H3. }
  intros _ m4 H4.
  apply when_provided_keeps; [done |]. intros v _. exact H4.
Qed.

Lemma init_has_no_sub_tasks (name : string) (due_date : option string)
    (priority status : string) (class_code : option string) (m : MainTask.t) :
  MainTask.__init__ name due_date priority status class_code = Ok m ->
  MainTask.sub_tasks m = [].
Proof.
  unfold MainTask.__init__. destruct (parse_due_date due_date); simpl; [| done].
  by intros [= <-].
Qed.

(** Every operation keeps the invariant, [edit_task_list] under the side
    condition on the due date it is given. *)
Lemma run_keeps_containment (o : Ops.op) (st : Student.t) :
  containment st ->
  edit_respects_sub_tasks o st ->
  containment (snd (Ops.run o st)).
Proof.
  intros Hst Hside. destruct o; simpl.
  - unfold m_bind, m_lift.
    destruct (MainTask.__init__ _ _ _ _ _) as [m |] eqn:E; simpl; [| done].
    unfold containment. simpl. apply Forall_app. split; [done |].
    constructor; [| done].
    intros s D Ds Hs. rewrite (init_has_no_sub_tasks _ _ _ _ _ _ E) in Hs.
    by apply elem_of_nil in Hs.
  - unfold Student.delete_task_list. destruct (in_range _ _); simpl; [| done].
    by apply Forall_delete.
  - unfold Student.edit_task_list. destruct (in_range _ _) eqn:Hr; [| done].
    unfold containment, Student.on_task_list.
    assert (Forall contained
              (snd (on_item (Z.to_nat (list_index - 1))
                      (Student.edit_task_list_body name due_date priority status class_code)
                      (Student.task_lists st)))) as H.
    { apply on_item_Forall_at; [done |]. intros m Hm Hc.
      destruct (edit_task_list_body_effect name due_date priority status class_code m)
        as [Hsub [Hdue | (due & D & -> & Hparse & Hdue)]].
      - intros s D Ds Hs HD HDs. rewrite Hsub in Hs. rewrite Hdue in HD. eauto.
      - intros s D' Ds Hs HD HDs. rewrite Hsub in Hs. rewrite Hdue in HD.
        injection HD as <-. simpl in Hside. eauto. }
    destruct (on_item _ _ _) as [r l]. exact H.
  - apply at_task_list_containment; [done |]. intros m Hm. exact Hm.
  - unfold m_bind, m_lift.
    destruct (SubTask.__init__ _ _ _ _ _) as [s |]; simpl; [| done].
    apply at_task_list_containment; [done |]. apply add_sub_task_contained.
  - apply at_task_list_containment; [done |]. apply delete_sub_task_contained.
  - apply at_task_list_containment; [done |]. apply mark_sub_task_contained.
  - apply at_task_list_containment; [done |]. apply edit_sub_task_contained.
Qed.

Lemma reachable_containment (student_id password : string) (st : Student.t) :
  reachable student_id password st -> containment st.
Proof.
  induction 1 as [| st o _ IH Hside]; [by constructor |].
  by apply run_keeps_containment.
Qed.

(** *** Operations that raise *)

Lemma map_insert_same {A B} (f : A -> B) (l : list A) (i : nat) (x x' : A) :
  l !! i = Some x -> f x' = f x -> map f (<[i := x']> l) = map f l.
Proof.
  revert i. induction l as [| y l IH]; intros [| i] Hi Hf; simpl in *; try done.
  - injection Hi as ->. by rewrite Hf.
  - f_equal. by apply IH.
Qed.

Lemma on_item_raise_frame {A R B} (f : A -> B) (i : nat) (m : method A R) (l : list A)
    (e : exn) :
  (forall x e', fst (m x) = Raise e' -> f (snd (m x)) = f x) ->
  fst (on_item i m l) = Raise e ->
  map f (snd (on_item i m l)) = map f l.
Proof.
  intros Hm. unfold on_item. destruct (l !! i) as [x |] eqn:E; [| done].
  specialize (Hm x). destruct (m x) as [r x']. simpl in *.
  intros ->. apply (map_insert_same f l i x x' E). by apply (Hm e).
Qed.

Lemma map_id_eq {A} (l l' : list A) : map (fun x => x) l' = map (fun x => x) l -> l' = l.
Proof. by rewrite !map_id. Qed.

Lemma add_sub_task_raise_unchanged (s : SubTask.t) (m : MainTask.t) (e : exn) :
  fst (MainTask.add_sub_task s m) = Raise e -> snd (MainTask.add_sub_task s m) = m.
Proof.
  unfold MainTask.add_sub_task. by destruct (MainTask.later_than_main _ _).
Qed.

Lemma edit_sub_task_body_raise_keeps_date (main : option datetime.t)
    (details due_date priority : option string) (s : SubTask.t) (e : exn) :
  fst (MainTask.edit_sub_task_body main details due_date priority s) = Raise e ->
  SubTask.due_date (snd (MainTask.edit_sub_task_body main details due_date priority s))
  = SubTask.due_date s.
Proof.
  unfold MainTask.edit_sub_task_body, m_bind, m_lift, m_modify, m_raise.
  destruct details as [[| c d] |], due_date as [[| c' due] |], priority as [[| c'' p] |];
    simpl; try done;
    destruct (datetime.strptime _) as [new |]; simpl; try done;
    destruct (MainTask.later_than_main main (Some new)); simpl; done.
Qed.

Lemma edit_sub_task_raise_keeps_dates (k : Z) (details due_date priority : option string)
    (m : MainTask.t) (e : exn) :
  fst (MainTask.edit_sub_task k details due_date priority m) = Raise e ->
  MainTask.due_date (snd (MainTask.edit_sub_task k details due_date priority m))
  = MainTask.due_date m /\
  map SubTask.due_date
      (MainTask.sub_tasks (snd (MainTask.edit_sub_task k details due_date priority m)))
  = map SubTask.due_date (MainTask.sub_tasks m).
Proof.
  unfold MainTask.edit_sub_task. destruct (in_range _ _); [| done].
  unfold MainTask.on_sub_task.
  pose proof (on_item_raise_frame SubTask.due_date (Z.to_nat (k - 1))
                (MainTask.edit_sub_task_body (MainTask.due_date m) details due_date priority)
                (MainTask.sub_tasks m) e) as H.
  destruct (on_item _ _ _) as [r l]. simpl in *. intros Hr. split; [done |].
  apply H; [| done]. intros x e'. apply edit_sub_task_body_raise_keeps_date.
Qed.

Lemma at_task_list_raise_frame {R B} (f : MainTask.t -> B) (k : Z)
    (body : method MainTask.t R) (st : Student.t) (e : exn) :
  (forall m e', fst (body m) = Raise e' -> f (snd (body m)) = f m) ->
  fst (Ops.at_task_list k body st) = Raise e ->
  map f (Student.task_lists (snd (Ops.at_task_list k body st)))
  = map f (Student.task_lists st).
Proof.
  intros Hbody. unfold Ops.at_task_list.
  destruct (Ops.subscript _ _) as [i |]; [| done].
  unfold Student.on_task_list.
  pose proof (on_item_raise_frame f i body (Student.task_lists st) e Hbody) as H.
  destruct (on_item _ _ _) as [r l]. simpl in *. exact H.
Qed.

(** C3: the date-containment invariant holds in every state reached from a
    student without task lists by the operations, provided [add_task_list]
    is handed a newly constructed main task and [add_sub_task] a newly
    constructed sub-task (no [SubTask] object is held by two main tasks),
    and an [edit_task_list] call that supplies a due date supplies one that
    is not earlier than a due date of a sub-task of the main task it edits
    ([edit_task_list] does not check this).  An [add_sub_task] that raises
    leaves the student as it was, and an [edit_sub_task] that raises leaves
    every due date as it was. *)
Theorem containment_in_reachable_states (student_id password : string) :
  (forall st, reachable student_id password st -> containment st) /\
  (forall st list_index details due_date priority class_code completed e,
     fst (Ops.run (Ops.add_sub_task list_index details due_date priority class_code
                     completed) st) = Raise e ->
     snd (Ops.run (Ops.add_sub_task list_index details due_date priority class_code
                     completed) st) = st) /\
  (forall st list_index sub_task_index details due_date priority e,
     fst (Ops.run (Ops.edit_sub_task list_index sub_task_index details due_date priority) st)
     = Raise e ->
     due_dates
       (snd (Ops.run (Ops.edit_sub_task list_index sub_task_index details due_date priority)
               st))
     = due_dates st).
Proof.
  split_and!.
  - apply reachable_containment.
  - intros st list_index details due_date priority class_code completed e. simpl.
    unfold m_bind, m_lift.
    destruct (SubTask.__init__ _ _ _ _ _) as [s |]; simpl; [| done].
    intros Hr.
    pose proof (at_task_list_raise_frame (fun m => m) list_index (MainTask.add_sub_task s)
                  st e (add_sub_task_raise_unchanged s) Hr) as H.
    apply map_id_eq in H.
    revert H. unfold Ops.at_task_list. destruct (Ops.subscript _ _); [| done].
    unfold Student.on_task_list. destruct (on_item _ _ _) as [r l]. simpl.
    intros ->. by destruct st.
  - intros st list_index sub_task_index details due_date priority e Hr. simpl in *.
    unfold due_dates.
    apply (at_task_list_raise_frame
             (fun m => (MainTask.due_date m, map SubTask.due_date (MainTask.sub_tasks m)))
             list_index _ st e); [| done].
    intros m e' Hm.
    by destruct (edit_sub_task_raise_keeps_dates _ _ _ _ _ _ Hm) as [-> ->].
Qed.

Lemma containment_in_reachable_states_witness :
  containment (snd (Ops.run move_essay_later (Ops.run_all essay_ops s1))).
Proof.
  apply (proj1 (containment_in_reachable_states "s1" "pw1")).
  apply reach_step.
  - unfold essay_ops, Ops.run_all. cbn [fold_left].
    apply reach_step; [apply reach_step; [apply reach_init | exact I] | exact I].
  - intros m D s Ds _ Hm HD Hs HDs.
    vm_compute in Hm. injection Hm as <-.
    vm_compute in HD. injection HD as <-.
    apply list_elem_of_singleton in Hs. subst s.
    injection HDs as <-. discriminate.
Defined.

(** C3, as stated, fails: moving the essay to 01/05/2025 with
    [edit_task_list] returns normally and leaves the draft, due 15/05/2025,
    later than its main task. *)
Lemma edit_task_list_breaks_containment :
  fst (Ops.run move_essay_earlier (Ops.run_all essay_ops s1)) = Ok tt /\
  ~ containment (snd (Ops.run move_essay_earlier (Ops.run_all essay_ops s1))).
Proof.
  split; [by vm_compute |].
  intros H. unfold containment in H.
  assert (Student.task_lists (snd (Ops.run move_essay_earlier (Ops.run_all essay_ops s1)))
          = [MainTask.mk "Essay" (Some (datetime.mk 2025 5 1)) "High" "Not Started" None
               [draft_intro]]) as E by (by vm_compute).
  rewrite E in H. apply Forall_inv in H.
  specialize (H draft_intro (datetime.mk 2025 5 1) (datetime.mk 2025 5 15)).
  apply H; try reflexivity. by apply list_elem_of_singleton.
Qed.

(** The invariant needs the new objects of [reachable] as well.  The
    slides, due 10/06/2025, are added to the seminar (due 20/06/2025) and to
    the report (due 12/06/2025), and both calls return normally; moving the
    slides to 14/06/2025 through the seminar returns normally too, since
    [edit_sub_task] looks at the seminar's due date only, and leaves the
    report with a sub-task due after it. *)
Lemma shared_sub_task_breaks_containment :
  exists h1 h2 h3 before after,
    Shared.add_sub_task seminar 1%positive slides_heap = Some (Ok tt, h1) /\
    Shared.add_sub_task report 1%positive h1 = Some (Ok tt, h2) /\
    Shared.value report h2 = Some before /\ contained before /\
    Shared.edit_sub_task seminar 1 None (Some "14/06/2025") None h2 = Some (Ok tt, h3) /\
    Shared.value report h3 = Some after /\ ~ contained after.
Proof.
  eexists _, _, _,
    (MainTask.mk "Report" (Some (datetime.mk 2025 6 12)) "High" "Not Started" None [slides]),
    (MainTask.mk "Report" (Some (datetime.mk 2025 6 12)) "High" "Not Started" None
       [SubTask.set_due_date (Some (datetime.mk 2025 6 14)) slides]).
  split_and!; try reflexivity.
  - intros s D Ds Hs [= <-] HDs. apply list_elem_of_singleton in Hs. subst s.
    injection HDs as <-. discriminate.
  - intros H.
    specialize (H (SubTask.set_due_date (Some (datetime.mk 2025 6 14)) slides)
                  (datetime.mk 2025 6 12) (datetime.mk 2025 6 14)).
    apply H; try reflexivity. by apply list_elem_of_singleton.
Qed.

(** ** Searching sub-tasks *)

Lemma append_cons (c : ascii) (s t : string) :
  (String c s ++ t)%string = String c (s ++ t)%string.
Proof. reflexivity. Qed.

Lemma prefix_iff (n h : string) :
  String.prefix n h = true <-> exists after, h = (n ++ after)%string.
Proof.
  revert h. induction n as [| a n IH]; intros [| b h]; simpl.
  - split; [by exists EmptyString | done].
  - split; [by exists (String b h) | done].
  - split; [done | by intros [after H]].
  - destruct (ascii_dec a b) as [<- | Hne].
    + rewrite IH. split; intros [after H]; exists after; simpl in *;
        [by rewrite H | by injection H].
    + split; [done | intros [after H]; rewrite append_cons in H; congruence].
Qed.

(** [needle in hay] holds exactly when [hay] is some text, [needle], and some
    more text. *)
Lemma contains_iff (n h : string) :
  Str.contains n h = true <-> exists before after, h = (before ++ n ++ after)%string.
Proof.
  induction h as [| c h IH]; cbn [Str.contains].
  - rewrite orb_false_r, prefix_iff. split.
    + intros [after H]. by exists EmptyString, after.
    + intros ([| c before] & after & H); [by exists after | done].
  - rewrite orb_true_iff, prefix_iff, IH. split.
    + intros [[after H] | (before & after & H)].
      * by exists EmptyString, after.
      * exists (String c before), after. rewrite append_cons. by rewrite H.
    + intros ([| c' before] & after & H).
      * left. by exists after.
      * right. rewrite append_cons in H. injection H as _ H. by exists before, after.
Qed.

Lemma matches_iff (keyword : string) (s : SubTask.t) :
  matches keyword s = true <-> ci_substring keyword (SubTask.details s).
Proof. apply contains_iff. Qed.

Lemma comprehension_filter (h : Heap.heap) (keyword : string) (refs : list Heap.loc)
    (subs : list SubTask.t) :
  Heap.deref_all h refs = Some subs ->
  exists found,
    Heap.comprehension h (Str.lower keyword) refs = Some found /\
    Heap.deref_all h found = Some (List.filter (matches keyword) subs).
Proof.
  revert subs. induction refs as [| r refs IH]; intros subs; simpl.
  - intros [= <-]. by exists [].
  - destruct (Heap.sub_task_objects h !! r) as [s |] eqn:Hs; [| done].
    destruct (Heap.deref_all h refs) as [rest |]; [| done].
    intros [= <-]. destruct (IH rest eq_refl) as (found & -> & Hfound).
    eexists. split; [done |]. simpl. unfold matches at 1.
    destruct (Str.contains _ _); simpl; by rewrite ?Hs, Hfound.
Qed.

Lemma deref_all_same_objects (h h' : Heap.heap) (refs : list Heap.loc) :
  Heap.sub_task_objects h' = Heap.sub_task_objects h ->
  Heap.deref_all h' refs = Heap.deref_all h refs.
Proof.
  intros H. induction refs as [| x refs IH]; simpl; [done | by rewrite H, IH].
Qed.

(** C6: with a keyword, [search_sub_tasks] returns a new list object that
    holds, in order, exactly the sub-tasks whose details contain the keyword
    as a substring, letter case aside; whatever is then done to that list,
    the main task's own list stays as it was.  With no keyword ([None] or
    the empty string) it returns all sub-tasks, and the list it returns is
    the main task's own list object. *)
Theorem search_sub_tasks_result (h : Heap.heap) (self : Heap.main_task)
    (keyword : option string) :
  Heap.well_formed h self ->
  exists subs,
    Heap.read_list h (Heap.sub_tasks self) = Some subs /\
    (forall k, keyword = Some k -> Str.truthy k = true ->
       exists r h',
         Heap.search_sub_tasks self keyword h = Some (r, h') /\
         Heap.read_list h' r = Some (List.filter (matches k) subs) /\
         (forall s, s ∈ List.filter (matches k) subs <->
                    s ∈ subs /\ ci_substring k (SubTask.details s)) /\
         r <> Heap.sub_tasks self /\
         Heap.list_objects h !! r = None /\
         forall contents,
           Heap.read_list (Heap.mutate_list r contents h') (Heap.sub_tasks self)
           = Some subs) /\
    (Str.provided keyword = false ->
       Heap.search_sub_tasks self keyword h = Some (Heap.sub_tasks self, h)).
Proof.
  intros (refs & Hrefs & Hobjs).
  assert (exists subs, Heap.deref_all h refs = Some subs) as [subs Hsubs].
  { clear Hrefs. induction refs as [| x refs IH]; simpl; [by eexists |].
    destruct (Hobjs x) as [s Hs]; [by left |]. rewrite Hs.
    destruct IH as [rest ->]; [| by eexists].
    intros y Hy. apply Hobjs. by right. }
  exists subs. unfold Heap.read_list. rewrite Hrefs. split_and!; [done | |].
  - intros k -> Hk. unfold Heap.search_sub_tasks. simpl. rewrite Hk, Hrefs.
    destruct (comprehension_filter h k refs subs Hsubs) as (found & -> & Hfound).
    unfold Heap.alloc_list.
    set (r := fresh (dom (Heap.list_objects h))).
    assert (Heap.list_objects h !! r = None) as Hfresh.
    { apply not_elem_of_dom. apply is_fresh. }
    assert (r <> Heap.sub_tasks self) as Hne by congruence.
    eexists r, _. split; [done |]. simpl. split_and!.
    + rewrite lookup_insert_eq. by rewrite (deref_all_same_objects h).
    + intros s. by rewrite !list_elem_of_In, filter_In, matches_iff.
    + done.
    + done.
    + intros contents. simpl.
      rewrite !lookup_insert_ne by done. rewrite Hrefs.
      by rewrite (deref_all_same_objects h).
  - intros Hk. unfold Heap.search_sub_tasks. by rewrite Hk.
Qed.

Lemma essay_heap_well_formed : Heap.well_formed essay_heap essay_object.
Proof.
  exists [1%positive; 2%positive]. split; [reflexivity |].
  intros x Hx.
  apply elem_of_cons in Hx as [-> | Hx]; [by eexists |].
  apply list_elem_of_singleton in Hx as ->. by eexists.
Qed.

Lemma search_sub_tasks_result_witness :
  exists subs,
    Heap.read_list essay_heap (Heap.sub_tasks essay_object) = Some subs /\
    exists r h',
      Heap.search_sub_tasks essay_object (Some "DRAFT") essay_heap = Some (r, h') /\
      Heap.read_list h' r = Some (List.filter (matches "DRAFT") subs) /\
      r <> Heap.sub_tasks essay_object.
Proof.
  destruct (search_sub_tasks_result essay_heap essay_object (Some "DRAFT")
              essay_heap_well_formed) as (subs & Hsubs & Hkey & _).
  exists subs. split; [exact Hsubs |].
  destruct (Hkey "DRAFT" eq_refl eq_refl) as (r & h' & H1 & H2 & _ & H3 & _).
  exists r, h'. auto.
Defined.

(** C6, as stated, fails for a search without a keyword: the list returned
    is the essay's own list object, so emptying it empties the essay's
    sub-tasks. *)
Lemma search_without_keyword_returns_own_list :
  Heap.search_sub_tasks essay_object None essay_heap = Some (10%positive, essay_heap) /\
  Heap.read_list essay_heap (Heap.sub_tasks essay_object)
  = Some [draft_intro; undated_note] /\
  Heap.read_list (Heap.mutate_list 10%positive [] essay_heap) (Heap.sub_tasks essay_object)
  = Some [].
Proof. split_and!; reflexivity. Qed.

(** ** Values computed by the model *)

Example sha256_constants :
  length SHA256.K = 64 /\
  nth 0 SHA256.K 0%N = 0x428a2f98%N /\
  nth 63 SHA256.K 0%N = 0xc67178f2%N /\
  length SHA256.H0 = 8 /\
  nth 0 SHA256.H0 0%N = 0x6a09e667%N /\
  nth 7 SHA256.H0 0%N = 0x5be0cd19%N.
Proof. by vm_compute. Qed.

Example sha256_abc :
  SHA256.hexdigest "abc"
  = "ba7816bf8f01cfea414140de5dae2223b00361a396177a9cb410ff61f20015ad".
Proof. by vm_compute. Qed.

Example sha256_empty :
  SHA256.hexdigest EmptyString
  = "e3b0c44298fc1c149afbf4c8996fb92427ae41e4649b934ca495991b7852b855".
Proof. by vm_compute. Qed.

Example sha256_two_blocks :
  SHA256.hexdigest "abcdbcdecdefdefgefghfghighijhijkijkljklmklmnlmnomnopnopq"
  = "248d6a61d20638b8e5c026930c3e6039a33ce45964ff2167f6ecedd419db06c1".
Proof. by vm_compute. Qed.

Example hash_password_pw1 :
  Student.hash_password "pw1"
  = "8f88ccd5de9b66694bb7f3acffe4aec9248502de7cac91002b142c2934c2f3a2:c592df4a86933b92".
Proof. by vm_compute. Qed.

Example strptime_examples :
  datetime.strptime "01/06/2025" = Ok (datetime.mk 2025 6 1) /\
  datetime.strptime "1/6/2025" = Ok (datetime.mk 2025 6 1) /\
  datetime.strptime "29/02/2024" = Ok (datetime.mk 2024 2 29) /\
  datetime.strptime "29/02/2023" = Raise ValueError /\
  datetime.strptime "01/01/20255" = Raise ValueError /\
  datetime.strptime "None" = Raise ValueError /\
  datetime.strftime (datetime.mk 2025 6 1) = "01/06/2025".
Proof. by vm_compute. Qed.

(** The scenario of the specification: the draft due 15/05/2025 is added to
    the essay due 01/06/2025, and a sub-task due 10/06/2025 is refused with
    the count of sub-tasks still 1. *)
Example essay_scenario :
  Ops.run_all essay_ops s1 = Student.set_task_lists [essay_with_draft] s1 /\
  Ops.run (Ops.add_sub_task 1 "Submit" (Some "10/06/2025") "High" "N/A" false)
          (Ops.run_all essay_ops s1)
  = (Raise ValueError, Student.set_task_lists [essay_with_draft] s1).
Proof. by vm_compute. Qed.

(** * Further properties *)

(** ** Parsing and printing dates *)

Lemma digit_char_is_digit (n : nat) : datetime.is_digit (datetime.digit_char n) = true.
Proof.
  unfold datetime.is_digit, datetime.digit_char.
  assert (n mod 10 < 10) as H by (apply Nat.mod_upper_bound; lia).
  rewrite nat_ascii_embedding by lia.
  apply andb_true_iff. split; apply Nat.leb_le; lia.
Qed.

Lemma digit_val_digit_char (n : nat) :
  datetime.digit_val (datetime.digit_char n) = n mod 10.
Proof.
  unfold datetime.digit_val, datetime.digit_char.
  assert (n mod 10 < 10) as H by (apply Nat.mod_upper_bound; lia).
  rewrite nat_ascii_embedding by lia. lia.
Qed.

Lemma four_digits_value (y : nat) :
  (Z.of_nat y <= 9999)%Z ->
  1000 * ((y / 1000) mod 10) + 100 * ((y / 100) mod 10) + 10 * ((y / 10) mod 10) + y mod 10
  = y.
Proof.
  intros Hy.
  pose proof (Nat.div_mod_eq y 10) as H1.
  pose proof (Nat.div_mod_eq (y / 10) 10) as H2.
  pose proof (Nat.div_mod_eq (y / 10 / 10) 10) as H3.
  rewrite !Nat.Div0.div_div in *. simpl (10 * 10) in *. simpl (100 * 10) in *.
  assert (y / 1000 < 10) as H4 by (apply Nat.Div0.div_lt_upper_bound; lia).
  rewrite (Nat.mod_small (y / 1000)) by done.
  lia.
Qed.

Lemma re_Y_four_digits {A} (k : nat -> list ascii -> option A) (y : nat) (r : list ascii) :
  (Z.of_nat y <= 9999)%Z -> datetime.re_Y k (four_digits y ++ r) = k y r.
Proof.
  intros Hy. unfold datetime.re_Y, four_digits. cbn [app].
  rewrite !digit_char_is_digit. cbn [andb].
  rewrite !digit_val_digit_char. by rewrite four_digits_value.
Qed.

Lemma re_m_two_digits {A} (k : nat -> list ascii -> option A) (m : nat) (r : list ascii) :
  1 <= m <= 12 ->
  datetime.re_m (fun m' => datetime.re_lit "/" (k m')) (two_digits m ++ "/"%char :: r)
  = k m r.
Proof.
  intros Hm.
  do 13 (destruct m as [| m]; [try lia; cbv; by destruct (k _ r) |]). lia.
Qed.

Lemma re_d_two_digits {A} (k : nat -> list ascii -> option A) (d : nat) (r : list ascii) :
  1 <= d <= 31 ->
  datetime.re_d (fun d' => datetime.re_lit "/" (k d')) (two_digits d ++ "/"%char :: r)
  = k d r.
Proof.
  intros Hd.
  do 32 (destruct d as [| d]; [try lia; cbv; by destruct (k _ r) |]). lia.
Qed.

Lemma days_in_month_le_31 (y m : nat) : datetime.days_in_month y m <= 31.
Proof.
  unfold datetime.days_in_month.
  do 12 (destruct m as [| m]; [try destruct (datetime.is_leap y); lia |]). lia.
Qed.

Lemma valid_bounds (d : datetime.t) :
  datetime.valid d = true ->
  1 <= datetime.year d /\ 1 <= datetime.month d <= 12 /\ 1 <= datetime.day d <= 31.
Proof.
  unfold datetime.valid. rewrite !andb_true_iff, !Nat.leb_le.
  pose proof (days_in_month_le_31 (datetime.year d) (datetime.month d)). lia.
Qed.

Lemma strftime_chars (d : datetime.t) :
  Str.to_list (datetime.strftime d)
  = two_digits (datetime.day d) ++ "/"%char ::
    two_digits (datetime.month d) ++ "/"%char :: four_digits (datetime.year d) ++ [].
Proof.
  unfold datetime.strftime, Str.to_list, Str.of_list.
  by rewrite list_ascii_of_string_of_list_ascii.
Qed.

(** What [strftime] prints, [strptime] reads back. *)
Lemma strptime_strftime (d : datetime.t) :
  calendar_date d -> datetime.strptime (datetime.strftime d) = Ok d.
Proof.
  intros [Hv Hy]. destruct (valid_bounds d Hv) as (_ & Hm & Hd).
  unfold datetime.strptime, datetime.re_match. rewrite strftime_chars.
  rewrite (re_d_two_digits
             (fun d' => datetime.re_m (fun m' => datetime.re_lit "/"
                (datetime.re_Y (fun y r => Some (datetime.mk y m' d', r)))))) by done.
  rewrite (re_m_two_digits
             (fun m' => datetime.re_Y (fun y r => Some (datetime.mk y m' (datetime.day d), r))))
    by done.
  rewrite re_Y_four_digits by done.
  destruct d as [y m dd]. simpl in *. by rewrite Hv.
Qed.

Lemma strftime_truthy (d : datetime.t) : Str.truthy (datetime.strftime d) = true.
Proof. reflexivity. Qed.

(** Inversion of the pattern: a match comes from the innermost
    continuation. *)
Ltac split_matches :=
  repeat match goal with
    | H : match ?x with _ => _ end = Some _ |- _ => destruct x eqn:?; try discriminate H
    | H : (if ?x then _ else _) = Some _ |- _ => destruct x eqn:?; try discriminate H
    | H : datetime.orelse ?a ?b = Some _ |- _ =>
        unfold datetime.orelse in H
    end.

Lemma re_lit_inv {A} (P : A -> Prop) (c : ascii) (k : list ascii -> option A)
    (s : list ascii) (a : A) :
  (forall r, k r = Some a -> P a) -> datetime.re_lit c k s = Some a -> P a.
Proof. unfold datetime.re_lit. intros Hk H. split_matches; simplify_eq; eauto. Qed.

Lemma re_m_inv {A} (P : A -> Prop) (k : nat -> list ascii -> option A)
    (s : list ascii) (a : A) :
  (forall n r, k n r = Some a -> P a) -> datetime.re_m k s = Some a -> P a.
Proof.
  unfold datetime.re_m. intros Hk H. split_matches; simplify_eq; eauto.
Qed.

Lemma re_d_inv {A} (P : A -> Prop) (k : nat -> list ascii -> option A)
    (s : list ascii) (a : A) :
  (forall n r, k n r = Some a -> P a) -> datetime.re_d k s = Some a -> P a.
Proof.
  unfold datetime.re_d. intros Hk H. split_matches; simplify_eq; eauto.
Qed.

Lemma is_digit_val (c : ascii) : datetime.is_digit c = true -> datetime.digit_val c <= 9.
Proof.
  unfold datetime.is_digit, datetime.digit_val.
  rewrite andb_true_iff, !Nat.leb_le. lia.
Qed.

Lemma re_match_year (s r : list ascii) (d : datetime.t) :
  datetime.re_match s = Some (d, r) -> (Z.of_nat (datetime.year d) <= 9999)%Z.
Proof.
  unfold datetime.re_match.
  set (P := fun a : datetime.t * list ascii => (Z.of_nat (datetime.year (fst a)) <= 9999)%Z).
  change (Z.of_nat (datetime.year d) <= 9999)%Z with (P (d, r)).
  apply (re_d_inv P). intros dd r1.
  apply (re_lit_inv P). intros r2. apply (re_m_inv P). intros m r3.
  apply (re_lit_inv P). intros r4. subst P.
  unfold datetime.re_Y. intros H. split_matches.
  injection H as <-. simpl.
  repeat match goal with
    | H : _ && _ = true |- _ => apply andb_true_iff in H as [? ?]
    end.
  repeat match goal with
    | H : datetime.is_digit _ = true |- _ => apply is_digit_val in H
    end.
  lia.
Qed.

Arguments datetime.strptime : simpl never.
Arguments datetime.strftime : simpl never.

Lemma parse_due_date_strftime (d : datetime.t) :
  calendar_date d -> parse_due_date (Some (datetime.strftime d)) = Ok (Some d).
Proof.
  intros Hd. unfold parse_due_date.
  by rewrite strftime_truthy, strptime_strftime.
Qed.

Lemma parse_due_date_calendar (due : option string) (d : datetime.t) :
  parse_due_date due = Ok (Some d) -> calendar_date d.
Proof.
  unfold parse_due_date. destruct due as [s |]; [| done].
  destruct (Str.truthy s); [| done].
  unfold datetime.strptime.
  destruct (datetime.re_match (Str.to_list s)) as [[d' r] |] eqn:E; [| done].
  destruct r; [| done]. destruct (datetime.valid d') eqn:Hv; [| done].
  simpl. intros [= <-]. split; [done |]. by apply re_match_year in E.
Qed.

Lemma sub_task_round_trip (s : SubTask.t) (d : datetime.t) :
  SubTask.due_date s = Some d ->
  calendar_date d ->
  SubTask.from_dict (SubTask.to_dict s) = Ok s.
Proof.
  intros Hs Hd. destruct s as [details due priority class_code completed].
  simpl in Hs. subst due.
  unfold SubTask.from_dict, SubTask.to_dict. cbn.
  unfold SubTask.__init__. by rewrite parse_due_date_strftime.
Qed.

(** X1: a sub-task whose due date is set (to a date of the calendar, as every
    date the constructor parses is) comes back unchanged from [from_dict] of
    its [to_dict]; this holds in particular for every sub-task the
    constructor builds from a non-empty due-date string. *)
Theorem sub_task_from_dict_of_to_dict (s : SubTask.t) :
  dated s ->
  SubTask.from_dict (SubTask.to_dict s) = Ok s /\
  forall details due priority class_code completed s',
    Str.truthy due = true ->
    SubTask.__init__ details (Some due) priority class_code completed = Ok s' ->
    SubTask.from_dict (SubTask.to_dict s') = Ok s'.
Proof.
  intros (d & Hs & Hd). split; [by apply (sub_task_round_trip s d) |].
  intros details due priority class_code completed s' Hdue.
  unfold SubTask.__init__.
  destruct (parse_due_date (Some due)) as [[d' |] |] eqn:E; simpl; try done.
  - intros [= <-]. apply (sub_task_round_trip _ d'); [done |].
    by apply (parse_due_date_calendar (Some due)).
  - unfold parse_due_date in E. rewrite Hdue in E.
    by destruct (datetime.strptime due).
Qed.

Lemma draft_intro_dated : dated draft_intro.
Proof. exists (datetime.mk 2025 5 15). repeat split; by vm_compute. Qed.

Lemma proofread_dated : dated proofread.
Proof. exists (datetime.mk 2025 5 30). repeat split; by vm_compute. Qed.

Lemma sub_task_from_dict_of_to_dict_witness :
  SubTask.from_dict (SubTask.to_dict draft_intro) = Ok draft_intro.
Proof. exact (proj1 (sub_task_from_dict_of_to_dict draft_intro draft_intro_dated)). Defined.

Lemma sub_tasks_round_trip (l : list SubTask.t) :
  Forall dated l -> mapR SubTask.from_dict (map SubTask.to_dict l) = Ok l.
Proof.
  induction 1 as [| s l (d & Hs & Hd) _ IH]; [done |].
  cbn [map mapR]. by rewrite (sub_task_round_trip s d), IH.
Qed.

(** X2: a main task with a due date all of whose sub-tasks have due dates
    comes back from [from_dict] of its [to_dict] with the same name, dates,
    priority, status and sub-tasks; its class code comes back as it was,
    except that an absent class code comes back as the string "None". *)
Theorem main_task_from_dict_of_to_dict (m : MainTask.t) (D : datetime.t) :
  MainTask.due_date m = Some D ->
  calendar_date D ->
  Forall dated (MainTask.sub_tasks m) ->
  MainTask.from_dict (MainTask.to_dict m)
  = Ok (MainTask.set_class_code (Some (default "None" (MainTask.class_code m))) m).
Proof.
  intros Hm HD Hsubs. destruct m as [name due priority status class_code subs].
  simpl in *. subst due.
  unfold MainTask.from_dict, MainTask.to_dict. cbn.
  unfold MainTask.__init__. rewrite parse_due_date_strftime by done. cbn.
  rewrite sub_tasks_round_trip by done. by destruct class_code.
Qed.

Lemma main_task_from_dict_of_to_dict_witness :
  MainTask.from_dict (MainTask.to_dict essay_two_dated)
  = Ok (MainTask.set_class_code (Some "None") essay_two_dated).
Proof.
  apply (main_task_from_dict_of_to_dict essay_two_dated (datetime.mk 2025 6 1)).
  - reflexivity.
  - split; by vm_compute.
  - repeat constructor; [apply draft_intro_dated | apply proofread_dated].
Defined.

(** ** Credentials that do not split in two *)

Lemma split_length (sep : ascii) (s : string) :
  length (Str.split sep s) = S (count_char sep s).
Proof.
  induction s as [| c s IH]; [done |]. cbn [Str.split count_char].
  destruct (Ascii.eqb c sep); cbn [length]; [by rewrite IH |].
  destruct (Str.split sep s) as [| p ps]; [done | exact IH].
Qed.

(** X3: [verify_password] raises exactly when the stored credential does not
    hold exactly one colon, and the exception is then [ValueError]; with one
    colon it returns a truth value. *)
Theorem verify_password_raises_iff_not_one_colon (self : Student.t) (password : string) :
  (Student.verify_password self password = Raise ValueError
   <-> count_char ":" (Student.password self) <> 1) /\
  (is_ok (Student.verify_password self password) = true
   <-> count_char ":" (Student.password self) = 1).
Proof.
  unfold Student.verify_password.
  pose proof (split_length ":" (Student.password self)) as H.
  destruct (Str.split ":" (Student.password self)) as [| a [| b [| c l]]];
    simpl in *; split; split; intros; try done; try lia.
Qed.

(** ** Marking a sub-task *)



(** ** What an edit of a sub-task does *)

(** The body of [edit_sub_task], case by case: [details] is assigned first;
    a due date that does not parse, or is later than the main task's, raises
    [ValueError] at that point; otherwise due date and priority follow. *)
Lemma edit_sub_task_body_cases (main : option datetime.t)
    (details due_date priority : option string) (s : SubTask.t) :
  MainTask.edit_sub_task_body main details due_date priority s
  = match parse_due_date due_date with
    | Raise e => (Raise e, SubTask.set_details (overwrite details (SubTask.details s)) s)
    | Ok new =>
        if MainTask.later_than_main main new
        then (Raise ValueError, SubTask.set_details (overwrite details (SubTask.details s)) s)
        else (Ok tt, edited details priority new s)
    end.
Proof.
  unfold MainTask.edit_sub_task_body, m_bind, m_lift, m_modify, m_raise, parse_due_date,
    edited, overwrite.
  destruct s as [d0 due0 p0 c0 b0], main as [D |].
  all: destruct details as [[| c d] |], due_date as [[| c' due] |], priority as [[| c'' p] |];
    cbn; try done.
  all: destruct (datetime.strptime (String c' due)) as [new |]; cbn; try done.
  all: destruct (datetime.gt new D); done.
Qed.

Lemma edit_sub_task_cases (m : MainTask.t) (k : Z) (s : SubTask.t)
    (details due_date priority : option string) :
  in_range k (MainTask.sub_tasks m) = true ->
  MainTask.sub_tasks m !! Z.to_nat (k - 1) = Some s ->
  MainTask.edit_sub_task k details due_date priority m
  = (fst (MainTask.edit_sub_task_body (MainTask.due_date m) details due_date priority s),
     MainTask.set_sub_tasks
       (<[Z.to_nat (k - 1) :=
            snd (MainTask.edit_sub_task_body (MainTask.due_date m) details due_date
                   priority s)]> (MainTask.sub_tasks m)) m).
Proof.
  intros Hr Hs. unfold MainTask.edit_sub_task, MainTask.on_sub_task, on_item.
  rewrite Hr, Hs. by destruct (MainTask.edit_sub_task_body _ _ _ _ _).
Qed.





(** ** Adding and deleting *)

Lemma delete_last {A} (l : list A) (x : A) : delete (length l) (l ++ [x]) = l.
Proof.
  induction l as [| y l IH]; [done |]. cbn [length app]. simpl. by rewrite IH.
Qed.

(** X7: deleting the last position right after a successful [add_sub_task]
    gives the main task back as it was, and deleting the last position right
    after [add_task_list] gives the student back as it was. *)
Theorem add_then_delete_last (m : MainTask.t) (s : SubTask.t) (st : Student.t)
    (task_list : MainTask.t) :
  fits m s ->
  MainTask.delete_sub_task (Z.of_nat (length (MainTask.sub_tasks m)) + 1)
    (snd (MainTask.add_sub_task s m)) = (Ok tt, m) /\
  Student.delete_task_list (Z.of_nat (length (Student.task_lists st)) + 1)
    (snd (Student.add_task_list task_list st)) = (Ok tt, st).
Proof.
  intros Hfits%fits_iff. split.
  - unfold MainTask.add_sub_task. rewrite Hfits. cbn [snd].
    unfold MainTask.delete_sub_task. cbn [MainTask.sub_tasks MainTask.set_sub_tasks].
    assert (in_range (Z.of_nat (length (MainTask.sub_tasks m)) + 1)
              (MainTask.sub_tasks m ++ [s]) = true) as ->.
    { apply in_range_spec. rewrite length_app. simpl. lia. }
    replace (Z.to_nat (Z.of_nat (length (MainTask.sub_tasks m)) + 1 - 1))
      with (length (MainTask.sub_tasks m)) by lia.
    rewrite delete_last. by destruct m.
  - unfold Student.add_task_list, m_modify. cbn [snd].
    unfold Student.delete_task_list. cbn [Student.task_lists Student.set_task_lists].
    assert (in_range (Z.of_nat (length (Student.task_lists st)) + 1)
              (Student.task_lists st ++ [task_list]) = true) as ->.
    { apply in_range_spec. rewrite length_app. simpl. lia. }
    replace (Z.to_nat (Z.of_nat (length (Student.task_lists st)) + 1 - 1))
      with (length (Student.task_lists st)) by lia.
    rewrite delete_last. by destruct st.
Qed.

Lemma add_then_delete_last_witness :
  MainTask.delete_sub_task 2 (snd (MainTask.add_sub_task proofread essay_with_draft))
  = (Ok tt, essay_with_draft) /\
  Student.delete_task_list 3 (snd (Student.add_task_list essay_two_dated two_lists))
  = (Ok tt, two_lists).
Proof.
  apply (add_then_delete_last essay_with_draft proofread two_lists essay_two_dated).
  right; right. exists (datetime.mk 2025 6 1), (datetime.mk 2025 5 30).
  repeat split; try reflexivity. discriminate.
Defined.

(** ** What an edit of a main task cannot do *)



(** ** Reading dictionaries that are not what [to_dict] writes *)

(** X9: [SubTask.from_dict] raises [TypeError] on a value that is not a
    dictionary and [KeyError] on a dictionary that lacks one of its five
    keys; [MainTask.from_dict] raises [TypeError] on a value that is not a
    dictionary and [KeyError] on a dictionary that lacks "name", "due_date",
    "priority" or "status". *)
Theorem from_dict_of_malformed_data (data : value) (d : list (string * value)) (k : string) :
  (is_dict data = false ->
   SubTask.from_dict data = Raise TypeError /\ MainTask.from_dict data = Raise TypeError) /\
  (k ∈ sub_task_keys -> Py.assoc k d = None -> SubTask.from_dict (VDict d) = Raise KeyError) /\
  (k ∈ main_task_keys -> Py.assoc k d = None -> MainTask.from_dict (VDict d) = Raise KeyError).
Proof.
  split_and!.
  - by destruct data.
  - intros Hk Hd. unfold SubTask.from_dict, Py.getitem, sub_task_keys in *.
    repeat (apply elem_of_cons in Hk as [-> | Hk]; [rewrite ?Hd; cbn [rbind];
      repeat (match goal with
              | |- context [Py.assoc ?x d] =>
                  lazymatch goal with
                  | H : Py.assoc x d = None |- _ => rewrite H
                  | _ => destruct (Py.assoc x d); cbn [rbind]
                  end
              end); done |]).
    by apply elem_of_nil in Hk.
  - intros Hk Hd. unfold MainTask.from_dict, Py.getitem, main_task_keys in *.
    repeat (apply elem_of_cons in Hk as [-> | Hk]; [rewrite ?Hd; cbn [rbind];
      repeat (match goal with
              | |- context [Py.assoc ?x d] =>
                  lazymatch goal with
                  | H : Py.assoc x d = None |- _ => rewrite H
                  | _ => destruct (Py.assoc x d); cbn [rbind]
                  end
              end); done |]).
    by apply elem_of_nil in Hk.
Qed.

Lemma from_dict_of_malformed_data_witness :
  SubTask.from_dict (VList []) = Raise TypeError /\
  SubTask.from_dict (VDict [("details", VStr "x"); ("due_date", VStr "01/01/2025")])
  = Raise KeyError /\
  MainTask.from_dict (VDict [("name", VStr "x")]) = Raise KeyError.
Proof.
  split_and!.
  - apply (proj1 (from_dict_of_malformed_data (VList []) [] "details")). reflexivity.
  - apply (proj1 (proj2 (from_dict_of_malformed_data VNone
                           [("details", VStr "x"); ("due_date", VStr "01/01/2025")]
                           "priority"))).
    + unfold sub_task_keys. do 2 right. left.
    + reflexivity.
  - apply (proj2 (proj2 (from_dict_of_malformed_data VNone [("name", VStr "x")] "status"))).
    + unfold main_task_keys. do 3 right. left.
    + reflexivity.
Defined.

(** ** The store *)

(** X10: whatever the file holds, and whether or not it exists, the
    dictionary [load_students] returns is empty and the call returns
    normally: a file with students in it makes [Student.from_dict] raise,
    and the last [except] clause answers with the empty dictionary. *)
Theorem load_students_returns_no_student (json_load : string -> result value)
    (fs : gmap string string) (filename : string) :
  fst (StudentDatabase.load_students json_load fs filename) = Ok ∅ /\
  forall self out student_id password,
    StudentDatabase.__init__ json_load fs filename = (Ok self, out) ->
    StudentDatabase.get_student self student_id password = Ok None.
Proof.
  pose proof (load_students_is_always_empty json_load fs filename) as H.
  split; [exact H |].
  intros self out student_id password. unfold StudentDatabase.__init__.
  destruct (StudentDatabase.load_students json_load fs filename) as [r out'].
  simpl in H. subst r. cbn. intros [= <- <-].
  unfold StudentDatabase.get_student. cbn. by rewrite lookup_empty.
Qed.

Lemma verify_password_of_hash_password (student_id p : string) (l : list MainTask.t) :
  Student.verify_password (Student.mk student_id (Student.hash_password p) l) p = Ok true.
Proof.
  unfold Student.verify_password, Student.hash_password. cbn [Student.password].
  change (":" ++ Str.take 16 (SHA256.hexdigest p))%string
    with (String ":" (Str.take 16 (SHA256.hexdigest p))).
  rewrite split_at_sep.
  - by rewrite String.eqb_refl.
  - apply hexdigest_no_colon.
  - apply take_no_sep, hexdigest_no_colon.
Qed.

(** X11: after [add_student] of a student created from an identifier and a
    password, [get_student] with that identifier and password returns the
    student, replacing whoever was stored under the identifier before;
    look-ups of other identifiers are not affected, and an identifier that
    is not stored gives [None]. *)
Theorem get_student_after_add_student (json_dump : value -> string)
    (self : StudentDatabase.t) (fs : gmap string string) (student_id password : string) :
  StudentDatabase.get_student
    (fst (fst (Store.add_student json_dump
                 (Student.__init__ student_id password None false) self fs)))
    student_id password
  = Ok (Some (Student.__init__ student_id password None false)) /\
  (forall other password',
     other <> student_id ->
     StudentDatabase.get_student
       (fst (fst (Store.add_student json_dump
                    (Student.__init__ student_id password None false) self fs)))
       other password'
     = StudentDatabase.get_student self other password') /\
  (forall other password',
     StudentDatabase.students self !! other = None ->
     StudentDatabase.get_student self other password' = Ok None).
Proof.
  unfold Store.add_student, Store.save_students, StudentDatabase.get_student. cbn.
  split_and!.
  - rewrite lookup_insert_eq. unfold Student.__init__. cbn.
    by rewrite verify_password_of_hash_password.
  - intros other password' Hne. by rewrite lookup_insert_ne.
  - by intros other password' ->.
Qed.

Lemma strptime_raises_ValueError (s : string) (e : exn) :
  datetime.strptime s = Raise e -> e = ValueError.
Proof.
  unfold datetime.strptime.
  destruct (datetime.re_match (Str.to_list s)) as [[d [| c r]] |];
    [destruct (datetime.valid d) | |]; congruence.
Qed.

Lemma parse_due_date_raises_ValueError (due : option string) (e : exn) :
  parse_due_date due = Raise e -> e = ValueError.
Proof.
  unfold parse_due_date. destruct due as [s |]; [| done].
  destruct (Str.truthy s); [| done].
  destruct (datetime.strptime s) eqn:E; [done |].
  cbn. intros [= <-]. by apply strptime_raises_ValueError in E.
Qed.

Lemma sub_task_from_dict_to_dict_raises (s : SubTask.t) (e : exn) :
  SubTask.from_dict (SubTask.to_dict s) = Raise e -> e = ValueError.
Proof.
  unfold SubTask.from_dict, SubTask.to_dict. cbn. unfold SubTask.__init__.
  destruct (parse_due_date _) eqn:E; [done |].
  cbn. intros [= <-]. by apply parse_due_date_raises_ValueError in E.
Qed.

Lemma sub_tasks_from_dict_to_dict_raises (l : list SubTask.t) (e : exn) :
  mapR SubTask.from_dict (map SubTask.to_dict l) = Raise e -> e = ValueError.
Proof.
  induction l as [| s l IH]; [done |]. cbn [map mapR].
  destruct (SubTask.from_dict (SubTask.to_dict s)) eqn:E; cbn [rbind].
  - destruct (mapR SubTask.from_dict (map SubTask.to_dict l)); [done |].
    cbn. intros [= <-]. by apply IH.
  - intros [= <-]. by apply sub_task_from_dict_to_dict_raises in E.
Qed.

Lemma main_task_from_dict_to_dict_raises (m : MainTask.t) (e : exn) :
  MainTask.from_dict (MainTask.to_dict m) = Raise e -> e = ValueError.
Proof.
  unfold MainTask.from_dict, MainTask.to_dict. cbn. unfold MainTask.__init__.
  destruct (parse_due_date _) eqn:E; cbn.
  - destruct (mapR SubTask.from_dict (map SubTask.to_dict (MainTask.sub_tasks m))) eqn:E';
      [done |].
    cbn. intros [= <-]. by apply sub_tasks_from_dict_to_dict_raises in E'.
  - intros [= <-]. by apply parse_due_date_raises_ValueError in E.
Qed.

Lemma main_tasks_from_dict_to_dict_raises (l : list MainTask.t) (e : exn) :
  mapR MainTask.from_dict (map MainTask.to_dict l) = Raise e -> e = ValueError.
Proof.
  induction l as [| m l IH]; [done |]. cbn [map mapR].
  destruct (MainTask.from_dict (MainTask.to_dict m)) eqn:E; cbn [rbind].
  - destruct (mapR MainTask.from_dict (map MainTask.to_dict l)); [done |].
    cbn. intros [= <-]. by apply IH.
  - intros [= <-]. by apply main_task_from_dict_to_dict_raises in E.
Qed.

(** What [Student.from_dict] raises on a dictionary written by [to_dict]:
    [ValueError] when a due date is absent somewhere, [TypeError]
    otherwise. *)
Lemma student_from_dict_to_dict_raises (student_id : string) (x : Student.t) :
  Student.from_dict student_id (Student.to_dict x) = Raise ValueError \/
  Student.from_dict student_id (Student.to_dict x) = Raise TypeError.
Proof.
  unfold Student.from_dict, Student.to_dict. cbn.
  destruct (mapR MainTask.from_dict (map MainTask.to_dict (Student.task_lists x))) eqn:E.
  - right. reflexivity.
  - left. cbn. f_equal. by apply main_tasks_from_dict_to_dict_raises in E.
Qed.

(** X12: what [add_student] saves does not load: when [json.load] reads back
    the document [json.dump] wrote, [load_students] on the file written by
    [add_student] prints the "unexpected error" line and returns the empty
    dictionary, so no student is found in a database opened on that file. *)
Theorem saved_students_do_not_load (json_load : string -> result value)
    (json_dump : value -> string) (self : StudentDatabase.t) (fs : gmap string string)
    (student : Student.t) :
  json_load
    (json_dump (Store.saved_data (fst (fst (Store.add_student json_dump student self fs)))))
  = Ok (Store.saved_data (fst (fst (Store.add_student json_dump student self fs)))) ->
  exists e,
    (e = ValueError \/ e = TypeError) /\
    StudentDatabase.load_students json_load
      (snd (fst (Store.add_student json_dump student self fs)))
      (StudentDatabase.filename self)
    = (Ok ∅, [StudentDatabase.UnexpectedError e]).
Proof.
  unfold Store.add_student, Store.save_students. cbn [fst snd StudentDatabase.filename].
  set (self' := StudentDatabase.mk _ _). intros Hjson.
  unfold StudentDatabase.load_students, StudentDatabase.load_students_try,
    StudentDatabase.open_read.
  rewrite lookup_insert_eq. cbn [rbind]. rewrite Hjson.
  unfold Store.saved_data, Py.items. cbn [rbind].
  destruct (map_to_list (StudentDatabase.students self')) as [| [k s] l] eqn:E.
  { apply map_to_list_empty_iff in E. subst self'. cbn in E.
    by apply insert_non_empty in E. }
  cbn [map StudentDatabase.comprehension fst snd].
  destruct (student_from_dict_to_dict_raises k s) as [-> | ->]; eauto.
Qed.

Lemma saved_students_do_not_load_witness :
  exists e,
    (e = ValueError \/ e = TypeError) /\
    StudentDatabase.load_students json_load_stub
      (snd (fst (Store.add_student json_dump_stub s1
                   (StudentDatabase.mk "students.json" ∅) ∅)))
      "students.json"
    = (Ok ∅, [StudentDatabase.UnexpectedError e]).
Proof.
  apply (saved_students_do_not_load json_load_stub json_dump_stub
           (StudentDatabase.mk "students.json" ∅) ∅ s1).
  unfold json_load_stub, json_dump_stub. cbn [String.eqb]. reflexivity.
Defined.

(** ** The input helpers *)

(** A loop whose body checks the line and either returns or prints one
    complaint. *)
Lemma ask_checked {A} (prompt complaint : string) (check : string -> option A)
    (body : string -> IO.io (Cli.round A)) (w : IO.world) :
  (forall line,
     body line = match check line with
                 | Some a => IO.ret (Cli.Return a)
                 | None => IO.print complaint ;;io IO.ret Cli.Again
                 end) ->
  Cli.loop prompt body w = asked prompt complaint check w.
Proof.
  intros Hbody. unfold Cli.loop, asked. destruct w as [lines out clock ticks].
  cbn [IO.stdin IO.stdout IO.clock IO.ticks].
  revert out. induction lines as [| line rest IH]; intros out; [reflexivity |].
  cbn [Cli.ask first_accepted IO.stdin IO.stdout IO.clock IO.ticks].
  rewrite Hbody. destruct (check line) as [a |]; [reflexivity |].
  cbn [IO.bind IO.print IO.ret]. unfold IO.write.
  cbn [IO.stdin IO.stdout IO.clock IO.ticks]. rewrite IH.
  destruct (first_accepted check rest) as [[[a rejected] rest'] |];
    cbn [flat_map]; by rewrite <- !app_assoc.
Qed.

Lemma first_accepted_sound {A} (check : string -> option A) (lines : list string)
    (a : A) (rejected rest : list string) :
  first_accepted check lines = Some (a, rejected, rest) ->
  exists line,
    lines = rejected ++ line :: rest /\ check line = Some a /\
    Forall (fun l => check l = None) rejected.
Proof.
  revert rejected. induction lines as [| line lines IH]; intros rejected; [done |].
  cbn. destruct (check line) as [a' |] eqn:E.
  - intros [= <- <- <-]. by exists line.
  - destruct (first_accepted check lines) as [[[a' rej] rest'] |]; [| done].
    intros [= <- <- <-]. destruct (IH rej eq_refl) as (l & -> & Hl & Hrej).
    exists l. split; [done |]. split; [done |]. by constructor.
Qed.

Lemma first_accepted_none {A} (check : string -> option A) (lines : list string) :
  first_accepted check lines = None <-> Forall (fun l => check l = None) lines.
Proof.
  induction lines as [| line lines IH]; cbn; [by split; [constructor |] |].
  destruct (check line) as [a |] eqn:E.
  - split; [done |]. intros H. apply Forall_cons in H as [H _]. congruence.
  - destruct (first_accepted check lines) as [[[a rej] rest] |].
    + split; [done |]. intros H. apply Forall_cons in H as [_ H]. by apply IH in H.
    + split; [| done]. intros _. constructor; [done |]. by apply IH.
Qed.

(** X13: [get_priority_input] and [get_status_input] answer with the first
    line that, stripped and in capitals, is one of the three letters; they
    write the prompt and the complaint once for every line before it, then
    the prompt, and leave the lines after it.  With no such line they end in
    [EOFError] with every line read.  The value returned is one of High,
    Medium, Low (one of Not Started, In Progress, Completed). *)
Theorem get_priority_and_status_input (prompt : string) (w : IO.world) :
  Cli.get_priority_input prompt w
  = asked (prompt ++ " (H: High, M: Medium, L: Low): ")%string
      "Invalid input. Please enter a valid priority (H/M/L)."
      (fun line => Py.assoc (Text.upper (Text.strip line)) Cli.priorities) w /\
  Cli.get_status_input prompt w
  = asked (prompt ++ " (N: Not Started, P: In Progress, C: Completed): ")%string
      "Invalid input. Please enter a valid status (N/P/C)."
      (fun line => Py.assoc (Text.upper (Text.strip line)) Cli.statuses) w /\
  (forall p w', Cli.get_priority_input prompt w = (IO.Done p, w') ->
                p ∈ ["High"; "Medium"; "Low"]) /\
  (forall s w', Cli.get_status_input prompt w = (IO.Done s, w') ->
                s ∈ ["Not Started"; "In Progress"; "Completed"]).
Proof.
  assert (forall (table : list (string * string)) k v,
            Py.assoc k table = Some v -> v ∈ map snd table) as Hassoc.
  { intros table k v. induction table as [| [k' v'] table IH]; [done |].
    cbn. destruct (String.eqb k k').
    - intros [= ->]. by left.
    - intros H. right. by apply IH. }
  assert (Cli.get_priority_input prompt w
          = asked (prompt ++ " (H: High, M: Medium, L: Low): ")%string
              "Invalid input. Please enter a valid priority (H/M/L)."
              (fun line => Py.assoc (Text.upper (Text.strip line)) Cli.priorities) w) as Hp.
  { unfold Cli.get_priority_input. by apply ask_checked. }
  assert (Cli.get_status_input prompt w
          = asked (prompt ++ " (N: Not Started, P: In Progress, C: Completed): ")%string
              "Invalid input. Please enter a valid status (N/P/C)."
              (fun line => Py.assoc (Text.upper (Text.strip line)) Cli.statuses) w) as Hs.
  { unfold Cli.get_status_input. by apply ask_checked. }
  split_and!; [done | done | |].
  - intros p w'. rewrite Hp. unfold asked.
    destruct (first_accepted _ _) as [[[a rejected] rest] |] eqn:E; [| done].
    intros [= <- _]. apply first_accepted_sound in E as (line & _ & Hline & _).
    by apply Hassoc in Hline.
  - intros s w'. rewrite Hs. unfold asked.
    destruct (first_accepted _ _) as [[[a rejected] rest] |] eqn:E; [| done].
    intros [= <- _]. apply first_accepted_sound in E as (line & _ & Hline & _).
    by apply Hassoc in Hline.
Qed.

Example get_priority_input_example :
  Cli.get_priority_input "Enter priority" (terminal ["urgent"; " m "; "next"])
  = (IO.Done "Medium",
     IO.mk_world ["next"]
       [ IO.Prompt "Enter priority (H: High, M: Medium, L: Low): ";
         IO.Print "Invalid input. Please enter a valid priority (H/M/L).";
         IO.Prompt "Enter priority (H: High, M: Medium, L: Low): " ]
       (IO.clock (terminal [])) 0).
Proof. reflexivity. Qed.

Lemma to_list_upper (s : string) :
  Str.to_list (Text.upper s) = map Text.upper_char (Str.to_list s).
Proof. unfold Str.to_list. induction s as [| c s IH]; cbn; [done | by rewrite IH]. Qed.

Lemma lstrip_head (l l' : list ascii) (c : ascii) :
  Text.lstrip l = c :: l' -> Text.is_space c = false.
Proof.
  induction l as [| x l IH]; [done |]. cbn.
  destruct (Text.is_space x) eqn:E; [done |]. by intros [= <- _].
Qed.

Lemma upper_char_line_feed (c : ascii) :
  Text.upper_char c = "010"%char -> Text.is_space c = true.
Proof. destruct c as [[] [] [] [] [] [] [] []]; by vm_compute. Qed.

(** A stripped text in capitals does not end in a line feed. *)
Lemma strip_upper_last (s : string) (l : list ascii) :
  Str.to_list (Text.upper (Text.strip s)) <> l ++ ["010"%char].
Proof.
  rewrite to_list_upper. unfold Text.strip, Str.to_list, Str.of_list.
  rewrite list_ascii_of_string_of_list_ascii.
  destruct (Text.lstrip (rev (Text.lstrip (list_ascii_of_string s)))) as [| c r] eqn:E.
  - cbn. by destruct l.
  - apply lstrip_head in E. cbn [rev]. rewrite map_app. cbn [map].
    intros [_ H]%app_inj_tail. apply upper_char_line_feed in H. congruence.
Qed.

Lemma get_class_code_input_asked (prompt : string) (w : IO.world) :
  Cli.get_class_code_input prompt w
  = asked prompt
      "Invalid input. Please enter a valid class code (e.g., ICT120) or leave it blank."
      (fun line =>
         if String.eqb (Text.upper (Text.strip line)) EmptyString then Some None
         else if Text.class_code_re (Text.upper (Text.strip line))
              then Some (Some (Text.upper (Text.strip line)))
              else None) w.
Proof.
  unfold Cli.get_class_code_input. apply ask_checked. intros line.
  destruct (String.eqb _ _); [done |]. by destruct (Text.class_code_re _).
Qed.

(** X14: [get_class_code_input] returns [None] for the first line that is
    blank, or the first line that, stripped and in capitals, is three
    capital letters followed by three digits, whichever comes first; what it
    returns is never anything else.  It complains once for every line
    before, and ends in [EOFError] when no line is accepted. *)
Theorem get_class_code_input_result (prompt : string) (w : IO.world) :
  Cli.get_class_code_input prompt w
  = asked prompt
      "Invalid input. Please enter a valid class code (e.g., ICT120) or leave it blank."
      (fun line =>
         if String.eqb (Text.upper (Text.strip line)) EmptyString then Some None
         else if Text.class_code_re (Text.upper (Text.strip line))
              then Some (Some (Text.upper (Text.strip line)))
              else None) w /\
  forall code w',
    Cli.get_class_code_input prompt w = (IO.Done (Some code), w') -> is_class_code code.
Proof.
  split; [apply get_class_code_input_asked |].
  intros code w'. rewrite get_class_code_input_asked. unfold asked.
  destruct (first_accepted _ _) as [[[r rejected] rest] |] eqn:E; [| done].
  intros [= -> _]. apply first_accepted_sound in E as (line & _ & Hline & _).
  destruct (String.eqb _ _); [done |].
  destruct (Text.class_code_re _) eqn:Hre; [| done].
  injection Hline as <-.
  pose proof (strip_upper_last line) as Hlast.
  unfold Text.class_code_re in Hre.
  set (v := Text.upper (Text.strip line)) in *.
  assert (v = Str.of_list (Str.to_list v)) as Hv
    by (unfold Str.of_list, Str.to_list; by rewrite string_of_list_ascii_of_string).
  destruct (Str.to_list v) as [| a [| b [| c [| d [| e [| f [| nl [| ? ?]]]]]]]];
    try done.
  - do 5 (apply andb_true_iff in Hre as [Hre ?]).
    exists a, b, c, d, e, f. by split_and!.
  - do 6 (apply andb_true_iff in Hre as [Hre ?]).
    match goal with H : Ascii.eqb nl _ = true |- _ => apply Ascii.eqb_eq in H; subst nl end.
    by destruct (Hlast [a; b; c; d; e; f]).
Qed.

Example get_class_code_input_example :
  fst (Cli.get_class_code_input "Code: " (terminal ["ict12"; " ict120 "])) = IO.Done (Some "ICT120")
  /\ fst (Cli.get_class_code_input "Code: " (terminal ["  "])) = IO.Done None.
Proof. split; reflexivity. Qed.

(** A loop keeps the clock and never sets its count back, raises nothing
    and returns only what its body returns, when that holds of every round
    of the body. *)
Lemma loop_done {A} (Q : A -> IO.world -> Prop) (c : nat -> IO.instant) (n : nat)
    (prompt : string) (body : string -> IO.io (Cli.round A)) (w : IO.world)
    (r : IO.outcome A) (w' : IO.world) :
  (forall line w1 r1 w2,
     IO.clock w1 = c -> n <= IO.ticks w1 -> body line w1 = (r1, w2) ->
     IO.clock w2 = c /\ IO.ticks w1 <= IO.ticks w2 /\ (forall e, r1 <> IO.Raised e) /\
     (forall a, r1 = IO.Done (Cli.Return a) -> Q a w2)) ->
  IO.clock w = c ->
  n <= IO.ticks w ->
  Cli.loop prompt body w = (r, w') ->
  IO.clock w' = c /\ n <= IO.ticks w' /\ (forall e, r <> IO.Raised e) /\
  (forall a, r = IO.Done a -> Q a w').
Proof.
  intros Hbody. unfold Cli.loop. generalize (IO.stdin w) as lines.
  intros lines. revert w. induction lines as [| line rest IH]; intros w Hc Hn; cbn.
  - intros [= <- <-]. by split_and!.
  - destruct (body line _) as [r1 w2] eqn:E.
    apply Hbody in E as (Hc2 & Hn2 & Hraise & HQ); [| done | done].
    cbn [IO.ticks] in Hn2.
    destruct r1 as [[a |] | | e].
    + intros [= <- <-]. split_and!; [done | lia | done |]. intros a' [= <-]. by apply HQ.
    + apply IH; [done | lia].
    + intros [= <- <-]. split_and!; [done | lia | done | done].
    + by destruct (Hraise e).
Qed.

(** X15: [get_date_input] raises no exception (it can only end in [EOFError]
    when the lines run out).  What it returns is [None] or a text that is
    not empty and that [strptime] accepts, so the constructors can parse it.
    With the due date of a main task given, the date is not later than that
    date.  Without one, the call has read the clock at least once, and the
    date is not before the instant it read last: the instant
    [datetime.now()] returned when this text was checked. *)
Theorem get_date_input_result (prompt : string) (main_task_due_date : option datetime.t)
    (w : IO.world) (r : IO.outcome (option string)) (w' : IO.world) :
  Cli.get_date_input prompt main_task_due_date w = (r, w') ->
  IO.clock w' = IO.clock w /\
  IO.ticks w <= IO.ticks w' /\
  (forall e, r <> IO.Raised e) /\
  (forall answer, r = IO.Done answer -> acceptable_date main_task_due_date w w' answer).
Proof.
  unfold Cli.get_date_input.
  apply (loop_done (fun answer w2 => acceptable_date main_task_due_date w w2 answer)
           (IO.clock w) (IO.ticks w)); [| done | done].
  intros line w1 r1 w2 Hc Hn.
  destruct (String.eqb (Text.strip line) EmptyString) eqn:Hblank.
  { intros [= <- <-]. split_and!; [done | done | done |]. by intros a [= <-]. }
  assert (Str.truthy (Text.strip line) = true) as Htruthy
    by by destruct (Text.strip line).
  destruct (datetime.strptime (Text.strip line)) as [due |] eqn:Hparse.
  2:{ intros [= <- <-]. by split_and!. }
  unfold Cli.check_date. destruct main_task_due_date as [main |].
  - destruct (datetime.gt due main) eqn:Hgt.
    + intros [= <- <-]. by split_and!.
    + intros [= <- <-]. split_and!; [done | done | done |].
      intros a [= <-]. split; [done |]. by exists due.
  - cbn [IO.bind IO.now]. destruct (IO.before due (IO.clock w1 (IO.ticks w1))) eqn:Hb.
    + intros [= <- <-]. cbn. split_and!; [done | lia | done | done].
    + intros [= <- <-]. cbn. split_and!; [done | lia | done |].
      intros a [= <-]. split; [done |]. exists due. split; [done |].
      cbn [IO.ticks]. split; [lia |].
      replace (S (IO.ticks w1) - 1) with (IO.ticks w1) by lia. by rewrite <- Hc.
Qed.

Lemma get_date_input_result_witness :
  acceptable_date None
    (terminal ["next week"; "01/01/2025"; " 15/05/2025 "; "H"])
    (snd (Cli.get_date_input "Enter main task due date (dd/mm/yyyy)" None
            (terminal ["next week"; "01/01/2025"; " 15/05/2025 "; "H"])))
    (Some "15/05/2025").
Proof.
  destruct (get_date_input_result "Enter main task due date (dd/mm/yyyy)" None
              (terminal ["next week"; "01/01/2025"; " 15/05/2025 "; "H"])
              (IO.Done (Some "15/05/2025"))
              (snd (Cli.get_date_input "Enter main task due date (dd/mm/yyyy)" None
                      (terminal ["next week"; "01/01/2025"; " 15/05/2025 "; "H"])))
              ltac:(by vm_compute)) as (_ & _ & _ & H).
  exact (H (Some "15/05/2025") eq_refl).
Defined.

(** X16: [confirm_action] answers with the first line that, stripped and in
    small letters, is yes or no, and returns whether it is yes;
    [get_int_input] answers with the first line [int] accepts.  Each
    complains once for every line before that one, leaves the lines after
    it, and ends in [EOFError] when no line is accepted. *)
Theorem confirm_action_and_get_int_input (parse_int : string -> option Z)
    (prompt : string) (w : IO.world) :
  Cli.confirm_action prompt w
  = asked (prompt ++ " (yes/no): ")%string "Invalid input. Please enter 'yes' or 'no'."
      (fun line =>
         if String.eqb (Str.lower (Text.strip line)) "yes" then Some true
         else if String.eqb (Str.lower (Text.strip line)) "no" then Some false
         else None) w /\
  Cli.get_int_input parse_int prompt w
  = asked prompt "Invalid input. Please enter a valid number." parse_int w.
Proof.
  split.
  - unfold Cli.confirm_action. apply ask_checked. intros line.
    destruct (String.eqb _ "yes"); [done |]. by destruct (String.eqb _ "no").
  - unfold Cli.get_int_input. by apply ask_checked.
Qed.

(** ** What the helpers promise *)

Lemma loop_spec {A} (H : A -> Prop) (prompt : string)
    (body : string -> IO.io (Cli.round A)) :
  (forall line w1 r1 w2,
     body line w1 = (r1, w2) ->
     (forall e, r1 <> IO.Raised e) /\ (forall a, r1 = IO.Done (Cli.Return a) -> H a)) ->
  io_spec (Cli.loop prompt body) H.
Proof.
  intros Hbody w r w'. unfold Cli.loop. generalize (IO.stdin w) as lines.
  intros lines. revert w. induction lines as [| line rest IH]; intros w; cbn.
  - intros [= <- <-]. by split.
  - destruct (body line _) as [r1 w2] eqn:E.
    apply Hbody in E as (Hraise & HQ).
    destruct r1 as [[a |] | | e].
    + intros [= <- <-]. split; [done |]. intros a' [= <-]. by apply HQ.
    + by apply IH.
    + intros [= <- <-]. by split.
    + by destruct (Hraise e).
Qed.

Lemma assoc_snd (table : list (string * string)) (k v : string) :
  Py.assoc k table = Some v -> v ∈ map snd table.
Proof.
  induction table as [| [k' v'] table IH]; [done |].
  cbn. destruct (String.eqb k k').
  - intros [= ->]. by left.
  - intros H. right. by apply IH.
Qed.

Lemma input_spec (prompt : string) : io_spec (IO.input prompt) (fun _ => True).
Proof.
  intros w r w'. unfold IO.input. destruct (IO.stdin w); intros [= <- <-]; by split.
Qed.

Lemma get_int_input_spec (parse_int : string -> option Z) (prompt : string) :
  io_spec (Cli.get_int_input parse_int prompt) (fun _ => True).
Proof.
  apply loop_spec. intros line w1 r1 w2. cbv beta zeta.
  destruct (parse_int line); intros [= <- <-]; by split.
Qed.

Lemma confirm_action_spec (prompt : string) :
  io_spec (Cli.confirm_action prompt) (fun _ => True).
Proof.
  apply loop_spec. intros line w1 r1 w2. cbv beta zeta.
  destruct (String.eqb _ "yes" || String.eqb _ "no"); intros [= <- <-]; by split.
Qed.

Lemma get_priority_input_spec (prompt : string) :
  io_spec (Cli.get_priority_input prompt) is_priority.
Proof.
  apply loop_spec. intros line w1 r1 w2. cbv beta zeta.
  destruct (Py.assoc _ Cli.priorities) as [p |] eqn:E; intros [= <- <-];
    (split; [done |]); [| done].
  intros a [= <-]. by apply assoc_snd in E.
Qed.

Lemma get_status_input_spec (prompt : string) :
  io_spec (Cli.get_status_input prompt) is_status.
Proof.
  apply loop_spec. intros line w1 r1 w2. cbv beta zeta.
  destruct (Py.assoc _ Cli.statuses) as [p |] eqn:E; intros [= <- <-];
    (split; [done |]); [| done].
  intros a [= <-]. by apply assoc_snd in E.
Qed.

Lemma get_class_code_input_spec (prompt : string) :
  io_spec (Cli.get_class_code_input prompt)
    (fun answer => forall c, answer = Some c -> is_class_code c).
Proof.
  intros w r w' Hrun. split.
  - pose proof (get_class_code_input_asked prompt w) as H. rewrite Hrun in H.
    unfold asked in H. intros e ->.
    by destruct (first_accepted _ _) as [[[? ?] ?] |].
  - intros [c |] -> c' [= <-].
    pose proof (get_class_code_input_asked prompt w) as H. rewrite Hrun in H.
    unfold asked in H.
    destruct (first_accepted _ _) as [[[a rejected] rest] |] eqn:E; [| done].
    injection H as <- _. apply first_accepted_sound in E as (line & _ & Hline & _).
    destruct (String.eqb _ _); [done |].
    destruct (Text.class_code_re _) eqn:Hre; [| done].
    injection Hline as <-.
    pose proof (strip_upper_last line) as Hlast.
    unfold Text.class_code_re in Hre.
    set (v := Text.upper (Text.strip line)) in *.
    assert (v = Str.of_list (Str.to_list v)) as Hv
      by (unfold Str.of_list, Str.to_list; by rewrite string_of_list_ascii_of_string).
    destruct (Str.to_list v) as [| a [| b [| c [| d [| e [| f [| nl [| ? ?]]]]]]]];
      try done.
    + do 5 (apply andb_true_iff in Hre as [Hre ?]).
      exists a, b, c, d, e, f. by split_and!.
    + do 6 (apply andb_true_iff in Hre as [Hre ?]).
      match goal with H : Ascii.eqb nl _ = true |- _ => apply Ascii.eqb_eq in H; subst nl end.
      by destruct (Hlast [a; b; c; d; e; f]).
Qed.

Lemma get_date_input_spec (prompt : string) (main : option datetime.t) :
  io_spec (Cli.get_date_input prompt main)
    (fun answer =>
       exists new, parse_due_date answer = Ok new /\
                   MainTask.later_than_main main new = false).
Proof.
  apply loop_spec. intros line w1 r1 w2. cbv beta zeta.
  destruct (String.eqb (Text.strip line) EmptyString) eqn:Hblank.
  { intros [= <- <-]. split; [done |].
    intros a [= <-]. exists None. by destruct main. }
  assert (Str.truthy (Text.strip line) = true) as Htruthy
    by by destruct (Text.strip line).
  destruct (datetime.strptime (Text.strip line)) as [due |] eqn:Hparse.
  2:{ intros [= <- <-]. by split. }
  assert (parse_due_date (Some (Text.strip line)) = Ok (Some due)) as Hdue
    by (unfold parse_due_date; by rewrite Htruthy, Hparse).
  unfold Cli.check_date. destruct main as [main |].
  - destruct (datetime.gt due main) eqn:Hgt; intros [= <- <-]; (split; [done |]); [done |].
    intros a [= <-]. by exists (Some due).
  - cbn [IO.bind IO.now]. destruct (IO.before due _); intros [= <- <-];
      (split; [done |]); [done |].
    intros a [= <-]. by exists (Some due).
Qed.

(** ** Rules for the menu actions *)

Lemma hoare_ret {A} (P : Student.t -> Prop) (a : A)
    (Q : IO.outcome A -> Student.t -> Prop) :
  (forall st, P st -> Q (IO.Done a) st) -> hoare P (Actions.ret a) Q.
Proof. intros H st w r st' w' HP [= <- <- <-]. by apply H. Qed.

Lemma hoare_print (P : Student.t -> Prop) (text : string)
    (Q : IO.outcome unit -> Student.t -> Prop) :
  (forall st, P st -> Q (IO.Done tt) st) -> hoare P (Actions.print text) Q.
Proof. intros H st w r st' w' HP [= <- <- <-]. by apply H. Qed.

Lemma hoare_call {A} (P : Student.t -> Prop) (m : method Student.t A)
    (Q : IO.outcome A -> Student.t -> Prop) :
  (forall st, P st ->
     match m st with
     | (Ok a, st') => Q (IO.Done a) st'
     | (Raise e, st') => Q (IO.Raised e) st'
     end) ->
  hoare P (Actions.call m) Q.
Proof.
  intros H st w r st' w' HP. unfold Actions.call. cbn [fst snd].
  specialize (H st HP). destruct (m st) as [[a | e] st1]; by intros [= <- <- <-].
Qed.

Lemma hoare_bind_io {A B} (P : Student.t -> Prop) (h : IO.io A) (H : A -> Prop)
    (k : A -> Actions.act B) (Q : IO.outcome B -> Student.t -> Prop) :
  io_spec h H ->
  (forall st, P st -> Q IO.EOFError st) ->
  (forall a, H a -> hoare P (k a) Q) ->
  hoare P (Actions.bind (Actions.io h) k) Q.
Proof.
  intros Hh Heof Hk st w r st' w' HP. unfold Actions.bind, Actions.io. cbn [fst snd].
  destruct (h w) as [r1 w1] eqn:E. apply Hh in E as [Hraise Hdone].
  destruct r1 as [a | | e].
  - apply (Hk a); [by apply Hdone | done].
  - intros [= <- <- <-]. by apply Heof.
  - by destruct (Hraise e).
Qed.

Lemma hoare_bind_student {B} (P : Student.t -> Prop) (k : Student.t -> Actions.act B)
    (Q : IO.outcome B -> Student.t -> Prop) :
  (forall st0, hoare (fun st => P st /\ st = st0) (k st0) Q) ->
  hoare P (Actions.bind Actions.student k) Q.
Proof.
  intros Hk st w r st' w' HP. unfold Actions.bind, Actions.student. cbn [fst snd].
  by apply (Hk st).
Qed.

Lemma hoare_bind_show {B} (P : Student.t -> Prop) (lines : list IO.output)
    (k : unit -> Actions.act B) (Q : IO.outcome B -> Student.t -> Prop) :
  hoare P (k tt) Q -> hoare P (Actions.bind (Actions.show lines) k) Q.
Proof.
  intros Hk st w r st' w' HP. unfold Actions.bind, Actions.show. cbn [fst snd].
  by apply Hk.
Qed.

Lemma hoare_bind_construct {A B} (P : Student.t -> Prop) (c : result A)
    (k : A -> Actions.act B) (Q : IO.outcome B -> Student.t -> Prop) :
  match c with
  | Ok a => hoare P (k a) Q
  | Raise e => forall st, P st -> Q (IO.Raised e) st
  end ->
  hoare P (Actions.bind (Actions.construct c) k) Q.
Proof.
  intros H st w r st' w' HP. unfold Actions.bind, Actions.construct.
  destruct c as [a | e]; [by apply H |]. intros [= <- <- <-]. by apply H.
Qed.

Lemma hoare_bind_call {A B} (P R : Student.t -> Prop) (m : method Student.t A)
    (k : A -> Actions.act B) (Q : IO.outcome B -> Student.t -> Prop) :
  (forall st, P st ->
     match m st with
     | (Ok a, st') => R st'
     | (Raise e, st') => Q (IO.Raised e) st'
     end) ->
  (forall a, hoare R (k a) Q) ->
  hoare P (Actions.bind (Actions.call m) k) Q.
Proof.
  intros Hm Hk st w r st' w' HP. unfold Actions.bind, Actions.call. cbn [fst snd].
  specialize (Hm st HP). destruct (m st) as [[a | e] st1].
  - by apply (Hk a).
  - by intros [= <- <- <-].
Qed.

(** [helper(...) if input(question)... == 'yes' else None]. *)
Lemma hoare_bind_if_yes {A B} (P : Student.t -> Prop) (question : string) (h : IO.io A)
    (H : A -> Prop) (k : option A -> Actions.act B)
    (Q : IO.outcome B -> Student.t -> Prop) :
  io_spec h H ->
  (forall st, P st -> Q IO.EOFError st) ->
  (forall o, (forall a, o = Some a -> H a) -> hoare P (k o) Q) ->
  hoare P (Actions.bind (Menu.if_yes question h) k) Q.
Proof.
  intros Hh Heof Hk st w r st' w' HP.
  unfold Actions.bind at 1, Menu.if_yes, Menu.said_yes.
  unfold Actions.bind at 1. unfold Actions.bind at 1. unfold Actions.io at 1.
  cbn [fst snd].
  destruct (IO.input question w) as [r0 w0] eqn:E0.
  apply input_spec in E0 as [Hraise0 _].
  destruct r0 as [answer | | e]; [| intros [= <- <- <-]; by apply Heof
                                  | by destruct (Hraise0 e)].
  unfold Actions.ret at 1.
  destruct (String.eqb (Str.lower (Text.strip answer)) "yes").
  - unfold Actions.bind, Actions.io. cbn [fst snd].
    destruct (h w0) as [r1 w1] eqn:E1. apply Hh in E1 as [Hraise1 Hdone1].
    destruct r1 as [a | | e].
    + unfold Actions.ret. apply (Hk (Some a)); [| done].
      intros a' [= <-]. by apply Hdone1.
    + intros [= <- <- <-]. by apply Heof.
    + by destruct (Hraise1 e).
  - unfold Actions.ret. by apply (Hk None).
Qed.

Lemma hoare_weaken {A} (P P' : Student.t -> Prop) (m : Actions.act A)
    (Q : IO.outcome A -> Student.t -> Prop) :
  (forall st, P st -> P' st) -> hoare P' m Q -> hoare P m Q.
Proof. intros HP Hm st w r st' w' H. apply Hm. by apply HP. Qed.

(** ** Method calls that cannot raise *)

Lemma at_task_list_in_range {R} (k : Z) (body : method MainTask.t R) (st : Student.t)
    (m : MainTask.t) :
  in_range k (Student.task_lists st) = true ->
  Student.task_lists st !! Z.to_nat (k - 1) = Some m ->
  Ops.at_task_list k body st
  = (fst (body m),
     Student.set_task_lists (<[Z.to_nat (k - 1) := snd (body m)]> (Student.task_lists st)) st).
Proof.
  intros Hr%in_range_spec Hm. unfold Ops.at_task_list, Ops.subscript.
  assert ((0 <=? k - 1)%Z && (k - 1 <? Z.of_nat (length (Student.task_lists st)))%Z = true)
    as -> by (apply andb_true_iff; split; [apply Z.leb_le | apply Z.ltb_lt]; lia).
  unfold Student.on_task_list, on_item. rewrite Hm. by destruct (body m).
Qed.

Lemma in_range_lookup {A} (k : Z) (l : list A) :
  in_range k l = true -> is_Some (l !! Z.to_nat (k - 1)).
Proof. intros Hr%in_range_spec. apply lookup_lt_is_Some. lia. Qed.

Lemma sub_task_init_ok (details : string) (due_date : option string)
    (priority class_code : string) (completed : bool) (new : option datetime.t) :
  parse_due_date due_date = Ok new ->
  SubTask.__init__ details due_date priority class_code completed
  = Ok (SubTask.mk details new priority class_code completed).
Proof. intros H. unfold SubTask.__init__. by rewrite H. Qed.

Lemma main_task_init_ok (name : string) (due_date : option string)
    (priority status : string) (class_code : option string) (new : option datetime.t) :
  parse_due_date due_date = Ok new ->
  MainTask.__init__ name due_date priority status class_code
  = Ok (MainTask.mk name new priority status class_code []).
Proof. intros H. unfold MainTask.__init__. by rewrite H. Qed.

Lemma m_bind_fst {S A B} (m : method S A) (k : A -> method S B) (s : S) (a : A) :
  fst (m s) = Ok a -> m_bind m k s = k a (snd (m s)).
Proof. unfold m_bind. destruct (m s) as [r s']. cbn. by intros ->. Qed.

Lemma when_provided_modify_ok {S} (arg : option string) (f : string -> S -> S) (s : S) :
  fst (when_provided arg (fun v => m_modify (f v)) s) = Ok tt.
Proof. destruct arg as [[| c v] |]; done. Qed.

Lemma edit_task_list_body_ok (name due_date priority status class_code : option string)
    (new : option datetime.t) (m : MainTask.t) :
  parse_due_date due_date = Ok new ->
  fst (Student.edit_task_list_body name due_date priority status class_code m) = Ok tt.
Proof.
  intros Hparse. unfold Student.edit_task_list_body.
  rewrite (m_bind_fst _ _ _ tt) by apply when_provided_modify_ok.
  rewrite (m_bind_fst _ _ _ tt).
  2:{ unfold parse_due_date in Hparse. destruct due_date as [[| c v] |]; try done.
      cbn in *. unfold m_bind, m_lift.
      by destruct (datetime.strptime (String c v)). }
  rewrite (m_bind_fst _ _ _ tt) by apply when_provided_modify_ok.
  rewrite (m_bind_fst _ _ _ tt) by apply when_provided_modify_ok.
  apply when_provided_modify_ok.
Qed.

Lemma no_exception_done {A} (a : A) : no_exception (IO.Done a).
Proof. by intros e. Qed.

Lemma no_exception_eof {A} : no_exception (@IO.EOFError A).
Proof. by intros e. Qed.

Create HintDb actions.

#[local] Hint Resolve no_exception_done no_exception_eof : actions.

(** ** Validated calls *)

Lemma edit_task_list_in_range (k : Z) (name due_date priority status class_code : option string)
    (st : Student.t) (m : MainTask.t) :
  in_range k (Student.task_lists st) = true ->
  Student.task_lists st !! Z.to_nat (k - 1) = Some m ->
  Student.edit_task_list k name due_date priority status class_code st
  = (fst (Student.edit_task_list_body name due_date priority status class_code m),
     Student.set_task_lists
       (<[Z.to_nat (k - 1) :=
            snd (Student.edit_task_list_body name due_date priority status class_code m)]>
          (Student.task_lists st)) st).
Proof.
  intros Hk Hm. unfold Student.edit_task_list. rewrite Hk.
  unfold Student.on_task_list, on_item. rewrite Hm.
  by destruct (Student.edit_task_list_body _ _ _ _ _ m).
Qed.

(** A validated call returns normally. *)
Lemma validated_run_ok (o : Ops.op) (st : Student.t) :
  validated o st -> fst (Ops.run o st) = Ok tt.
Proof.
  destruct o; cbn [validated Ops.run].
  - intros ((new & Hnew & _) & _). by rewrite (main_task_init_ok _ _ _ _ _ new).
  - intros (Hk & _). unfold Student.delete_task_list. by rewrite Hk.
  - intros ((Hk & m & Hm & _) & (new & Hnew & _) & _).
    rewrite (edit_task_list_in_range _ _ _ _ _ _ _ m) by done.
    by apply (edit_task_list_body_ok _ _ _ _ _ new).
  - intros (Hk & m & Hm & _). by rewrite (at_task_list_in_range _ _ _ m).
  - intros (Hk & m & Hm & (new & Hnew & Hlater) & _).
    rewrite (sub_task_init_ok _ _ _ _ _ new) by done. cbn.
    rewrite (at_task_list_in_range _ _ _ m) by done.
    unfold MainTask.add_sub_task. cbn [SubTask.due_date]. by rewrite Hlater.
  - intros (Hk & m & Hm & Hj). rewrite (at_task_list_in_range _ _ _ m) by done.
    unfold MainTask.delete_sub_task. by rewrite Hj.
  - intros (Hk & m & Hm & Hj). rewrite (at_task_list_in_range _ _ _ m) by done.
    unfold MainTask.mark_sub_task_as_completed. rewrite Hj.
    destruct (in_range_lookup _ _ Hj) as [x Hx].
    unfold MainTask.on_sub_task, on_item. by rewrite Hx.
  - intros (Hk & m & Hm & Hj & (new & Hnew & Hlater) & _).
    rewrite (at_task_list_in_range _ _ _ m) by done.
    destruct (in_range_lookup _ _ Hj) as [x Hx].
    rewrite (edit_sub_task_cases m _ x) by done. rewrite edit_sub_task_body_cases.
    by rewrite Hnew, Hlater.
Qed.

Lemma validated_run (o : Ops.op) (st : Student.t) :
  validated o st -> Ops.run o st = (Ok tt, snd (Ops.run o st)).
Proof.
  intros H%validated_run_ok. destruct (Ops.run o st) as [r st']. cbn in *. by subst.
Qed.

(** ** The menu actions as validated calls *)

Lemma performs_hoare (a : Actions.act unit) (allowed : Ops.op -> Prop) :
  (forall st0, hoare (fun st => st = st0) a (performed st0 allowed)) ->
  performs a allowed.
Proof. intros H st w r st' w' Hrun. by apply (H st st w r st' w'). Qed.

Lemma hoare_student_eq {B} (st0 : Student.t) (k : Student.t -> Actions.act B)
    (Q : IO.outcome B -> Student.t -> Prop) :
  hoare (fun st => st = st0) (k st0) Q ->
  hoare (fun st => st = st0) (Actions.bind Actions.student k) Q.
Proof.
  intros H. apply hoare_bind_student. intros st1 st w r st' w' [-> <-]. by apply H.
Qed.

Lemma performed_unchanged (st0 : Student.t) (allowed : Ops.op -> Prop)
    (r : IO.outcome unit) :
  no_exception r -> forall st, st = st0 -> performed st0 allowed r st.
Proof. intros Hr st ->. split; [done | by left]. Qed.

Lemma performed_call (st0 : Student.t) (allowed : Ops.op -> Prop) (o : Ops.op)
    (m : method Student.t unit) :
  allowed o -> validated o st0 -> m st0 = Ops.run o st0 ->
  forall st, st = st0 ->
    match m st with
    | (Ok a, st') => performed st0 allowed (IO.Done a) st'
    | (Raise e, st') => performed st0 allowed (IO.Raised e) st'
    end.
Proof.
  intros Ho Hv Hm st ->. rewrite Hm, (validated_run o st0 Hv).
  split; [by intros e | right]. exists o. split_and!; try done. by apply validated_run.
Qed.

#[local] Hint Resolve performed_unchanged : actions.

(** No main task, a number outside the list, an answer other than yes: the
    action prints a line or returns, and the student is as it was. *)
Ltac quiet :=
  first [apply hoare_print | apply hoare_ret]; auto with actions.

Ltac asks spec := eapply hoare_bind_io; [apply spec | auto with actions |].

Ltac asks_if_yes spec := eapply hoare_bind_if_yes; [apply spec | auto with actions |].

Section WithInt.

Variable parse_int : string -> option Z.

Lemma create_main_task_performs :
  performs Menu.create_main_task
    (fun o => exists name due_date priority status class_code,
                o = Ops.add_task_list name due_date priority status class_code).
Proof.
  apply performs_hoare. intros st0. unfold Menu.create_main_task.
  asks input_spec. intros name _.
  asks get_date_input_spec. intros due_date (new & Hnew & Hlater).
  asks get_priority_input_spec. intros priority Hpriority.
  asks get_status_input_spec. intros status Hstatus.
  asks get_class_code_input_spec. intros class_code Hcode.
  apply hoare_bind_construct. rewrite (main_task_init_ok _ _ _ _ _ new) by done.
  apply hoare_call.
  apply (performed_call _ _ (Ops.add_task_list name due_date priority status class_code)).
  - by exists name, due_date, priority, status, class_code.
  - cbn. split_and!; try done. by exists new.
  - cbn. by rewrite (main_task_init_ok _ _ _ _ _ new).
Qed.

Lemma delete_main_task_performs :
  performs (Menu.delete_main_task parse_int)
    (fun o => exists list_index, o = Ops.delete_task_list list_index).
Proof.
  apply performs_hoare. intros st0. unfold Menu.delete_main_task.
  apply hoare_student_eq.
  destruct (Student.view_task_lists st0) eqn:Hview; [quiet |]. clear Hview.
  apply hoare_bind_show. asks get_int_input_spec. intros k _.
  destruct (in_range k (Student.task_lists st0)) eqn:Hk; [| quiet].
  destruct (in_range_lookup _ _ Hk) as [m Hm].
  asks confirm_action_spec. intros [] _; [| quiet].
  apply hoare_call. apply (performed_call _ _ (Ops.delete_task_list k)); [by exists k | | done].
  cbn. split; [done | by exists m].
Qed.

Lemma mark_main_task_as_completed_performs :
  performs (Menu.mark_main_task_as_completed parse_int)
    (fun o => exists list_index, o = Ops.mark_as_completed list_index).
Proof.
  apply performs_hoare. intros st0. unfold Menu.mark_main_task_as_completed.
  apply hoare_student_eq.
  destruct (Student.view_task_lists st0) eqn:Hview; [quiet |]. clear Hview.
  apply hoare_bind_show. asks get_int_input_spec. intros k _.
  destruct (in_range k (Student.task_lists st0)) eqn:Hk; [| quiet].
  destruct (in_range_lookup _ _ Hk) as [m Hm].
  apply (hoare_bind_call _
           (fun st' => performed st0
                         (fun o => exists list_index, o = Ops.mark_as_completed list_index)
                         (IO.Done tt) st')).
  - intros st Hst.
    pose proof (performed_call st0
                  (fun o => exists list_index, o = Ops.mark_as_completed list_index)
                  (Ops.mark_as_completed k)
                  (Ops.at_task_list k MainTask.mark_as_completed)) as H.
    specialize (H (ex_intro _ k eq_refl)). cbn in H.
    specialize (H (conj Hk (ex_intro _ m (conj Hm I))) eq_refl st Hst).
    destruct (Ops.at_task_list k MainTask.mark_as_completed st) as [[[] | e] st'];
      [done | by destruct H as [H _]; destruct (H e)].
  - intros _. apply hoare_print. by intros st H.
Qed.

Lemma add_sub_task_performs :
  performs (Menu.add_sub_task parse_int)
    (fun o => exists list_index details due_date priority class_code completed,
                o = Ops.add_sub_task list_index details due_date priority class_code
                      completed).
Proof.
  apply performs_hoare. intros st0. unfold Menu.add_sub_task.
  apply hoare_student_eq.
  destruct (Student.view_task_lists st0) eqn:Hview; [quiet |]. clear Hview.
  apply hoare_bind_show. asks get_int_input_spec. intros k _.
  destruct (in_range k (Student.task_lists st0)) eqn:Hk; [| quiet].
  destruct (in_range_lookup _ _ Hk) as [m Hm]. rewrite Hm.
  asks input_spec. intros details _.
  asks get_date_input_spec. intros due_date (new & Hnew & Hlater).
  asks get_priority_input_spec. intros priority Hpriority.
  asks get_status_input_spec. intros status Hstatus.
  assert (String.eqb status "C" = false) as ->.
  { unfold is_status in Hstatus.
    repeat (apply elem_of_cons in Hstatus as [-> | Hstatus]; [done |]).
    by apply elem_of_nil in Hstatus. }
  apply hoare_bind_construct. rewrite (sub_task_init_ok _ _ _ _ _ new) by done.
  apply hoare_call.
  apply (performed_call _ _
           (Ops.add_sub_task k details due_date priority
              (Display.class_code_str (MainTask.class_code m)) false)).
  - by repeat eexists.
  - cbn. split; [done |]. exists m. split_and!; try done. by exists new.
  - cbn. by rewrite (sub_task_init_ok _ _ _ _ _ new).
Qed.

Lemma pick_sub_task_performs (nothing ask_list ask_sub : string)
    (chosen : Z -> Z -> Actions.act unit) (allowed : Ops.op -> Prop) :
  (forall st0 k j m,
     in_range k (Student.task_lists st0) = true ->
     Student.task_lists st0 !! Z.to_nat (k - 1) = Some m ->
     in_range j (MainTask.sub_tasks m) = true ->
     hoare (fun st => st = st0) (chosen k j) (performed st0 allowed)) ->
  performs (Menu.pick_sub_task parse_int nothing ask_list ask_sub chosen) allowed.
Proof.
  intros Hchosen. apply performs_hoare. intros st0. unfold Menu.pick_sub_task.
  apply hoare_student_eq.
  destruct (Student.view_task_lists st0) eqn:Hview; [quiet |]. clear Hview.
  apply hoare_bind_show. asks get_int_input_spec. intros k _.
  destruct (in_range k (Student.task_lists st0)) eqn:Hk; [| quiet].
  destruct (in_range_lookup _ _ Hk) as [m Hm]. rewrite Hm.
  destruct (MainTask.sub_tasks m) eqn:Hsubs; [quiet |]. rewrite <- Hsubs. clear Hsubs.
  apply hoare_bind_show. asks get_int_input_spec. intros j _.
  destruct (in_range j (MainTask.sub_tasks m)) eqn:Hj; [| quiet].
  by apply (Hchosen st0 k j m).
Qed.

Lemma delete_sub_task_performs :
  performs (Menu.delete_sub_task parse_int)
    (fun o => exists list_index sub_task_index,
                o = Ops.delete_sub_task list_index sub_task_index).
Proof.
  apply pick_sub_task_performs. intros st0 k j m Hk Hm Hj.
  asks confirm_action_spec. intros [] _; [| quiet].
  apply hoare_call.
  apply (performed_call _ _ (Ops.delete_sub_task k j)); [by exists k, j | | done].
  cbn. split; [done | by exists m].
Qed.

Lemma mark_sub_task_as_completed_performs :
  performs (Menu.mark_sub_task_as_completed parse_int)
    (fun o => exists list_index sub_task_index,
                o = Ops.mark_sub_task_as_completed list_index sub_task_index).
Proof.
  apply pick_sub_task_performs. intros st0 k j m Hk Hm Hj.
  apply hoare_call.
  apply (performed_call _ _ (Ops.mark_sub_task_as_completed k j)); [by exists k, j | | done].
  cbn. split; [done | by exists m].
Qed.

Lemma given_date (main : option datetime.t) (due_date : option (option string)) :
  (forall answer, due_date = Some answer ->
     exists new, parse_due_date answer = Ok new /\
                 MainTask.later_than_main main new = false) ->
  exists new, parse_due_date (Menu.join_option due_date) = Ok new /\
              MainTask.later_than_main main new = false.
Proof.
  intros H. destruct due_date as [answer |]; [by apply H |].
  exists None. by destruct main.
Qed.

Lemma edit_sub_task_performs :
  performs (Menu.edit_sub_task parse_int)
    (fun o => exists list_index sub_task_index details due_date priority,
                o = Ops.edit_sub_task list_index sub_task_index details due_date priority).
Proof.
  apply performs_hoare. intros st0. unfold Menu.edit_sub_task.
  apply hoare_student_eq.
  destruct (Student.view_task_lists st0) eqn:Hview; [quiet |]. clear Hview.
  apply hoare_bind_show. asks get_int_input_spec. intros k _.
  destruct (in_range k (Student.task_lists st0)) eqn:Hk; [| quiet].
  destruct (in_range_lookup _ _ Hk) as [m Hm]. rewrite Hm.
  destruct (MainTask.sub_tasks m) eqn:Hsubs; [quiet |]. rewrite <- Hsubs. clear Hsubs.
  apply hoare_bind_show. asks get_int_input_spec. intros j _.
  destruct (in_range j (MainTask.sub_tasks m)) eqn:Hj; [| quiet].
  asks input_spec. intros details _.
  asks_if_yes get_date_input_spec. intros due_date Hdue%given_date.
  asks_if_yes get_priority_input_spec. intros priority Hpriority.
  apply hoare_call.
  apply (performed_call _ _
           (Ops.edit_sub_task k j (Menu.or_none details) (Menu.join_option due_date)
              priority)); [by repeat eexists | | done].
  cbn. split; [done |]. by exists m.
Qed.

Lemma edit_task_list_performs :
  performs (Menu.edit_task_list parse_int)
    (fun o => exists list_index name due_date priority status class_code,
                o = Ops.edit_task_list list_index name due_date priority status class_code).
Proof.
  apply performs_hoare. intros st0. unfold Menu.edit_task_list.
  apply hoare_student_eq.
  destruct (Student.view_task_lists st0) eqn:Hview; [quiet |]. clear Hview.
  apply hoare_bind_show. asks get_int_input_spec. intros k _.
  destruct (in_range k (Student.task_lists st0)) eqn:Hk; [| quiet].
  destruct (in_range_lookup _ _ Hk) as [m Hm].
  asks input_spec. intros new_name _.
  asks_if_yes get_date_input_spec. intros due_date Hdue%given_date.
  asks_if_yes get_priority_input_spec. intros priority Hpriority.
  asks_if_yes get_status_input_spec. intros status Hstatus.
  asks_if_yes get_class_code_input_spec. intros class_code Hcode.
  apply hoare_call.
  apply (performed_call _ _
           (Ops.edit_task_list k (Menu.or_none new_name) (Menu.join_option due_date)
              priority status (Menu.join_option class_code))); [by repeat eexists | | done].
  cbn. split_and!; try done.
  - by exists m.
  - intros c Hc. destruct class_code as [[c' |] |]; try done. cbn in Hc.
    apply (Hcode (Some c')); [done | congruence].
Qed.

End WithInt.

(** X17: a menu action changes the student it is given by at most one method
    call, of the kind the action is for, and that call is validated and
    returns normally.  No exception leaves an action, whatever is typed and
    whatever the student holds: the helpers have checked every number, date
    and label before a constructor or a method sees it, so an action ends
    normally or, when the input runs out, in [EOFError]. *)
Theorem menu_actions_make_validated_calls (parse_int : string -> option Z) :
  performs Menu.create_main_task
    (fun o => exists name due_date priority status class_code,
                o = Ops.add_task_list name due_date priority status class_code) /\
  performs (Menu.delete_main_task parse_int)
    (fun o => exists list_index, o = Ops.delete_task_list list_index) /\
  performs (Menu.mark_main_task_as_completed parse_int)
    (fun o => exists list_index, o = Ops.mark_as_completed list_index) /\
  performs (Menu.add_sub_task parse_int)
    (fun o => exists list_index details due_date priority class_code,
                o = Ops.add_sub_task list_index details due_date priority class_code false) /\
  performs (Menu.delete_sub_task parse_int)
    (fun o => exists list_index sub_task_index,
                o = Ops.delete_sub_task list_index sub_task_index) /\
  performs (Menu.mark_sub_task_as_completed parse_int)
    (fun o => exists list_index sub_task_index,
                o = Ops.mark_sub_task_as_completed list_index sub_task_index) /\
  performs (Menu.edit_sub_task parse_int)
    (fun o => exists list_index sub_task_index details due_date priority,
                o = Ops.edit_sub_task list_index sub_task_index details due_date priority) /\
  performs (Menu.edit_task_list parse_int)
    (fun o => exists list_index name due_date priority status class_code,
                o = Ops.edit_task_list list_index name due_date priority status class_code).
Proof.
  split_and!.
  - apply create_main_task_performs.
  - apply delete_main_task_performs.
  - apply mark_main_task_as_completed_performs.
  - intros st w r st' w' Hrun.
    destruct (add_sub_task_performs parse_int st w r st' w' Hrun) as [Hr Hst].
    split; [done |]. destruct Hst as [-> | (o & Ho & Hv & Ho')]; [by left | right].
    exists o. split_and!; try done.
    destruct Ho as (k & details & due_date & priority & class_code & completed & ->).
    cbn in Hv. destruct Hv as (_ & m & _ & _ & _ & _ & ->). by repeat eexists.
  - apply delete_sub_task_performs.
  - apply mark_sub_task_as_completed_performs.
  - apply edit_sub_task_performs.
  - apply edit_task_list_performs.
Qed.

(** ** Invariants of the menu actions *)

(** An invariant of the validated calls an action may make is an invariant
    of the action. *)
Lemma performs_invariant (a : Actions.act unit) (allowed : Ops.op -> Prop)
    (I : Student.t -> Prop) :
  performs a allowed ->
  (forall o st, allowed o -> validated o st -> I st -> I (snd (Ops.run o st))) ->
  hoare I a (fun _ st' => I st').
Proof.
  intros Ha Hrun st w r st' w' Hst Ha'.
  destruct (Ha st w r st' w' Ha') as [_ [-> | (o & Ho & Hv & Ho')]]; [done |].
  specialize (Hrun o st Ho Hv Hst). by rewrite Ho' in Hrun.
Qed.

Lemma class_code_is_truthy (c : string) : is_class_code c -> Str.truthy c = true.
Proof. by intros (a & b & c' & d & e & f & -> & _). Qed.

Lemma class_code_str_labelled (class_code : option string) :
  (forall c, class_code = Some c -> is_class_code c) ->
  Display.class_code_str class_code = "N/A" \/
  is_class_code (Display.class_code_str class_code).
Proof.
  intros H. destruct class_code as [c |]; [| by left]. right.
  specialize (H c eq_refl). cbn. by rewrite (class_code_is_truthy c H).
Qed.

Lemma overwrite_keeps (P : string -> Prop) (arg : option string) (old : string) :
  P old -> (forall v, arg = Some v -> P v) -> P (overwrite arg old).
Proof.
  intros Hold Harg. destruct arg as [v |]; [| done]. cbn.
  destruct (Str.truthy v); [by apply Harg | done].
Qed.

Lemma edit_task_list_body_labelled (name due_date priority status class_code : option string)
    (m : MainTask.t) :
  (forall p, priority = Some p -> is_priority p) ->
  (forall s, status = Some s -> is_status s) ->
  (forall c, class_code = Some c -> is_class_code c) ->
  labelled_main_task m ->
  labelled_main_task
    (snd (Student.edit_task_list_body name due_date priority status class_code m)).
Proof.
  intros Hp Hs Hc Hm. unfold Student.edit_task_list_body.
  apply m_bind_keeps.
  { apply when_provided_keeps; [done |]. intros v _. exact Hm. }
  intros _ m1 H1. apply m_bind_keeps.
  { apply when_provided_keeps; [done |]. intros due _. unfold m_bind, m_lift.
    destruct (datetime.strptime due); [exact H1 | exact H1]. }
  intros _ m2 H2. apply m_bind_keeps.
  { apply when_provided_keeps; [done |]. intros p Hp'%Hp.
    destruct H2 as (_ & ? & ? & ?). by split_and!. }
  intros _ m3 H3. apply m_bind_keeps.
  { apply when_provided_keeps; [done |]. intros s Hs'%Hs.
    destruct H3 as (? & _ & ? & ?). by split_and!. }
  intros _ m4 H4. apply when_provided_keeps; [done |]. intros c Hc'%Hc.
  destruct H4 as (? & ? & _ & ?). split_and!; try done. by intros c' [= <-].
Qed.

(** A validated call keeps the labels within the vocabulary. *)
Lemma validated_keeps_labelled (o : Ops.op) (st : Student.t) :
  validated o st -> labelled st -> labelled (snd (Ops.run o st)).
Proof.
  unfold labelled. destruct o; cbn [validated Ops.run].
  - intros ((new & Hnew & _) & Hp & Hs & Hc) Hst.
    rewrite (main_task_init_ok _ _ _ _ _ new) by done. cbn.
    apply Forall_app. split; [done |]. constructor; [| done]. by split_and!.
  - intros (Hk & _) Hst. unfold Student.delete_task_list. rewrite Hk. cbn.
    by apply Forall_delete.
  - intros ((Hk & m & Hm & _) & _ & Hp & Hs & Hc) Hst.
    rewrite (edit_task_list_in_range _ _ _ _ _ _ _ m) by done. cbn.
    apply Forall_insert; [done |]. apply edit_task_list_body_labelled; try done.
    by apply (Forall_lookup_1 _ _ _ _ Hst Hm).
  - intros (Hk & m & Hm & _) Hst. rewrite (at_task_list_in_range _ _ _ m) by done. cbn.
    apply Forall_insert; [done |].
    destruct (Forall_lookup_1 _ _ _ _ Hst Hm) as (? & _ & ? & ?).
    split_and!; try done. unfold is_status. cbn. repeat constructor.
  - intros (Hk & m & Hm & (new & Hnew & Hlater) & Hp & -> & ->) Hst.
    rewrite (sub_task_init_ok _ _ _ _ _ new) by done. cbn.
    rewrite (at_task_list_in_range _ _ _ m) by done. cbn.
    apply Forall_insert; [done |].
    destruct (Forall_lookup_1 _ _ _ _ Hst Hm) as (? & ? & Hc & Hsubs).
    unfold MainTask.add_sub_task. cbn [SubTask.due_date]. rewrite Hlater. cbn.
    split_and!; try done. cbn. apply Forall_app. split; [done |].
    constructor; [| done]. split; [done |]. by apply class_code_str_labelled.
  - intros (Hk & m & Hm & Hj) Hst. rewrite (at_task_list_in_range _ _ _ m) by done. cbn.
    apply Forall_insert; [done |].
    destruct (Forall_lookup_1 _ _ _ _ Hst Hm) as (? & ? & Hc & Hsubs).
    unfold MainTask.delete_sub_task. rewrite Hj. cbn.
    split_and!; try done. by apply Forall_delete.
  - intros (Hk & m & Hm & Hj) Hst. rewrite (at_task_list_in_range _ _ _ m) by done. cbn.
    apply Forall_insert; [done |].
    destruct (Forall_lookup_1 _ _ _ _ Hst Hm) as (? & ? & Hc & Hsubs).
    unfold MainTask.mark_sub_task_as_completed. rewrite Hj.
    destruct (in_range_lookup _ _ Hj) as [x Hx].
    unfold MainTask.on_sub_task, on_item. rewrite Hx. cbn.
    split_and!; try done. apply Forall_insert; [done |].
    exact (Forall_lookup_1 _ _ _ _ Hsubs Hx).
  - intros (Hk & m & Hm & Hj & (new & Hnew & Hlater) & Hp) Hst.
    rewrite (at_task_list_in_range _ _ _ m) by done. cbn.
    apply Forall_insert; [done |].
    destruct (Forall_lookup_1 _ _ _ _ Hst Hm) as (? & ? & Hc & Hsubs).
    destruct (in_range_lookup _ _ Hj) as [x Hx].
    rewrite (edit_sub_task_cases m _ x) by done. rewrite edit_sub_task_body_cases.
    rewrite Hnew, Hlater. cbn. split_and!; try done.
    apply Forall_insert; [done |].
    destruct (Forall_lookup_1 _ _ _ _ Hsubs Hx) as [Hx1 Hx2].
    split; [| done]. cbn. by apply overwrite_keeps.
Qed.

(** A validated call other than [edit_task_list] keeps every sub-task within
    the due date of its main task. *)
Lemma validated_keeps_containment (o : Ops.op) (st : Student.t) :
  (forall list_index name due_date priority status class_code,
     o <> Ops.edit_task_list list_index name due_date priority status class_code) ->
  containment st -> containment (snd (Ops.run o st)).
Proof.
  intros Ho Hst. apply run_keeps_containment; [done |].
  destruct o; try done. by destruct (Ho list_index name due_date priority status class_code).
Qed.

(** X18: the menu actions keep the labels of a student's tasks within the
    vocabulary of the input helpers.  If every main task has a priority of
    High, Medium and Low, a status of Not Started, In Progress and Completed
    and no class code or one of three capital letters and three digits, and
    every sub-task has such a priority and such a class code or N/A, then
    the same holds after any of the eight actions, however it ends. *)
Theorem menu_actions_keep_labels (parse_int : string -> option Z) :
  hoare labelled Menu.create_main_task (fun _ st' => labelled st') /\
  hoare labelled (Menu.delete_main_task parse_int) (fun _ st' => labelled st') /\
  hoare labelled (Menu.mark_main_task_as_completed parse_int) (fun _ st' => labelled st') /\
  hoare labelled (Menu.add_sub_task parse_int) (fun _ st' => labelled st') /\
  hoare labelled (Menu.delete_sub_task parse_int) (fun _ st' => labelled st') /\
  hoare labelled (Menu.mark_sub_task_as_completed parse_int) (fun _ st' => labelled st') /\
  hoare labelled (Menu.edit_sub_task parse_int) (fun _ st' => labelled st') /\
  hoare labelled (Menu.edit_task_list parse_int) (fun _ st' => labelled st').
Proof.
  split_and!.
  all: eapply performs_invariant;
    [first [ apply create_main_task_performs | apply delete_main_task_performs
           | apply mark_main_task_as_completed_performs | apply add_sub_task_performs
           | apply delete_sub_task_performs | apply mark_sub_task_as_completed_performs
           | apply edit_sub_task_performs | apply edit_task_list_performs ]
    | intros o st _; apply validated_keeps_labelled ].
Qed.

(** X19: every menu action but [edit_task_list] keeps the sub-tasks within
    the due date of their main task: if no sub-task of the student is due
    later than its main task before the action, none is after it, however
    the action ends. *)
Theorem menu_actions_keep_containment (parse_int : string -> option Z) :
  hoare containment Menu.create_main_task (fun _ st' => containment st') /\
  hoare containment (Menu.delete_main_task parse_int) (fun _ st' => containment st') /\
  hoare containment (Menu.mark_main_task_as_completed parse_int)
    (fun _ st' => containment st') /\
  hoare containment (Menu.add_sub_task parse_int) (fun _ st' => containment st') /\
  hoare containment (Menu.delete_sub_task parse_int) (fun _ st' => containment st') /\
  hoare containment (Menu.mark_sub_task_as_completed parse_int)
    (fun _ st' => containment st') /\
  hoare containment (Menu.edit_sub_task parse_int) (fun _ st' => containment st').
Proof.
  split_and!.
  all: eapply performs_invariant;
    [first [ apply create_main_task_performs | apply delete_main_task_performs
           | apply mark_main_task_as_completed_performs | apply add_sub_task_performs
           | apply delete_sub_task_performs | apply mark_sub_task_as_completed_performs
           | apply edit_sub_task_performs ]
    | intros o st Ho _; apply validated_keeps_containment; intros; intros ->;
      repeat (match type of Ho with @ex _ _ => destruct Ho as [? Ho] end);
      discriminate Ho ].
Qed.

(** ** Deleting asks first *)

Lemma confirm_action_asked (prompt : string) (w : IO.world) :
  Cli.confirm_action prompt w
  = asked (prompt ++ " (yes/no): ")%string "Invalid input. Please enter 'yes' or 'no'."
      yes_or_no w.
Proof.
  unfold Cli.confirm_action. apply ask_checked. intros line. unfold yes_or_no.
  destruct (String.eqb _ "yes"); [done |]. by destruct (String.eqb _ "no").
Qed.

Lemma get_int_input_asked (parse_int : string -> option Z) (prompt : string) (w : IO.world) :
  Cli.get_int_input parse_int prompt w
  = asked prompt "Invalid input. Please enter a valid number." parse_int w.
Proof. unfold Cli.get_int_input. by apply ask_checked. Qed.

Lemma in_range_nil {A} (k : Z) : in_range k (@nil A) = false.
Proof.
  unfold in_range. cbn [length Z.of_nat]. apply andb_false_iff.
  destruct (Z.leb_spec 1 k); [right; apply Z.leb_gt; lia | by left].
Qed.

(** X20: the delete actions delete after a yes, and only then.
    [delete_main_task] takes the first line [int] accepts as the number of
    the main task; if there is such a main task, it takes the first line
    after it that is yes or no, and deletes the main task if that line is
    yes.  [delete_sub_task] takes a main task number and, if that main task
    has sub-tasks, a sub-task number the same way, then the answer.  In every
    other case (no such line, a number outside the list, the answer no)
    the student is left as it was. *)
Theorem delete_actions_ask_first (parse_int : string -> option Z) (st : Student.t)
    (w : IO.world) :
  fst (snd (Menu.delete_main_task parse_int (st, w)))
  = match main_task_to_delete parse_int st (IO.stdin w) with
    | Some list_index =>
        Student.set_task_lists
          (delete (Z.to_nat (list_index - 1)) (Student.task_lists st)) st
    | None => st
    end /\
  fst (snd (Menu.delete_sub_task parse_int (st, w)))
  = match sub_task_to_delete parse_int st (IO.stdin w) with
    | Some (list_index, sub_task_index) =>
        snd (Ops.at_task_list list_index (MainTask.delete_sub_task sub_task_index) st)
    | None => st
    end.
Proof.
  split.
  - unfold Menu.delete_main_task, main_task_to_delete, Student.view_task_lists.
    unfold Actions.bind at 1. cbn [Actions.student fst snd].
    destruct (Student.task_lists st) as [| m0 l0] eqn:El.
    { destruct (first_accepted parse_int (IO.stdin w)) as [[[k rej] rest] |]; [| done].
      by rewrite in_range_nil. }
    rewrite <- El.
    unfold Actions.bind at 1. cbn [Actions.show fst snd].
    unfold Actions.bind at 1. unfold Actions.io at 1. cbn [fst snd].
    rewrite get_int_input_asked. unfold asked at 1. cbn [IO.stdin].
    destruct (first_accepted parse_int (IO.stdin w)) as [[[k rej] rest] |]; [| done].
    destruct (in_range k (Student.task_lists st)) eqn:Hk; [| done].
    unfold Actions.bind at 1. unfold Actions.io at 1. cbn [fst snd].
    rewrite confirm_action_asked. unfold asked at 1. cbn [IO.stdin].
    destruct (first_accepted yes_or_no rest) as [[[[] rej'] rest'] |]; try done.
    unfold Actions.call. cbn [fst snd]. unfold Student.delete_task_list. by rewrite Hk.
  - unfold Menu.delete_sub_task, Menu.pick_sub_task, sub_task_to_delete,
      Student.view_task_lists.
    unfold Actions.bind at 1. cbn [Actions.student fst snd].
    destruct (Student.task_lists st) as [| m0 l0] eqn:El.
    { destruct (first_accepted parse_int (IO.stdin w)) as [[[k rej] rest] |]; [| done].
      by rewrite in_range_nil. }
    rewrite <- El.
    unfold Actions.bind at 1. cbn [Actions.show fst snd].
    unfold Actions.bind at 1. unfold Actions.io at 1. cbn [fst snd].
    rewrite get_int_input_asked. unfold asked at 1. cbn [IO.stdin].
    destruct (first_accepted parse_int (IO.stdin w)) as [[[k rej] rest] |]; [| done].
    destruct (if in_range k (Student.task_lists st)
              then Student.task_lists st !! Z.to_nat (k - 1) else None) as [m |] eqn:Hm;
      [| done].
    destruct (MainTask.sub_tasks m) as [| s0 subs] eqn:Es.
    { destruct (first_accepted parse_int rest) as [[[j rej1] rest1] |]; [| done].
      by rewrite in_range_nil. }
    rewrite <- Es.
    unfold Actions.bind at 1. cbn [Actions.show fst snd].
    unfold Actions.bind at 1. unfold Actions.io at 1. cbn [fst snd].
    rewrite get_int_input_asked. unfold asked at 1. cbn [IO.stdin].
    destruct (first_accepted parse_int rest) as [[[j rej1] rest1] |]; [| done].
    destruct (in_range j (MainTask.sub_tasks m)) eqn:Hj; [| done].
    unfold Actions.bind at 1. unfold Actions.io at 1. cbn [fst snd].
    rewrite confirm_action_asked. unfold asked at 1. cbn [IO.stdin].
    destruct (first_accepted yes_or_no rest1) as [[[[] rej2] rest2] |]; try done.
    unfold Actions.call. cbn [fst snd].
    by destruct (Ops.at_task_list k (MainTask.delete_sub_task j) st) as [[[] | e] st'].
Qed.

(** ** Sessions of the menus *)

Lemma hoare_bind {A B} (P : Student.t -> Prop) (m : Actions.act A)
    (R : A -> Student.t -> Prop) (k : A -> Actions.act B)
    (Q : IO.outcome B -> Student.t -> Prop) :
  hoare P m (fun r st =>
               match r with
               | IO.Done a => R a st
               | IO.EOFError => Q IO.EOFError st
               | IO.Raised e => Q (IO.Raised e) st
               end) ->
  (forall a, hoare (R a) (k a) Q) ->
  hoare P (Actions.bind m k) Q.
Proof.
  intros Hm Hk st w r st' w' HP. unfold Actions.bind.
  destruct (m (st, w)) as [r1 [st1 w1]] eqn:E. specialize (Hm _ _ _ _ _ HP E).
  destruct r1 as [a | | e]; [by apply (Hk a) | |]; by intros [= <- <- <-].
Qed.

Lemma hoare_again (I : Student.t -> Prop) (a : Actions.act unit) :
  hoare I a (kept I) -> hoare I (Menus.again a) (kept I).
Proof.
  intros Ha. unfold Menus.again. apply (hoare_bind _ _ (fun _ => I)).
  - intros st w r st' w' HP Hrun. destruct (Ha st w r st' w' HP Hrun) as [Hr HI].
    destruct r as [[] | | e]; [done | by split | by destruct (Hr e)].
  - intros _. apply hoare_ret. intros st HI. by split.
Qed.

Lemma hoare_back (I : Student.t -> Prop) : hoare I Menus.back (kept I).
Proof. apply hoare_ret. intros st HI. by split. Qed.

Lemma hoare_invalid_choice (I : Student.t -> Prop) : hoare I Menus.invalid_choice (kept I).
Proof. apply hoare_again, hoare_print. intros st HI. by split. Qed.

Lemma hoare_display_help (I : Student.t -> Prop) (menu : string) :
  hoare I (Menus.display_help menu) (kept I).
Proof. apply hoare_print. intros st HI. by split. Qed.

(** A menu keeps what every branch of it keeps. *)
Lemma hoare_rounds (I : Student.t -> Prop) (fuel : nat) (title : string)
    (options : list string) (dispatch : string -> Actions.act (Cli.round unit)) :
  (forall choice, hoare I (dispatch choice) (kept I)) ->
  hoare I (Menus.rounds fuel title options dispatch) (kept I).
Proof.
  intros Hdispatch. induction fuel as [| fuel IH]; cbn [Menus.rounds].
  - intros st w r st' w' HI [= <- <- <-]. by split.
  - apply hoare_bind_show.
    eapply hoare_bind_io; [apply input_spec | by intros st HI; split |].
    intros choice _. apply (hoare_bind _ _ (fun round st => I st)).
    + intros st w r st' w' HI Hrun.
      destruct (Hdispatch _ st w r st' w' HI Hrun) as [Hr HI'].
      destruct r as [round | | e]; [done | by split | by destruct (Hr e)].
    + intros [[] |]; [| exact IH]. apply hoare_ret. intros st HI. by split.
Qed.

Lemma hoare_menu (I : Student.t -> Prop) (title : string) (options : list string)
    (dispatch : string -> Actions.act (Cli.round unit)) :
  (forall choice, hoare I (dispatch choice) (kept I)) ->
  hoare I (Menus.menu title options dispatch) (kept I).
Proof.
  intros Hdispatch st w r st' w' HI. unfold Menus.menu.
  by apply (hoare_rounds I _ title options dispatch Hdispatch).
Qed.

(** An action keeps what its validated calls keep. *)
Lemma performs_kept (a : Actions.act unit) (allowed : Ops.op -> Prop)
    (I : Student.t -> Prop) :
  performs a allowed ->
  (forall o st st',
     allowed o -> validated o st -> Ops.run o st = (Ok tt, st') -> I st -> I st') ->
  hoare I a (kept I).
Proof.
  intros Ha Hrun st w r st' w' Hst Ha'.
  destruct (Ha st w r st' w' Ha') as [Hr [-> | (o & Ho & Hv & Ho')]]; [done |].
  split; [done |]. by apply (Hrun o st st').
Qed.

Lemma performs_session (a : Actions.act unit) (allowed allowed' : Ops.op -> Prop)
    (st0 : Student.t) :
  performs a allowed ->
  (forall o, allowed o -> allowed' o) ->
  hoare (session allowed' st0) a (kept (session allowed' st0)).
Proof.
  intros Ha Hsub. apply (performs_kept a allowed); [done |].
  intros o st st' Ho Hv Hrun Hst. apply (session_call _ _ st o st'); auto.
Qed.

Lemma shows_nothing_else (I : Student.t -> Prop) (table : Student.t -> list IO.output) :
  hoare I (st <-a Actions.student ;; Actions.show (table st)) (kept I).
Proof.
  intros st w r st' w' HI. unfold Actions.bind, Actions.student, Actions.show. cbn.
  intros [= <- <- <-]. by split.
Qed.

Section WithInt.

Variable parse_int : string -> option Z.

Lemma search_tasks_performs :
  performs (Search.search_tasks parse_int) (fun _ => False).
Proof.
  apply performs_hoare. intros st0. unfold Search.search_tasks.
  assert (forall lines, hoare (fun st => st = st0) (Actions.show lines)
                          (performed st0 (fun _ => False))) as Hshow.
  { intros lines st w r st' w' ->. unfold Actions.show. cbn. intros [= <- <- <-].
    by apply performed_unchanged. }
  apply hoare_student_eq.
  destruct (Student.view_task_lists st0) eqn:Hview; [quiet |]. clear Hview.
  apply hoare_bind_show. asks input_spec. intros search_all _.
  asks input_spec. intros keyword _. cbv zeta.
  destruct (String.eqb _ "yes"); [apply Hshow |].
  asks get_int_input_spec. intros k _.
  destruct (if in_range k (Student.task_lists st0) then _ else None); [apply Hshow | quiet].
Qed.

Lemma session_sub (allowed allowed' : Ops.op -> Prop) (st0 st : Student.t) :
  (forall o, allowed o -> allowed' o) ->
  session allowed st0 st -> session allowed' st0 st.
Proof.
  intros Hsub H. induction H as [| st o st' _ IH Ho Hv Hrun]; [constructor |].
  apply (session_call _ _ st o st'); auto.
Qed.

Ltac branch :=
  repeat match goal with
         | |- hoare _ (if ?b then _ else _) _ => destruct b
         end.

Ltac by_action lemma :=
  apply hoare_again; eapply performs_session; [apply lemma |];
  intros o Ho; cbv beta in Ho;
  repeat (match type of Ho with @ex _ _ => destruct Ho as [? Ho] end);
  try subst o; try done.

Lemma mark_tasks_menu_session (allowed : Ops.op -> Prop) (st0 : Student.t) :
  (forall o, marks o -> allowed o) ->
  hoare (session allowed st0) (Menus.mark_tasks_menu parse_int) (kept (session allowed st0)).
Proof.
  intros Hsub. apply hoare_menu. intros choice. branch.
  - by_action mark_main_task_as_completed_performs; by apply Hsub.
  - by_action mark_sub_task_as_completed_performs; by apply Hsub.
  - apply hoare_back.
  - apply hoare_invalid_choice.
Qed.

Lemma view_and_search_menu_session (I : Student.t -> Prop) :
  hoare I (Menus.view_and_search_menu parse_int) (kept I).
Proof.
  apply hoare_menu. intros choice. branch.
  - apply hoare_again, shows_nothing_else.
  - apply hoare_again, shows_nothing_else.
  - apply hoare_again, shows_nothing_else.
  - apply hoare_again. apply (performs_kept _ (fun _ => False)); [| done].
    apply search_tasks_performs.
  - apply hoare_back.
  - apply hoare_invalid_choice.
Qed.

Lemma edit_menu_session (allowed : Ops.op -> Prop) (st0 : Student.t) :
  (forall o, edits o -> allowed o) ->
  hoare (session allowed st0) (Menus.edit_menu parse_int) (kept (session allowed st0)).
Proof.
  intros Hsub. apply hoare_menu. intros choice. branch.
  - by_action edit_task_list_performs; by apply Hsub.
  - by_action edit_sub_task_performs; by apply Hsub.
  - apply hoare_back.
  - apply hoare_invalid_choice.
Qed.

Lemma delete_menu_session (allowed : Ops.op -> Prop) (st0 : Student.t) :
  (forall o, deletes o -> allowed o) ->
  hoare (session allowed st0) (Menus.delete_menu parse_int) (kept (session allowed st0)).
Proof.
  intros Hsub. apply hoare_menu. intros choice. branch.
  - by_action delete_main_task_performs; by apply Hsub.
  - by_action delete_sub_task_performs; by apply Hsub.
  - apply hoare_back.
  - apply hoare_invalid_choice.
Qed.

Lemma task_management_menu_session (st0 : Student.t) :
  hoare (session (fun _ => True) st0) (Menus.task_management_menu parse_int)
    (kept (session (fun _ => True) st0)).
Proof.
  apply hoare_menu. intros choice. branch.
  - by_action create_main_task_performs.
  - by_action add_sub_task_performs.
  - by apply hoare_again, mark_tasks_menu_session.
  - apply hoare_again, view_and_search_menu_session.
  - by apply hoare_again, edit_menu_session.
  - by apply hoare_again, delete_menu_session.
  - apply hoare_back.
  - apply hoare_again, hoare_display_help.
  - apply hoare_invalid_choice.
Qed.

End WithInt.

Lemma session_keeps (allowed : Ops.op -> Prop) (I : Student.t -> Prop) (st0 st : Student.t) :
  (forall o st, allowed o -> validated o st -> I st -> I (snd (Ops.run o st))) ->
  session allowed st0 st -> I st0 -> I st.
Proof.
  intros Hrun H H0. induction H as [| st o st' _ IH Ho Hv Ho']; [done |].
  specialize (Hrun o st Ho Hv IH). by rewrite Ho' in Hrun.
Qed.

Lemma hoare_from (st0 : Student.t) {A} (a : Actions.act A) (allowed : Ops.op -> Prop)
    (Q : IO.outcome A -> Student.t -> Prop) :
  hoare (session allowed st0) a Q -> hoare (fun st => st = st0) a Q.
Proof. apply hoare_weaken. intros st ->. constructor. Qed.

(** X21: a session of a menu changes the student by validated calls that
    return normally, one after the other, and by nothing else; and no
    exception leaves a menu, whatever is typed: it ends when the way back is
    chosen or, with [EOFError], when the input runs out.  The calls of
    [mark_tasks_menu] mark as completed, those of [edit_menu] edit, those of
    [delete_menu] delete; [view_and_search_menu] leaves the student as it
    was; [task_management_menu] makes calls of every kind. *)
Theorem menu_sessions_make_validated_calls (parse_int : string -> option Z)
    (st0 : Student.t) :
  hoare (fun st => st = st0) (Menus.mark_tasks_menu parse_int) (kept (session marks st0)) /\
  hoare (fun st => st = st0) (Menus.view_and_search_menu parse_int)
    (kept (fun st => st = st0)) /\
  hoare (fun st => st = st0) (Menus.edit_menu parse_int) (kept (session edits st0)) /\
  hoare (fun st => st = st0) (Menus.delete_menu parse_int) (kept (session deletes st0)) /\
  hoare (fun st => st = st0) (Menus.task_management_menu parse_int)
    (kept (session (fun _ => True) st0)).
Proof.
  split_and!.
  - by apply (hoare_from st0 _ marks), mark_tasks_menu_session.
  - apply view_and_search_menu_session.
  - by apply (hoare_from st0 _ edits), edit_menu_session.
  - by apply (hoare_from st0 _ deletes), delete_menu_session.
  - apply (hoare_from st0 _ (fun _ => True)), task_management_menu_session.
Qed.

(** X22: what a session keeps.  A session of [task_management_menu], and so
    of every menu below it, keeps the labels of the student's tasks within
    the vocabulary of the input helpers.  A session of [mark_tasks_menu],
    [view_and_search_menu] or [delete_menu] keeps every sub-task within the
    due date of its main task; with [edit_menu] in reach that is not so,
    since [edit_task_list] moves the due date of a main task freely. *)
Theorem menu_sessions_keep_invariants (parse_int : string -> option Z) :
  hoare labelled (Menus.task_management_menu parse_int) (kept labelled) /\
  hoare containment (Menus.mark_tasks_menu parse_int) (kept containment) /\
  hoare containment (Menus.view_and_search_menu parse_int) (kept containment) /\
  hoare containment (Menus.delete_menu parse_int) (kept containment).
Proof.
  assert (forall allowed (I : Student.t -> Prop) (a : Actions.act unit),
            (forall o st, allowed o -> validated o st -> I st -> I (snd (Ops.run o st))) ->
            (forall st0, hoare (session allowed st0) a (kept (session allowed st0))) ->
            hoare I a (kept I)) as Huse.
  { intros allowed I a Hrun Ha st w r st' w' HI Hr.
    destruct (Ha st st w r st' w' (session_start _ _) Hr) as [Hr' Hs].
    split; [done |]. by apply (session_keeps allowed I st st'). }
  split_and!.
  - apply (Huse (fun _ => True)); [| apply task_management_menu_session].
    intros o st _. apply validated_keeps_labelled.
  - apply (Huse marks); [| by intros st0; apply mark_tasks_menu_session].
    intros o st Ho _. apply validated_keeps_containment. intros; intros ->. done.
  - apply view_and_search_menu_session.
  - apply (Huse deletes); [| by intros st0; apply delete_menu_session].
    intros o st Ho _. apply validated_keeps_containment. intros; intros ->. done.
Qed.

(** ** The rounds of a menu *)

Lemma io_reads_on_input (prompt : string) : io_reads_on (IO.input prompt).
Proof.
  intros w r w'. unfold IO.input.
  destruct (IO.stdin w) eqn:E; intros [= <- <-]; cbn; rewrite ?E; cbn; lia.
Qed.

Lemma io_reads_on_loop {A} (prompt : string) (body : string -> IO.io (Cli.round A)) :
  (forall line w, IO.stdin (snd (body line w)) = IO.stdin w) ->
  io_reads_on (Cli.loop prompt body).
Proof.
  intros Hbody w r w'. unfold Cli.loop.
  assert (forall lines w,
            IO.stdin w = lines ->
            length (IO.stdin (snd (Cli.ask prompt body lines w))) <= length lines) as H.
  { clear w r w'. induction lines as [| line rest IH]; intros w Hw; cbn.
    - rewrite Hw. cbn. lia.
    - specialize (Hbody line (IO.mk_world rest (IO.stdout w ++ [IO.Prompt prompt])
                                (IO.clock w) (IO.ticks w))).
      destruct (body line _) as [r1 w2]. cbn in Hbody.
      destruct r1 as [[a |] | | e]; cbn; rewrite ?Hbody; try lia.
      specialize (IH w2 Hbody). lia. }
  intros Hrun. specialize (H (IO.stdin w) w eq_refl). rewrite Hrun in H. exact H.
Qed.

Lemma io_reads_on_get_int_input (parse_int : string -> option Z) (prompt : string) :
  io_reads_on (Cli.get_int_input parse_int prompt).
Proof. apply io_reads_on_loop. intros line w. by destruct (parse_int line). Qed.

Lemma io_reads_on_get_priority_input (prompt : string) :
  io_reads_on (Cli.get_priority_input prompt).
Proof. apply io_reads_on_loop. intros line w. cbv zeta. by destruct (Py.assoc _ _). Qed.

Lemma io_reads_on_get_status_input (prompt : string) :
  io_reads_on (Cli.get_status_input prompt).
Proof. apply io_reads_on_loop. intros line w. cbv zeta. by destruct (Py.assoc _ _). Qed.

Lemma io_reads_on_get_class_code_input (prompt : string) :
  io_reads_on (Cli.get_class_code_input prompt).
Proof.
  apply io_reads_on_loop. intros line w. cbv zeta.
  destruct (String.eqb _ EmptyString); [done |]. by destruct (Text.class_code_re _).
Qed.

Lemma io_reads_on_confirm_action (prompt : string) :
  io_reads_on (Cli.confirm_action prompt).
Proof.
  apply io_reads_on_loop. intros line w. cbv zeta. by destruct (_ || _).
Qed.

Lemma io_reads_on_get_date_input (prompt : string) (main : option datetime.t) :
  io_reads_on (Cli.get_date_input prompt main).
Proof.
  apply io_reads_on_loop. intros line w. cbv zeta.
  destruct (String.eqb _ EmptyString); [done |].
  destruct (datetime.strptime _) as [d |]; [| done].
  unfold Cli.check_date. destruct main as [D |].
  - by destruct (datetime.gt d D).
  - cbn. by destruct (IO.before d _).
Qed.

Lemma reads_on_ret {A} (a : A) : reads_on (Actions.ret a).
Proof. by intros s r s' [= <- <-]. Qed.

Lemma reads_on_io {A} (h : IO.io A) : io_reads_on h -> reads_on (Actions.io h).
Proof.
  intros Hh [st w] r s'. unfold Actions.io. cbn.
  destruct (h w) as [r1 w1] eqn:E. intros [= <- <-]. cbn. by apply (Hh w r1 w1).
Qed.

Lemma reads_on_print (text : string) : reads_on (Actions.print text).
Proof. apply reads_on_io. by intros w r w' [= <- <-]. Qed.

Lemma reads_on_show (lines : list IO.output) : reads_on (Actions.show lines).
Proof. by intros s r s' [= <- <-]. Qed.

Lemma reads_on_call {A} (m : method Student.t A) : reads_on (Actions.call m).
Proof.
  intros s r s'. unfold Actions.call. by destruct (m (fst s)) as [[a | e] st]; intros [= <- <-].
Qed.

Lemma reads_on_construct {A} (c : result A) : reads_on (Actions.construct c).
Proof. intros s r s'. unfold Actions.construct. by destruct c; intros [= <- <-]. Qed.

Lemma reads_on_bind {A B} (m : Actions.act A) (k : A -> Actions.act B) :
  reads_on m -> (forall a, reads_on (k a)) -> reads_on (Actions.bind m k).
Proof.
  intros Hm Hk s r s'. unfold Actions.bind. destruct (m s) as [r1 s1] eqn:E.
  specialize (Hm s r1 s1 E). destruct r1 as [a | | e].
  - intros Hrun. specialize (Hk a s1 r s' Hrun). lia.
  - by intros [= <- <-].
  - by intros [= <- <-].
Qed.

Lemma reads_on_student {B} (k : Student.t -> Actions.act B) :
  (forall st, reads_on (k st)) -> reads_on (Actions.bind Actions.student k).
Proof. intros Hk. apply reads_on_bind; [| done]. by intros s r s' [= <- <-]. Qed.

Lemma reads_on_if_yes {A} (question : string) (h : IO.io A) :
  io_reads_on h -> reads_on (Menu.if_yes question h).
Proof.
  intros Hh. unfold Menu.if_yes, Menu.said_yes.
  apply reads_on_bind.
  - apply reads_on_bind; [apply reads_on_io, io_reads_on_input |].
    intros answer. apply reads_on_ret.
  - intros []; [| apply reads_on_ret].
    apply reads_on_bind; [by apply reads_on_io |]. intros a. apply reads_on_ret.
Qed.

#[local] Hint Resolve io_reads_on_input io_reads_on_get_int_input
  io_reads_on_get_priority_input io_reads_on_get_status_input
  io_reads_on_get_class_code_input io_reads_on_confirm_action io_reads_on_get_date_input
  : actions.

(** The steps of an action, one after the other. *)
Ltac reads :=
  repeat first
    [ apply reads_on_ret | apply reads_on_print | apply reads_on_show
    | apply reads_on_call | apply reads_on_construct
    | apply reads_on_io; auto with actions
    | apply reads_on_if_yes; auto with actions
    | apply reads_on_student; intros ?
    | apply reads_on_bind; [| intros ?]
    | match goal with
      | |- reads_on (match ?x with _ => _ end) => destruct x
      end ].

Section WithInt.

Variable parse_int : string -> option Z.

Lemma menu_actions_read_on :
  reads_on Menu.create_main_task /\
  reads_on (Menu.delete_main_task parse_int) /\
  reads_on (Menu.mark_main_task_as_completed parse_int) /\
  reads_on (Menu.add_sub_task parse_int) /\
  reads_on (Menu.delete_sub_task parse_int) /\
  reads_on (Menu.mark_sub_task_as_completed parse_int) /\
  reads_on (Menu.edit_sub_task parse_int) /\
  reads_on (Menu.edit_task_list parse_int) /\
  reads_on (Search.search_tasks parse_int).
Proof.
  unfold Menu.create_main_task, Menu.delete_main_task, Menu.mark_main_task_as_completed,
    Menu.add_sub_task, Menu.delete_sub_task, Menu.mark_sub_task_as_completed,
    Menu.pick_sub_task, Menu.edit_sub_task, Menu.edit_task_list, Search.search_tasks.
  split_and!; reads.
Qed.

Lemma reads_on_again (a : Actions.act unit) : reads_on a -> reads_on (Menus.again a).
Proof. intros Ha. unfold Menus.again. apply reads_on_bind; [done |]. intros _. reads. Qed.

Lemma reads_on_rounds (fuel : nat) (title : string) (options : list string)
    (dispatch : string -> Actions.act (Cli.round unit)) :
  (forall choice, reads_on (dispatch choice)) ->
  reads_on (Menus.rounds fuel title options dispatch).
Proof.
  intros Hdispatch. induction fuel as [| fuel IH]; cbn [Menus.rounds].
  - by intros s r s' [= <- <-].
  - apply reads_on_bind; [apply reads_on_show |]. intros _.
    apply reads_on_bind; [apply reads_on_io, io_reads_on_input |]. intros choice.
    apply reads_on_bind; [apply Hdispatch |]. intros [[] |]; [apply reads_on_ret | exact IH].
Qed.

Lemma reads_on_menu (title : string) (options : list string)
    (dispatch : string -> Actions.act (Cli.round unit)) :
  (forall choice, reads_on (dispatch choice)) ->
  reads_on (Menus.menu title options dispatch).
Proof.
  intros Hdispatch s r s'. unfold Menus.menu. by apply reads_on_rounds.
Qed.

(** More rounds than lines left are never used: the count a menu starts
    with is enough. *)
Lemma rounds_enough (title : string) (options : list string)
    (dispatch : string -> Actions.act (Cli.round unit)) (fuel fuel' : nat)
    (s : Actions.state) :
  (forall choice, reads_on (dispatch choice)) ->
  length (IO.stdin (snd s)) < fuel ->
  length (IO.stdin (snd s)) < fuel' ->
  Menus.rounds fuel title options dispatch s = Menus.rounds fuel' title options dispatch s.
Proof.
  intros Hdispatch. revert fuel' s.
  induction fuel as [| fuel IH]; intros fuel' [st w] Hfuel Hfuel'; [cbn in Hfuel; lia |].
  destruct fuel' as [| fuel']; [cbn in Hfuel'; lia |].
  cbn [Menus.rounds]. unfold Actions.bind, Actions.show, Actions.io, IO.input.
  cbn [fst snd IO.stdin IO.stdout IO.clock IO.ticks] in *.
  destruct (IO.stdin w) as [| line rest] eqn:E; [done |]. cbn [length] in Hfuel, Hfuel'.
  destruct (dispatch _ _) as [r1 s1] eqn:Hr.
  apply Hdispatch in Hr. cbn [fst snd IO.stdin] in Hr.
  destruct r1 as [[[] |] | | e]; try done.
  apply IH; lia.
Qed.

End WithInt.

Section WithInt.

Variable parse_int : string -> option Z.

Lemma menus_read_on :
  reads_on (Menus.mark_tasks_menu parse_int) /\
  reads_on (Menus.view_and_search_menu parse_int) /\
  reads_on (Menus.edit_menu parse_int) /\
  reads_on (Menus.delete_menu parse_int) /\
  reads_on (Menus.task_management_menu parse_int).
Proof.
  destruct (menu_actions_read_on parse_int)
    as (Hcreate & Hdelete & Hmark & Hadd & Hdelete_sub & Hmark_sub & Hedit_sub & Hedit
        & Hsearch).
  assert (reads_on Menus.back) as Hback by apply reads_on_ret.
  assert (reads_on Menus.invalid_choice) as Hinvalid
    by apply reads_on_again, reads_on_print.
  assert (reads_on (Menus.mark_tasks_menu parse_int)) as Hmarks.
  { apply reads_on_menu. intros choice.
    repeat (match goal with |- reads_on (if ?b then _ else _) => destruct b end);
      try done; by apply reads_on_again. }
  assert (reads_on (Menus.view_and_search_menu parse_int)) as Hviews.
  { apply reads_on_menu. intros choice.
    repeat (match goal with |- reads_on (if ?b then _ else _) => destruct b end);
      try done; apply reads_on_again; try done;
      apply reads_on_student; intros st; apply reads_on_show. }
  assert (reads_on (Menus.edit_menu parse_int)) as Hedits.
  { apply reads_on_menu. intros choice.
    repeat (match goal with |- reads_on (if ?b then _ else _) => destruct b end);
      try done; by apply reads_on_again. }
  assert (reads_on (Menus.delete_menu parse_int)) as Hdeletes.
  { apply reads_on_menu. intros choice.
    repeat (match goal with |- reads_on (if ?b then _ else _) => destruct b end);
      try done; by apply reads_on_again. }
  split_and!; try done.
  apply reads_on_menu. intros choice.
  repeat (match goal with |- reads_on (if ?b then _ else _) => destruct b end);
    try done; apply reads_on_again; try done. apply reads_on_print.
Qed.

End WithInt.

(** X23: the menus end with the input.  A session puts no line back, and
    every round of a menu reads one, so a menu goes round at most once more
    than there are lines left: counted down from any larger number of rounds
    the session is the same, and the count is never used up. *)
Theorem menus_end_with_the_input (parse_int : string -> option Z) :
  (reads_on (Menus.mark_tasks_menu parse_int) /\
   reads_on (Menus.view_and_search_menu parse_int) /\
   reads_on (Menus.edit_menu parse_int) /\
   reads_on (Menus.delete_menu parse_int) /\
   reads_on (Menus.task_management_menu parse_int)) /\
  (forall title options dispatch fuel s,
     (forall choice, reads_on (dispatch choice)) ->
     length (IO.stdin (snd s)) < fuel ->
     Menus.rounds fuel title options dispatch s = Menus.menu title options dispatch s).
Proof.
  split; [apply menus_read_on |].
  intros title options dispatch fuel s Hdispatch Hfuel. unfold Menus.menu.
  apply rounds_enough; [done | done | lia].
Qed.

(** A session: a main task is created, a sub-task is added once its due
    date is not after the main task's, the sub-task is marked, the main task
    is moved before its sub-task through the edit menu, a deletion is not
    confirmed, and the menu is left; the line after that is not read. *)
Example task_management_session :
  let '(r, (st, w)) :=
    Menus.task_management_menu one_digit
      (s1, terminal
             ["1"; "Essay"; "01/06/2025"; "h"; "n"; " ";
              "2"; "1"; "Draft"; "02/06/2025"; "01/05/2025"; "l"; "c";
              "3"; "2"; "1"; "1"; "3";
              "5"; "1"; "1"; "Report"; "yes"; "01/04/2025"; "no"; "no"; "no"; "3";
              "6"; "1"; "1"; "no"; "3";
              "9"; " 7 "; "left"]) in
  r = IO.Done tt /\
  IO.stdin w = ["left"] /\
  Student.task_lists st
  = [MainTask.mk "Report" (Some (datetime.mk 2025 4 1)) "High" "Not Started" None
       [SubTask.mk "Draft" (Some (datetime.mk 2025 5 1)) "Low" "N/A" true]].
Proof. vm_compute. by split_and!. Qed.
